(** * E-commerce ETL: the Transform phase, embedded and verified

    A shallow embedding of the dimension and fact builders of
    [src/transform/] (date, product, payment-type and customer dimensions,
    the order fact, the cohort-retention fact and the orchestrator that
    sequences them), with the properties the specification states about
    them.

    Conventions of the embedding.
    - A data frame is the list of its rows, in row order; a row is a record.
    - A nullable cell ([NaN], [NaT], [None]) is an [option]; a column an
      extractor validates as non-null carries no [option].
    - Integers are [Z]. A floating-point amount is an IEEE 754 binary64
      value, written as the rational [Q] it denotes; an arithmetic operation
      on amounts is the exact operation followed by rounding to the nearest
      double, ties to even ([Float64]). Overflow, infinities and a [NaN] that
      arithmetic would produce are not modelled: the only [NaN] is a null.
    - A timestamp is the number of seconds since 1970-01-01T00:00:00; a date
      is the number of days since 1970-01-01 (proleptic Gregorian calendar).
    - The wall clock and the row order Polars gives the groups of a
      [group_by] are the two things a run does not control: both are explicit
      parameters of the builders.
    - An extract is the frame an extractor returned. Reading and validating
      the CSV files, and the exceptions that raises, lie outside the
      embedding: a builder's [None] is an exception of the transformation
      itself, and a property of a returned table is stated for the case that
      the call returns. *)

From Stdlib Require Import ZArith QArith Qround Qreduction Qpower Qabs List String Ascii
  Bool Lia Lqa Permutation Sorting.Sorted.
Import ListNotations.

Local Open Scope Z_scope.

(** ** Binary64 arithmetic *)

Module Float64.

(** Round to the nearest integer, ties to the even one. *)
Definition round_half_even (q : Q) : Z :=
  let f := Qfloor q in
  match Qcompare (q - inject_Z f) (1 # 2) with
  | Lt => f
  | Gt => f + 1
  | Eq => if Z.even f then f else f + 1
  end.

(** For [q > 0], the exponent [e] with [2^e <= q < 2^(e+1)]. *)
Definition binade (q : Q) : Z :=
  let d := Z.log2 (Qnum q) - Z.log2 (Zpos (Qden q)) in
  if Qle_bool (2 ^ d) q then d else d - 1.

(** The exponent of the unit in the last place of the doubles around [q]:
    53 significant bits, and the subnormal spacing [2^-1074] below
    [2^-1022]. *)
Definition ulp_exponent (q : Q) : Z := Z.max (binade (Qabs q) - 52) (-1074).

(** The double nearest to [q], ties to the even significand. *)
Definition fl (q : Q) : Q :=
  let q := Qred q in
  match Qnum q with
  | 0 => 0%Q
  | _ => let u := ulp_exponent q in
         Qred (inject_Z (round_half_even (q / 2 ^ u)) * 2 ^ u)
  end.

(** [a + b], [a * b] and [a / b] on doubles. A division by zero does not
    occur where the builders divide (by a day count of at least 1, by a
    count of at least one row, by 365 and by 100). *)
Definition add (a b : Q) : Q := fl (a + b).
Definition mul (a b : Q) : Q := fl (a * b).
Definition div (a b : Q) : Q := fl (a / b).

(** [numpy.rint]. *)
Definition rint (a : Q) : Q := inject_Z (round_half_even a).

End Float64.

(** ** The calendar *)

Module Calendar.

(** The civil date of a day number: what [.dt.year], [.dt.month], [.dt.day]
    and [strftime] read off a date. *)
Record civil := { year : Z; month : Z; day : Z }.

Definition days_per_era : Z := 146097.
Definition epoch_shift : Z := 719468.

(** Day of era (0 .. 146096) to year of era, day of the March-based year and
    March-based month. *)
Definition yoe_of (doe : Z) : Z :=
  (doe - doe / 1460 + doe / 36524 - doe / 146096) / 365.
Definition doy_of (doe : Z) : Z :=
  let yoe := yoe_of doe in doe - (365 * yoe + yoe / 4 - yoe / 100).
Definition mp_of (doe : Z) : Z := (5 * doy_of doe + 2) / 153.

Definition civil_of_era (era doe : Z) : civil :=
  let yoe := yoe_of doe in
  let doy := doy_of doe in
  let mp := mp_of doe in
  let d := doy - (153 * mp + 2) / 5 + 1 in
  let m := if mp <? 10 then mp + 3 else mp - 9 in
  let y := yoe + era * 400 in
  {| year := if m <=? 2 then y + 1 else y; month := m; day := d |}.

Definition civil_from_days (z : Z) : civil :=
  let z' := z + epoch_shift in
  civil_of_era (z' / days_per_era) (z' mod days_per_era).

Definition is_leap (y : Z) : bool :=
  ((y mod 4 =? 0) && negb (y mod 100 =? 0)) || (y mod 400 =? 0).

Definition days_in_month (y m : Z) : Z :=
  if m =? 2 then (if is_leap y then 29 else 28)
  else if (m =? 4) || (m =? 6) || (m =? 9) || (m =? 11) then 30 else 31.

(** A date [datetime.strptime(s, '%Y-%m-%d')] accepts. *)
Definition valid_date (c : civil) : bool :=
  (1 <=? year c) && (year c <=? 9999) &&
  (1 <=? month c) && (month c <=? 12) &&
  (1 <=? day c) && (day c <=? days_in_month (year c) (month c)).

Definition days_from_civil (c : civil) : Z :=
  let y := if month c <=? 2 then year c - 1 else year c in
  let era := y / 400 in
  let yoe := y - era * 400 in
  let mp := (month c + 9) mod 12 in
  let doy := (153 * mp + 2) / 5 + day c - 1 in
  let doe := yoe * 365 + yoe / 4 - yoe / 100 + doy in
  era * days_per_era + doe - epoch_shift.

(** [.dt.to_period('M')]: the ordinal of the month, counted from 1970-01. *)
Definition month_ordinal (c : civil) : Z := (year c - 1970) * 12 + (month c - 1).

(** ISO weekday, 1 = Monday .. 7 = Sunday (1970-01-01 was a Thursday). *)
Definition weekday (z : Z) : Z := (z + 3) mod 7 + 1.

Definition quarter (c : civil) : Z := (month c - 1) / 3 + 1.

Definition seconds_per_day : Z := 86400.

(** The date portion of a timestamp ([.dt.date]). *)
Definition date_of (ts : Z) : Z := ts / seconds_per_day.

(** [Timedelta.days] of [b - a]: whole days, rounded towards minus infinity. *)
Definition delta_days (b a : Z) : Z := (b - a) / seconds_per_day.

Definition to_period_M (ts : Z) : Z := month_ordinal (civil_from_days (date_of ts)).

End Calendar.

(** ** Nullable cells, rounding and text *)

Module Cell.

Definition isna {A} (x : option A) : bool := match x with None => true | Some _ => false end.
Definition notna {A} (x : option A) : bool := negb (isna x).

(** [Series.fillna(v)]. *)
Definition fillna {A} (v : A) (x : option A) : option A :=
  match x with None => Some v | Some _ => x end.

(** Element-wise arithmetic: a null operand gives a null result. *)
Definition lift2 {A B C} (f : A -> B -> C) (x : option A) (y : option B) : option C :=
  match x, y with Some a, Some b => Some (f a b) | _, _ => None end.

Definition option_eqb {A} (eqb : A -> A -> bool) (x y : option A) : bool :=
  match x, y with
  | Some a, Some b => eqb a b
  | None, None => true
  | _, _ => false
  end.

(** The non-null cells of a column, in row order. *)
Definition dropna {A} (l : list (option A)) : list A :=
  flat_map (fun x => match x with Some a => [a] | None => [] end) l.

(** [Series.round(2)], which is numpy's: the double is multiplied by 100,
    rounded to an integer by [rint], and divided by 100. *)
Definition round2 (q : Q) : Q := Float64.div (Float64.rint (Float64.mul q 100)) 100.

(** Polars aggregations skip nulls: [sum] of no value is 0, [mean], [min]
    and [max] of no value are null. The values of a group are added one
    after the other, in row order. *)
Definition Qsum (l : list Q) : Q := fold_left Float64.add l 0%Q.
Definition sum (l : list (option Q)) : Q := Qsum (dropna l).
Definition mean (l : list (option Q)) : option Q :=
  match dropna l with
  | [] => None
  | v => Some (Float64.div (Qsum v) (inject_Z (Z.of_nat (List.length v))))
  end.
Definition Zmin_list (l : list (option Z)) : option Z :=
  match dropna l with [] => None | a :: t => Some (fold_left Z.min t a) end.
Definition Zmax_list (l : list (option Z)) : option Z :=
  match dropna l with [] => None | a :: t => Some (fold_left Z.max t a) end.
(** [count]: the number of non-null cells. *)
Definition count {A} (l : list (option A)) : Z := Z.of_nat (List.length (dropna l)).

End Cell.

Module Text.

Definition digit (n : Z) : ascii := ascii_of_nat (48 + Z.to_nat (n mod 10)).

(** [n] written with exactly [w] decimal digits, zero padded ([%Y] with
    [w = 4], [%m] and [%d] with [w = 2]). *)
Fixpoint zero_padded (w : nat) (n : Z) : string :=
  match w with
  | O => EmptyString
  | S w' => (zero_padded w' (n / 10) ++ String (digit n) EmptyString)%string
  end.

Definition digit_value (c : ascii) : option Z :=
  let n := Z.of_nat (nat_of_ascii c) in
  if (48 <=? n) && (n <=? 57) then Some (n - 48) else None.

(** The cast of a string of decimal digits to an integer; any other
    character makes the (strict) cast fail. *)
Fixpoint int_of_digits (acc : Z) (s : string) : option Z :=
  match s with
  | EmptyString => Some acc
  | String c s' =>
      match digit_value c with
      | Some d => int_of_digits (acc * 10 + d) s'
      | None => None
      end
  end.

Definition cast_int (s : string) : option Z :=
  match s with EmptyString => None | _ => int_of_digits 0 s end.

(** [strftime('%Y%m%d')] and [strftime('%Y-%m-%d')] of a date. *)
Definition strftime_Ymd (z : Z) : string :=
  let c := Calendar.civil_from_days z in
  (zero_padded 4 (Calendar.year c) ++ zero_padded 2 (Calendar.month c)
     ++ zero_padded 2 (Calendar.day c))%string.

Definition strftime_Y_m_d (z : Z) : string :=
  let c := Calendar.civil_from_days z in
  (zero_padded 4 (Calendar.year c) ++ "-" ++ zero_padded 2 (Calendar.month c)
     ++ "-" ++ zero_padded 2 (Calendar.day c))%string.

(** [strftime('%B')] and [strftime('%A')]. *)
Definition month_name (m : Z) : string :=
  nth (Z.to_nat (m - 1))
    ["January"; "February"; "March"; "April"; "May"; "June"; "July"; "August";
     "September"; "October"; "November"; "December"]%string ""%string.

Definition day_name (wd : Z) : string :=
  nth (Z.to_nat (wd - 1))
    ["Monday"; "Tuesday"; "Wednesday"; "Thursday"; "Friday"; "Saturday"; "Sunday"]%string
    ""%string.

End Text.

(** ** Data frames *)

Module Frame.

(** The order in which Polars returns the groups of a [group_by] (called
    without [maintain_order]) is not specified: a run picks some arrangement
    of them. *)
Record group_order := {
  arrange : forall A : Type, list A -> list A;
  arrange_perm : forall (A : Type) (l : list A), Permutation (arrange A l) l
}.

(** The arrangement that leaves the groups in order of first appearance. *)
Definition in_order : group_order :=
  {| arrange := fun _ l => l; arrange_perm := fun _ l => Permutation_refl l |}.

(** The arrangement that returns them last group first. *)
Definition reversed : group_order :=
  {| arrange := fun _ l => rev l;
     arrange_perm := fun _ l => Permutation_sym (Permutation_rev l) |}.

(** The distinct values of a column in order of first appearance
    ([Series.unique()]). *)
Fixpoint distinct {K} (eqb : K -> K -> bool) (l : list K) : list K :=
  match l with
  | [] => []
  | k :: t => k :: filter (fun k' => negb (eqb k k')) (distinct eqb t)
  end.

(** [df.group_by(key)]: one group per distinct key, holding the rows of that
    key in frame order; the groups come in the arrangement the run picks. *)
Definition group_by {R K} (go : group_order) (eqb : K -> K -> bool)
    (key : R -> K) (rows : list R) : list (K * list R) :=
  arrange go _
    (map (fun k => (k, filter (fun r => eqb (key r) k) rows))
         (distinct eqb (map key rows))).

(** [left.merge(right, on=key, how='left')]: every left row, in order, once
    per matching right row (in right order), or once with nulls when no right
    row matches. *)
Definition merge_left {L R} (on : L -> R -> bool) (left : list L) (right : list R)
  : list (L * option R) :=
  flat_map (fun l =>
              match filter (on l) right with
              | [] => [(l, None)]
              | ms => map (fun r => (l, Some r)) ms
              end) left.

(** [left.merge(right, on=key, how='inner')]. *)
Definition merge_inner {L R} (on : L -> R -> bool) (left : list L) (right : list R)
  : list (L * R) :=
  flat_map (fun l => map (fun r => (l, r)) (filter (on l) right)) left.

(** [dict(zip(keys, values))] read at [k]: when a key is repeated the last
    pair wins. *)
Fixpoint dict_get {K V} (eqb : K -> K -> bool) (d : list (K * V)) (k : K) : option V :=
  match d with
  | [] => None
  | (k', v) :: t =>
      match dict_get eqb t k with
      | Some v' => Some v'
      | None => if eqb k' k then Some v else None
      end
  end.

(** [df.reset_index(drop=True)] followed by [df.index + 1]: the rows
    numbered 1, 2, ... in frame order. *)
Fixpoint enumerate_from {A} (n : Z) (l : list A) : list (Z * A) :=
  match l with
  | [] => []
  | a :: t => (n, a) :: enumerate_from (n + 1) t
  end.

(** Insertion into a list sorted by [leb]; [sort] is the sort it gives. *)
Fixpoint insert_sorted {A} (leb : A -> A -> bool) (a : A) (l : list A) : list A :=
  match l with
  | [] => [a]
  | b :: t => if leb a b then a :: l else b :: insert_sorted leb a t
  end.

Definition sort {A} (leb : A -> A -> bool) (l : list A) : list A :=
  fold_right (insert_sorted leb) [] l.

End Frame.

(** ** The error monad of a build

    A builder either returns its table or raises; [None] is the raised
    exception the orchestrator re-raises. *)

Definition bind {A B} (x : option A) (f : A -> option B) : option B :=
  match x with Some a => f a | None => None end.

Notation "x <- c1 ;; c2" := (bind c1 (fun x => c2))
  (at level 61, c1 at next level, right associativity).

(** Element-wise application of a function that may raise. *)
Fixpoint traverse {A B} (f : A -> option B) (l : list A) : option (list B) :=
  match l with
  | [] => Some []
  | a :: t => b <- f a ;; bs <- traverse f t ;; Some (b :: bs)
  end.

(** ** The source extracts

    What the extractors of [src/extract/] hand to the builders: the rows of
    the CSV files with their dates parsed ([errors='coerce'] turns an
    unreadable date into a null) and the identifiers the extractors refuse
    to see null carried without [option]. *)

Module Orders.
Record row := {
  order_id : string;
  customer_id : string;
  order_status : option string;
  order_purchase_timestamp : option Z;
  order_delivered_customer_date : option Z;
  order_estimated_delivery_date : option Z
}.
End Orders.

Module OrderItems.
Record row := {
  order_id : string;
  order_item_id : option Z;
  product_id : string;
  seller_id : option string;
  price : option Q;
  freight_value : option Q
}.
(** [df['item_total'] = df['price'] + df['freight_value']], added by the
    extractor. *)
Definition item_total (r : row) : option Q :=
  Cell.lift2 Float64.add (price r) (freight_value r).
End OrderItems.

Module Customers.
Record row := {
  customer_id : string;
  customer_unique_id : string;
  customer_city : option string;
  customer_state : option string
}.
End Customers.

Module Products.
Record row := {
  product_id : option string;
  product_category_name : option string;
  product_weight_g : option Q;
  product_length_cm : option Q;
  product_height_cm : option Q;
  product_width_cm : option Q;
  product_photos_qty : option Q
}.
(** The two columns the extractor adds. *)
Definition product_volume_cm3 (r : row) : option Q :=
  option_map Cell.round2
    (Cell.lift2 Float64.mul
       (Cell.lift2 Float64.mul (product_length_cm r) (product_height_cm r))
       (product_width_cm r)).
Definition has_photos (r : row) : bool :=
  match product_photos_qty r with
  | Some q => match Qcompare q 0 with Gt => true | _ => false end
  | None => false
  end.
End Products.

Module Payments.
Record row := {
  order_id : string;
  payment_type : option string;
  payment_installments : option Z;
  payment_value : option Q
}.
End Payments.

Module Reviews.
Record row := {
  order_id : string;
  review_score : option Z
}.
End Reviews.

Record extracts := {
  orders : list Orders.row;
  order_items : list OrderItems.row;
  customers : list Customers.row;
  products : list Products.row;
  payments : list Payments.row;
  reviews : list Reviews.row
}.

(** [config/business_rules.yaml], as the builders read it. The file itself
    is not part of the sources: its values are parameters. *)
Record business_rules := {
  vip_customer_min_value : Q;
  vip_customer_min_orders : Z;
  returning_customer_max_orders : Z;
  regions : list (string * list string);
  estimated_lifespan_days : Z;
  start_date : Calendar.civil;
  end_date : Calendar.civil
}.

(** ** DIM_DATE ([src/transform/dim_date.py]) *)

Module DateDimensionBuilder.

Record row := {
  date_key : Z;
  full_date : Z;
  year : Z;
  quarter : Z;
  month : Z;
  month_name : string;
  week : Z;
  day_of_month : Z;
  day_of_week : Z;
  day_name : string;
  is_weekend : bool;
  is_holiday : bool;
  fiscal_year : Z;
  fiscal_quarter : Z;
  created_at : Z
}.

(** The data frame of the dimension. Its columns are those of [row]; a
    caller that assigns [df['date_str']] adds one more, absent ([None]) when
    the frame leaves the builder. *)
Record frame := {
  rows : list row;
  date_str : option (list Z)
}.

Definition holidays : list string :=
  [ "2016-01-01"; "2016-02-08"; "2016-02-09"; "2016-03-25";
    "2016-04-21"; "2016-05-01"; "2016-09-07"; "2016-10-12";
    "2016-11-02"; "2016-11-15"; "2016-12-25";
    "2017-01-01"; "2017-02-27"; "2017-02-28"; "2017-04-14";
    "2017-04-21"; "2017-05-01"; "2017-09-07"; "2017-10-12";
    "2017-11-02"; "2017-11-15"; "2017-12-25";
    "2018-01-01"; "2018-02-12"; "2018-02-13"; "2018-03-30";
    "2018-04-21"; "2018-05-01"; "2018-09-07"; "2018-10-12";
    "2018-11-02"; "2018-11-15"; "2018-12-25" ]%string.

(** [pl.date_range(start, end, interval='1d', eager=True)]: every day from
    [start] to [end_], both included; empty when [end_] is before [start]. *)
Definition date_range (start end_ : Z) : list Z :=
  map (fun i => start + Z.of_nat i) (seq 0 (Z.to_nat (end_ - start + 1))).

(** ISO-8601 week number ([.dt.week()]). *)
Definition weeks_in_year (y : Z) : Z :=
  let p := fun y => (y + y / 4 - y / 100 + y / 400) mod 7 in
  if (p y =? 4) || (p (y - 1) =? 3) then 53 else 52.

Definition iso_week (z : Z) : Z :=
  let c := Calendar.civil_from_days z in
  let jan1 := Calendar.days_from_civil
                {| Calendar.year := Calendar.year c; Calendar.month := 1; Calendar.day := 1 |} in
  let w := (z - jan1 + 1 - Calendar.weekday z + 10) / 7 in
  if w <? 1 then weeks_in_year (Calendar.year c - 1)
  else if weeks_in_year (Calendar.year c) <? w then 1
  else w.

Definition build_row (now : Z) (d : Z) : option row :=
  let c := Calendar.civil_from_days d in
  key <- Text.cast_int (Text.strftime_Ymd d) ;;
  Some {| date_key := key;
          full_date := d;
          year := Calendar.year c;
          quarter := Calendar.quarter c;
          month := Calendar.month c;
          month_name := Text.month_name (Calendar.month c);
          week := iso_week d;
          day_of_month := Calendar.day c;
          day_of_week := Calendar.weekday d;
          day_name := Text.day_name (Calendar.weekday d);
          is_weekend := 6 <=? Calendar.weekday d;
          is_holiday := existsb (String.eqb (Text.strftime_Y_m_d d)) holidays;
          fiscal_year := Calendar.year c;
          fiscal_quarter := Calendar.quarter c;
          created_at := now |}.

(** The same row with the key written arithmetically: what [build_row]
    returns whenever the year is written with four digits. *)
Definition row_of_day (now : Z) (d : Z) : row :=
  let c := Calendar.civil_from_days d in
  {| date_key := Calendar.year c * 10000 + Calendar.month c * 100 + Calendar.day c;
     full_date := d;
     year := Calendar.year c;
     quarter := Calendar.quarter c;
     month := Calendar.month c;
     month_name := Text.month_name (Calendar.month c);
     week := iso_week d;
     day_of_month := Calendar.day c;
     day_of_week := Calendar.weekday d;
     day_name := Text.day_name (Calendar.weekday d);
     is_weekend := 6 <=? Calendar.weekday d;
     is_holiday := existsb (String.eqb (Text.strftime_Y_m_d d)) holidays;
     fiscal_year := Calendar.year c;
     fiscal_quarter := Calendar.quarter c;
     created_at := now |}.

Definition build (cfg : business_rules) (now : Z) : option frame :=
  let start := Calendar.days_from_civil (start_date cfg) in
  let end_ := Calendar.days_from_civil (end_date cfg) in
  rs <- traverse (build_row now) (date_range start end_) ;;
  Some {| rows := rs; date_str := None |}.

End DateDimensionBuilder.

(** ** DIM_PRODUCTS ([src/transform/dim_products.py]) *)

Module ProductDimensionBuilder.

Record row := {
  product_key : Z;
  product_id : string;
  product_category_name : option string;
  product_category_english : string;
  product_category_segment : string;
  product_weight_g : option Q;
  product_length_cm : option Q;
  product_height_cm : option Q;
  product_width_cm : option Q;
  product_volume_cm3 : option Q;
  product_photos_qty : option Q;
  has_photos : bool;
  created_at : Z
}.

Definition category_translation : list (string * string) :=
  [ ("beleza_saude", "health_beauty");
    ("informatica_acessorios", "computers_accessories");
    ("automotivo", "automotive");
    ("cama_mesa_banho", "bed_bath_table");
    ("moveis_decoracao", "furniture_decor");
    ("esporte_lazer", "sports_leisure");
    ("perfumaria", "perfumery");
    ("utilidades_domesticas", "housewares");
    ("telefonia", "telephony");
    ("relogios_presentes", "watches_gifts");
    ("alimentos_bebidas", "food_drinks");
    ("bebes", "baby");
    ("papelaria", "stationery");
    ("tablets_impressao_imagem", "tablets_printing_image");
    ("brinquedos", "toys");
    ("telefonia_fixa", "fixed_telephony");
    ("ferramentas_jardim", "garden_tools");
    ("fashion_bolsas_e_acessorios", "fashion_bags_accessories");
    ("eletrônicos", "electronics");
    ("eletrodomesticos", "home_appliances");
    ("livros_interesse_geral", "books_general_interest");
    ("construcao_ferramentas_construcao", "construction_tools_construction");
    ("casa_construcao", "home_construction");
    ("instrumentos_musicais", "musical_instruments");
    ("eletrodomesticos_2", "home_appliances_2");
    ("livros_tecnicos", "books_technical");
    ("cool_stuff", "cool_stuff");
    ("malas_acessorios", "luggage_accessories");
    ("climatizacao", "air_conditioning");
    ("construcao_ferramentas_iluminacao", "construction_tools_lighting");
    ("artigos_de_festas", "party_supplies");
    ("construcao_ferramentas_seguranca", "construction_tools_safety");
    ("industria_comercio_e_negocios", "industry_commerce_business");
    ("livros_importados", "books_imported");
    ("pcs", "computers");
    ("artigos_de_natal", "christmas_articles");
    ("fashion_calcados", "fashion_shoes");
    ("flores", "flowers");
    ("artes_e_artesanato", "arts_crafts");
    ("fraldas_higiene", "diapers_hygiene");
    ("fashion_underwear_e_moda_praia", "fashion_underwear_beach");
    ("pet_shop", "pet_shop");
    ("moveis_sala", "living_room_furniture");
    ("construcao_ferramentas_jardim", "construction_tools_garden");
    ("fashion_esporte", "fashion_sports");
    ("sinalizacao_e_seguranca", "signaling_security");
    ("la_cuisine", "la_cuisine");
    ("dvds_blu_ray", "dvds_blu_ray");
    ("fashion_roupa_masculina", "fashion_male_clothing");
    ("portateis_casa_forno_e_cafe", "portable_kitchen_food_processor");
    ("cds_dvds_musicais", "cds_dvds_musicals");
    ("consoles_games", "consoles_games");
    ("audio", "audio");
    ("fashion_roupa_feminina", "fashion_female_clothing");
    ("seguros_e_servicos", "insurance_services");
    ("portateis_cozinha_e_preparadores_de_alimentos", "portable_kitchen");
    ("casa_conforto_2", "home_comfort_2");
    ("agro_industria_e_comercio", "agro_industry_commerce");
    ("market_place", "market_place");
    ("fashion_roupa_infanto_juvenil", "fashion_children_clothes");
    ("musica", "music");
    ("casa_conforto", "home_comfort");
    ("cine_foto", "cine_photo");
    ("moveis_cozinha_area_de_servico_jantar_e_jardim",
     "kitchen_dining_laundry_garden_furniture");
    ("moveis_escritorio", "office_furniture");
    ("moveis_quarto", "bedroom_furniture");
    ("fashion_roupa_de_banho", "fashion_swimwear");
    ("alimentos", "food");
    ("artes", "arts");
    ("eletronicos", "electronics");
    ("livros", "books") ]%string.

Definition category_segments : list (string * list string) :=
  [ ("Electronics",
     ["computers_accessories"; "telephony"; "electronics";
      "tablets_printing_image"; "fixed_telephony"; "computers";
      "consoles_games"; "audio"; "cine_photo"]);
    ("Home & Furniture",
     ["bed_bath_table"; "furniture_decor"; "housewares";
      "home_appliances"; "home_construction"; "air_conditioning";
      "living_room_furniture"; "kitchen_dining_laundry_garden_furniture";
      "office_furniture"; "bedroom_furniture"; "home_comfort";
      "home_appliances_2"; "home_comfort_2"; "la_cuisine"]);
    ("Fashion & Beauty",
     ["health_beauty"; "perfumery"; "fashion_bags_accessories";
      "fashion_shoes"; "fashion_underwear_beach"; "fashion_sports";
      "fashion_male_clothing"; "fashion_female_clothing";
      "fashion_children_clothes"; "fashion_swimwear"; "watches_gifts"]);
    ("Sports & Leisure",
     ["sports_leisure"; "toys"; "baby"; "pet_shop"; "diapers_hygiene"]);
    ("Books & Media",
     ["books_general_interest"; "books_technical"; "books_imported";
      "dvds_blu_ray"; "cds_dvds_musicals"; "music"; "stationery";
      "arts_crafts"; "arts"]);
    ("Automotive & Tools",
     ["automotive"; "garden_tools"; "construction_tools_construction";
      "construction_tools_lighting"; "construction_tools_safety";
      "construction_tools_garden"; "signaling_security"]);
    ("Food & Drinks",
     ["food_drinks"; "food"; "portable_kitchen_food_processor";
      "portable_kitchen"]);
    ("Gifts & Party",
     ["party_supplies"; "christmas_articles"; "flowers"; "cool_stuff"]);
    ("Business & Industry",
     ["industry_commerce_business"; "agro_industry_commerce";
      "office_furniture"; "musical_instruments"]);
    ("Services", ["insurance_services"; "market_place"]);
    ("Other", []) ]%string.

(** The first segment, in the order of the table, that lists the category. *)
Fixpoint first_segment (segs : list (string * list string)) (c : string) : option string :=
  match segs with
  | [] => None
  | (seg, cats) :: t =>
      if existsb (String.eqb c) cats then Some seg else first_segment t c
  end.

Definition _get_category_segment (category_english : string) : string :=
  match first_segment category_segments category_english with
  | Some seg => seg
  | None => "Other"%string
  end.

(** [map(category_translation)], then the untranslated categories filled
    with their original name, or with ['uncategorized'] when that is null
    too. *)
Definition translate (name : option string) : string :=
  match name with
  | Some n =>
      match Frame.dict_get String.eqb category_translation n with
      | Some e => e
      | None => n
      end
  | None => "uncategorized"%string
  end.

Definition build (ex : extracts) (now : Z) : list row :=
  let df := flat_map (fun p => match Products.product_id p with
                               | Some id => [(id, p)]
                               | None => []
                               end) (products ex) in
  map (fun kp =>
         let '(k, (id, p)) := kp in
         let english := translate (Products.product_category_name p) in
         {| product_key := k;
            product_id := id;
            product_category_name := Products.product_category_name p;
            product_category_english := english;
            product_category_segment := _get_category_segment english;
            product_weight_g := Products.product_weight_g p;
            product_length_cm := Products.product_length_cm p;
            product_height_cm := Products.product_height_cm p;
            product_width_cm := Products.product_width_cm p;
            product_volume_cm3 := Products.product_volume_cm3 p;
            product_photos_qty := Products.product_photos_qty p;
            has_photos := Products.has_photos p;
            created_at := now |})
      (Frame.enumerate_from 1 df).

End ProductDimensionBuilder.

(** ** DIM_PAYMENT_TYPE ([src/transform/dim_payment_type.py]) *)

Module PaymentTypeDimensionBuilder.

Record row := {
  payment_type_key : Z;
  payment_type : string;
  payment_category : string;
  created_at : Z
}.

Definition payment_categories : list (string * string) :=
  [ ("credit_card", "Credit");
    ("boleto", "Cash/Banking");
    ("debit_card", "Debit");
    ("voucher", "Voucher");
    ("not_defined", "Unknown") ]%string.

Definition build (ex : extracts) (now : Z) : list row :=
  let unique_payment_types :=
    Frame.distinct String.eqb (Cell.dropna (map Payments.payment_type (payments ex))) in
  map (fun kt =>
         let '(k, t) := kt in
         {| payment_type_key := k;
            payment_type := t;
            payment_category :=
              match Frame.dict_get String.eqb payment_categories t with
              | Some c => c
              | None => "Other"%string
              end;
            created_at := now |})
      (Frame.enumerate_from 1 unique_payment_types).

End PaymentTypeDimensionBuilder.

(** ** DIM_CUSTOMERS ([src/transform/dim_customers.py]) *)

Module CustomerDimensionBuilder.

Record row := {
  customer_key : Z;
  customer_id : string;
  customer_unique_id : string;
  customer_city : option string;
  customer_state : option string;
  customer_region : string;
  customer_segment : string;
  first_order_date : option Z;
  last_order_date : option Z;
  total_orders : option Z;
  delivered_orders : option Z;
  total_spent : option Q;
  avg_order_value : option Q;
  lifetime_value : option Q;
  days_as_customer : option Z;
  purchase_frequency_annual : option Q;
  created_at : Z;
  updated_at : Z
}.

(** Step 4: revenue per order, [group_by('order_id')] over the order items. *)
Definition order_revenue (go : Frame.group_order) (ex : extracts) : list (string * Q) :=
  map (fun g => (fst g, Cell.sum (map OrderItems.item_total (snd g))))
      (Frame.group_by go String.eqb OrderItems.order_id (order_items ex)).

(** Step 5: the orders with their revenue, 0 when the order has no item. *)
Definition orders_with_total (go : Frame.group_order) (ex : extracts)
  : list (Orders.row * option Q) :=
  map (fun lr => (fst lr, Cell.fillna 0%Q (option_map snd (snd lr))))
      (Frame.merge_left (fun o r => String.eqb (Orders.order_id o) (fst r))
         (orders ex) (order_revenue go ex)).

(** The row of [customer_metrics] (steps 6 to 8). *)
Record metrics := {
  m_customer_id : string;
  m_total_orders : Z;
  m_total_spent : Q;
  m_avg_order_value : option Q;
  m_first_order_date : option Z;
  m_last_order_date : option Z;
  m_delivered_orders : Z;
  m_days_as_customer : option Z;
  m_purchase_frequency_annual : option Q;
  m_lifetime_value : option Q
}.

(** [max(x, 1)] applied to a cell: a null stays null. *)
Definition at_least_one_day (x : option Z) : option Z := option_map (fun d => Z.max d 1) x.

(** Counts and day numbers are far below [2^53], where an integer is a
    double. *)
Definition purchase_frequency (total_orders : Z) (days : option Z) : option Q :=
  option_map
    (fun d => Float64.mul (Float64.div (inject_Z total_orders) (inject_Z d)) 365) days.

Definition clv (estimated_lifespan : Z) (avg_order_value freq : option Q) : option Q :=
  option_map Cell.round2
    (Cell.lift2
       (fun a f => Float64.mul (Float64.mul a f)
                     (Float64.div (inject_Z estimated_lifespan) 365))
       avg_order_value freq).

Definition is_delivered (status : option string) : bool :=
  match status with Some s => String.eqb s "delivered" | None => false end.

Definition metrics_of_group (cfg : business_rules)
    (g : string * list (Orders.row * option Q)) : metrics :=
  let os := snd g in
  let total_orders := Z.of_nat (List.length os) in
  let avg := Cell.mean (map snd os) in
  let first := Cell.Zmin_list (map (fun o => Orders.order_purchase_timestamp (fst o)) os) in
  let last := Cell.Zmax_list (map (fun o => Orders.order_purchase_timestamp (fst o)) os) in
  let days := at_least_one_day (Cell.lift2 Calendar.delta_days last first) in
  let freq := purchase_frequency total_orders days in
  {| m_customer_id := fst g;
     m_total_orders := total_orders;
     m_total_spent := Cell.sum (map snd os);
     m_avg_order_value := avg;
     m_first_order_date := first;
     m_last_order_date := last;
     m_delivered_orders :=
       Z.of_nat (List.length
                   (filter (fun o => is_delivered (Orders.order_status (fst o))) os));
     m_days_as_customer := days;
     m_purchase_frequency_annual := freq;
     m_lifetime_value := clv (estimated_lifespan_days cfg) avg freq |}.

Definition customer_metrics (go_items go_orders : Frame.group_order)
    (cfg : business_rules) (ex : extracts) : list metrics :=
  map (metrics_of_group cfg)
      (Frame.group_by go_orders String.eqb (fun o => Orders.customer_id (fst o))
         (orders_with_total go_items ex)).

(** The orders of a customer, with their revenue, in extract order, and the
    row of [customer_metrics] of the customer, if there is one. *)
Definition orders_of (go_items : Frame.group_order) (ex : extracts) (cid : string)
  : list (Orders.row * option Q) :=
  filter (fun o => String.eqb (Orders.customer_id (fst o)) cid) (orders_with_total go_items ex).

Definition metrics_for (go_items go_orders : Frame.group_order) (cfg : business_rules)
    (ex : extracts) (cid : string) : option metrics :=
  find (fun m => String.eqb cid (m_customer_id m))
       (customer_metrics go_items go_orders cfg ex).

Definition _get_region (cfg : business_rules) (state : option string) : string :=
  match state with
  | None => "Unknown"%string
  | Some s =>
      match find (fun r => existsb (String.eqb s) (snd r)) (regions cfg) with
      | Some r => fst r
      | None => "Other"%string
      end
  end.

(** Comparisons of a cell with a number: false on a null, as for NaN. *)
Definition cell_eqb (x : option Z) (n : Z) : bool :=
  match x with Some v => v =? n | None => false end.
Definition cell_geb (x : option Z) (n : Z) : bool :=
  match x with Some v => n <=? v | None => false end.
Definition cell_leb (x : option Z) (n : Z) : bool :=
  match x with Some v => v <=? n | None => false end.
Definition Qgeb (a b : Q) : bool := Qle_bool b a.

Definition _segment_customer (cfg : business_rules)
    (total_orders : option Z) (lifetime_value : option Q) : string :=
  let lifetime_value := match lifetime_value with Some v => v | None => 0%Q end in
  let vip_threshold := vip_customer_min_value cfg in
  let vip_orders := vip_customer_min_orders cfg in
  let returning_max := returning_customer_max_orders cfg in
  if cell_eqb total_orders 0 then "Inactive"%string
  else if cell_geb total_orders vip_orders || Qgeb lifetime_value vip_threshold
       then "VIP"%string
  else if cell_leb total_orders 1 then "New"%string
  else if cell_leb total_orders returning_max then "Returning"%string
  else "Loyal"%string.

(** Steps 9 to 13 for one row of the left join of the customers with their
    metrics: [m] is the matching row of [customer_metrics], if any. *)
Definition dimension_row (cfg : business_rules) (now1 now2 : Z)
    (k : Z) (c : Customers.row) (m : option metrics) : row :=
  let total_orders := option_map m_total_orders m in
  let no_orders := Cell.isna total_orders in
  let total_orders := if no_orders then Some 0 else total_orders in
  let total_spent := if no_orders then Some 0%Q else option_map m_total_spent m in
  let lifetime_value := if no_orders then Some 0%Q else bind m m_lifetime_value in
  {| customer_key := k;
     customer_id := Customers.customer_id c;
     customer_unique_id := Customers.customer_unique_id c;
     customer_city := Customers.customer_city c;
     customer_state := Customers.customer_state c;
     customer_region := _get_region cfg (Customers.customer_state c);
     customer_segment := _segment_customer cfg total_orders lifetime_value;
     first_order_date := bind m m_first_order_date;
     last_order_date := bind m m_last_order_date;
     total_orders := total_orders;
     delivered_orders := option_map m_delivered_orders m;
     total_spent := total_spent;
     avg_order_value := bind m m_avg_order_value;
     lifetime_value := lifetime_value;
     days_as_customer := bind m m_days_as_customer;
     purchase_frequency_annual := bind m m_purchase_frequency_annual;
     created_at := now1;
     updated_at := now2 |}.

(** [go_items] and [go_orders] are the arrangements Polars picks for the two
    [group_by] calls, [now1] and [now2] the two readings of the clock. *)
Definition build (go_items go_orders : Frame.group_order) (cfg : business_rules)
    (ex : extracts) (now1 now2 : Z) : list row :=
  map (fun kcm => dimension_row cfg now1 now2 (fst kcm) (fst (snd kcm)) (snd (snd kcm)))
      (Frame.enumerate_from 1
         (Frame.merge_left
            (fun c m => String.eqb (Customers.customer_id c) (m_customer_id m))
            (customers ex) (customer_metrics go_items go_orders cfg ex))).

End CustomerDimensionBuilder.

(** ** FACT_ORDERS ([src/transform/fact_orders.py]) *)

Module FactOrdersBuilder.

Record row := {
  order_key : Z;
  customer_key : option Z;
  product_key : option Z;
  order_date_key : option Z;
  delivery_date_key : option Z;
  payment_type_key : option Z;
  order_id : string;
  order_status : option string;
  seller_id : option string;
  order_item_count : option Z;
  order_subtotal : option Q;
  order_freight_total : option Q;
  order_total_value : option Q;
  payment_value : option Q;
  payment_installments : option Z;
  delivery_days : option Z;
  estimated_delivery_days : option Z;
  delivery_delay_days : option Z;
  is_late_delivery : bool;
  is_completed_order : bool;
  review_score : option Z;
  has_review : bool;
  order_purchase_timestamp : option Z;
  order_delivered_customer_date : option Z;
  created_at : Z
}.

(** The four dimension frames the caller passes in. They are the caller's
    objects: what they hold after the call is part of the outcome. *)
Record dims := {
  dim_customers : list CustomerDimensionBuilder.row;
  dim_products : list ProductDimensionBuilder.row;
  dim_payment_type : list PaymentTypeDimensionBuilder.row;
  dim_date : DateDimensionBuilder.frame
}.

(** Step 2: the order items aggregated to the order. *)
Record items_agg := {
  ia_order_id : string;
  ia_order_item_count : Z;
  ia_order_subtotal : Q;
  ia_order_freight_total : Q;
  ia_order_total_value : Q;
  ia_primary_product_id : option string;
  ia_seller_id : option string
}.

Definition order_items_agg (go : Frame.group_order) (ex : extracts) : list items_agg :=
  map (fun g =>
         {| ia_order_id := fst g;
            ia_order_item_count := Cell.count (map OrderItems.order_item_id (snd g));
            ia_order_subtotal := Cell.sum (map OrderItems.price (snd g));
            ia_order_freight_total := Cell.sum (map OrderItems.freight_value (snd g));
            ia_order_total_value := Cell.sum (map OrderItems.item_total (snd g));
            ia_primary_product_id := hd_error (map OrderItems.product_id (snd g));
            ia_seller_id := bind (hd_error (snd g)) OrderItems.seller_id |})
      (Frame.group_by go String.eqb OrderItems.order_id (order_items ex)).

(** Step 3: the payments aggregated to the order. *)
Record payments_agg := {
  pa_order_id : string;
  pa_payment_value : Q;
  pa_payment_type : option string;
  pa_payment_installments : option Z
}.

Definition order_payments_agg (go : Frame.group_order) (ex : extracts) : list payments_agg :=
  map (fun g =>
         {| pa_order_id := fst g;
            pa_payment_value := Cell.sum (map Payments.payment_value (snd g));
            pa_payment_type := bind (hd_error (snd g)) Payments.payment_type;
            pa_payment_installments :=
              Cell.Zmax_list (map Payments.payment_installments (snd g)) |})
      (Frame.group_by go String.eqb Payments.order_id (payments ex)).

(** Steps 4 to 6: the three left joins, each on [order_id]. *)
Definition joined (go_items go_payments : Frame.group_order) (ex : extracts)
  : list (((Orders.row * option items_agg) * option payments_agg) * option Reviews.row) :=
  let with_items :=
    Frame.merge_left (fun o a => String.eqb (Orders.order_id o) (ia_order_id a))
      (orders ex) (order_items_agg go_items ex) in
  let with_payments :=
    Frame.merge_left (fun l p => String.eqb (Orders.order_id (fst l)) (pa_order_id p))
      with_items (order_payments_agg go_payments ex) in
  Frame.merge_left
    (fun l r => String.eqb (Orders.order_id (fst (fst l))) (Reviews.order_id r))
    with_payments (reviews ex).

Definition cell_gtb (x : option Z) (n : Z) : bool :=
  match x with Some v => n <? v | None => false end.

(** The working frame [df_fact] holds, next to the final columns, columns
    that the last step drops. *)
Record working := {
  selected : row;
  payment_type : option string;
  primary_product_id : option string;
  customer_id : string;
  order_date : option Z;
  delivery_date : option Z;
  order_estimated_delivery_date : option Z
}.

(** Steps 4 to 8 for one joined row: the fills, the delivery metrics and the
    foreign keys, read in the four lookup dictionaries. *)
Definition fact_row (d : dims) (now : Z) (k : Z)
    (j : ((Orders.row * option items_agg) * option payments_agg) * option Reviews.row)
  : working :=
  let '(((o, ia), pa), rv) := j in
  let customer_lookup :=
    map (fun c => (CustomerDimensionBuilder.customer_id c,
                   CustomerDimensionBuilder.customer_key c)) (dim_customers d) in
  let product_lookup :=
    map (fun p => (ProductDimensionBuilder.product_id p,
                   ProductDimensionBuilder.product_key p)) (dim_products d) in
  let payment_type_lookup :=
    map (fun p => (PaymentTypeDimensionBuilder.payment_type p,
                   PaymentTypeDimensionBuilder.payment_type_key p)) (dim_payment_type d) in
  let date_lookup :=
    map (fun r => (DateDimensionBuilder.full_date r, DateDimensionBuilder.date_key r))
        (DateDimensionBuilder.rows (dim_date d)) in
  let purchase := Orders.order_purchase_timestamp o in
  let delivered := Orders.order_delivered_customer_date o in
  let estimated := Orders.order_estimated_delivery_date o in
  let payment_type := Cell.fillna "not_defined"%string (bind pa pa_payment_type) in
  let review_score := bind rv Reviews.review_score in
  let delay := Cell.lift2 Calendar.delta_days delivered estimated in
  let order_date := option_map Calendar.date_of purchase in
  let delivery_date := option_map Calendar.date_of delivered in
  let primary_product_id := bind ia ia_primary_product_id in
  {| selected :=
  {| order_key := k;
     customer_key := Frame.dict_get String.eqb customer_lookup (Orders.customer_id o);
     product_key := bind primary_product_id (Frame.dict_get String.eqb product_lookup);
     order_date_key := bind order_date (Frame.dict_get Z.eqb date_lookup);
     delivery_date_key := bind delivery_date (Frame.dict_get Z.eqb date_lookup);
     payment_type_key := bind payment_type (Frame.dict_get String.eqb payment_type_lookup);
     order_id := Orders.order_id o;
     order_status := Orders.order_status o;
     seller_id := bind ia ia_seller_id;
     order_item_count := Cell.fillna 0 (option_map ia_order_item_count ia);
     order_subtotal := Cell.fillna 0%Q (option_map ia_order_subtotal ia);
     order_freight_total := Cell.fillna 0%Q (option_map ia_order_freight_total ia);
     order_total_value := Cell.fillna 0%Q (option_map ia_order_total_value ia);
     payment_value := Cell.fillna 0%Q (option_map pa_payment_value pa);
     payment_installments := Cell.fillna 1 (bind pa pa_payment_installments);
     delivery_days := Cell.fillna 0 (Cell.lift2 Calendar.delta_days delivered purchase);
     estimated_delivery_days := Cell.lift2 Calendar.delta_days estimated purchase;
     delivery_delay_days := Cell.fillna 0 delay;
     is_late_delivery := cell_gtb delay 0;
     is_completed_order := CustomerDimensionBuilder.is_delivered (Orders.order_status o);
     review_score := review_score;
     has_review := Cell.notna review_score;
     order_purchase_timestamp := purchase;
     order_delivered_customer_date := delivered;
     created_at := now |};
     payment_type := payment_type;
     primary_product_id := primary_product_id;
     customer_id := Orders.customer_id o;
     order_date := order_date;
     delivery_date := delivery_date;
     order_estimated_delivery_date := estimated |}.

(** The working frame after step 8, its rows numbered from 1. *)
Definition df_fact (go_items go_payments : Frame.group_order) (ex : extracts)
    (d : dims) (now : Z) : list working :=
  map (fun kj => fact_row d now (fst kj) (snd kj))
      (Frame.enumerate_from 1 (joined go_items go_payments ex)).

(** [dim_date['date_str'] = dim_date['full_date'].dt.strftime('%Y%m%d').astype(int)]:
    an assignment into the caller's frame. *)
Definition add_date_str (f : DateDimensionBuilder.frame) : option DateDimensionBuilder.frame :=
  col <- traverse (fun r => Text.cast_int (Text.strftime_Ymd (DateDimensionBuilder.full_date r)))
           (DateDimensionBuilder.rows f) ;;
  Some {| DateDimensionBuilder.rows := DateDimensionBuilder.rows f;
          DateDimensionBuilder.date_str := Some col |}.

(** The fact table (step 9 keeps the final columns of the working frame)
    together with the four frames of the caller as the call leaves them. *)
Definition build (go_items go_payments : Frame.group_order) (ex : extracts)
    (d : dims) (now : Z) : option (list row * dims) :=
  dd <- add_date_str (dim_date d) ;;
  let d' := {| dim_customers := dim_customers d;
               dim_products := dim_products d;
               dim_payment_type := dim_payment_type d;
               dim_date := dd |} in
  Some (map selected (df_fact go_items go_payments ex d' now), d').

End FactOrdersBuilder.

(** ** FACT_COHORT_RETENTION ([src/transform/fact_cohort_retention.py])

    A month ([Period('M')], and the timestamp of its first day that
    [to_timestamp] gives back) is represented by its ordinal. *)

Module CohortRetentionBuilder.

Record row := {
  cohort_retention_key : Z;
  cohort_month : Z;
  months_since_first_purchase : Z;
  cohort_size : option Z;
  retained_customers : Z;
  retention_rate : option Q;
  created_at : Z
}.

(** Step 2: [dim_customers[['customer_id', 'first_order_date']]] with its
    cohort month. *)
Definition customers_cohort (dim_customers : list CustomerDimensionBuilder.row)
  : list (string * option Z) :=
  map (fun c => (CustomerDimensionBuilder.customer_id c,
                 option_map Calendar.to_period_M (CustomerDimensionBuilder.first_order_date c)))
      dim_customers.

(** Step 3: the orders with their order month, inner-joined with the
    cohorts on [customer_id]. *)
Definition orders_cohort (ex : extracts) : list (string * option Z) :=
  map (fun o => (Orders.customer_id o,
                 option_map Calendar.to_period_M (Orders.order_purchase_timestamp o)))
      (orders ex).

Definition analysis (ex : extracts) (dim_customers : list CustomerDimensionBuilder.row)
  : list ((string * option Z) * (string * option Z)) :=
  Frame.merge_inner (fun o c => String.eqb (fst o) (fst c))
    (orders_cohort ex) (customers_cohort dim_customers).

(** Step 4, one row: [(order_month - cohort_month).n]. A null month makes
    the difference [NaT], which has no attribute [n]: the build raises. The
    result is (cohort month, months since first purchase, customer). *)
Definition months_since (j : (string * option Z) * (string * option Z))
  : option (Z * Z * string) :=
  match snd (fst j), snd (snd j) with
  | Some order_month, Some cohort => Some (cohort, order_month - cohort, fst (fst j))
  | _, _ => None
  end.

Definition pair_eqb (a b : Z * Z) : bool := (fst a =? fst b) && (snd a =? snd b).

(** Ascending on (cohort month, months since first purchase). *)
Definition pair_leb (a b : Z * Z) : bool :=
  (fst a <? fst b) || ((fst a =? fst b) && (snd a <=? snd b)).

(** The grouped and sorted frame [cohort_data]:
    (cohort month, months since first purchase) and the number of distinct
    customers of the group. *)
Definition cohort_data (go : Frame.group_order) (rows : list (Z * Z * string))
  : list ((Z * Z) * Z) :=
  Frame.sort (fun a b => pair_leb (fst a) (fst b))
    (map (fun g => (fst g,
                    Z.of_nat (List.length (Frame.distinct String.eqb (map snd (snd g))))))
         (Frame.group_by go pair_eqb fst rows)).

(** Step 5: the rows of month 0 give the cohort sizes. *)
Definition cohort_sizes (data : list ((Z * Z) * Z)) : list (Z * Z) :=
  map (fun r => (fst (fst r), snd r)) (filter (fun r => snd (fst r) =? 0) data).

Definition rate (retained : Z) (size : option Z) : option Q :=
  option_map
    (fun s => Cell.round2 (Float64.mul (Float64.div (inject_Z retained) (inject_Z s)) 100))
    size.

Definition build (go : Frame.group_order) (ex : extracts)
    (dim_customers : list CustomerDimensionBuilder.row) (now : Z) : option (list row) :=
  rows <- traverse months_since (analysis ex dim_customers) ;;
  let data := cohort_data go rows in
  let merged :=
    Frame.merge_left (fun r s => fst (fst r) =? fst s) data (cohort_sizes data) in
  Some (map (fun km =>
               let '(k, (r, s)) := km in
               {| cohort_retention_key := k;
                  cohort_month := fst (fst r);
                  months_since_first_purchase := snd (fst r);
                  cohort_size := option_map snd s;
                  retained_customers := snd r;
                  retention_rate := rate (snd r) (option_map snd s);
                  created_at := now |})
            (Frame.enumerate_from 1 merged)).

End CohortRetentionBuilder.

(** ** The orchestrator ([src/transform/transform_all.py]) *)

Module TransformOrchestrator.

(** [self.dimensions] and [self.facts]: dictionaries from table name to
    frame, empty when the orchestrator is created. *)
Record dimensions := {
  dim_date : option DateDimensionBuilder.frame;
  dim_products : option (list ProductDimensionBuilder.row);
  dim_payment_type : option (list PaymentTypeDimensionBuilder.row);
  dim_customers : option (list CustomerDimensionBuilder.row)
}.

Record facts := {
  fact_orders : option (list FactOrdersBuilder.row);
  fact_cohort_retention : option (list CohortRetentionBuilder.row)
}.

Record state := { self_dimensions : dimensions; self_facts : facts }.

Definition init : state :=
  {| self_dimensions := {| dim_date := None; dim_products := None;
                           dim_payment_type := None; dim_customers := None |};
     self_facts := {| fact_orders := None; fact_cohort_retention := None |} |}.

(** What a run does not control: the successive readings of the clock and
    the arrangement Polars picks at each [group_by], both numbered in
    program order. *)
Record environment := {
  now : nat -> Z;
  group_order : nat -> Frame.group_order
}.

Definition set_dimensions (self : state) (d : dimensions) : state :=
  {| self_dimensions := d; self_facts := self_facts self |}.

Definition set_facts (self : state) (f : facts) : state :=
  {| self_dimensions := self_dimensions self; self_facts := f |}.

Definition _build_dim_date (self : state) (env : environment) (cfg : business_rules)
  : option state :=
  t <- DateDimensionBuilder.build cfg (now env 0%nat) ;;
  let d := self_dimensions self in
  Some (set_dimensions self
          {| dim_date := Some t; dim_products := dim_products d;
             dim_payment_type := dim_payment_type d; dim_customers := dim_customers d |}).

Definition _build_dim_products (self : state) (env : environment) (ex : extracts) : state :=
  let d := self_dimensions self in
  set_dimensions self
    {| dim_date := dim_date d;
       dim_products := Some (ProductDimensionBuilder.build ex (now env 1%nat));
       dim_payment_type := dim_payment_type d; dim_customers := dim_customers d |}.

Definition _build_dim_payment_type (self : state) (env : environment) (ex : extracts)
  : state :=
  let d := self_dimensions self in
  set_dimensions self
    {| dim_date := dim_date d; dim_products := dim_products d;
       dim_payment_type := Some (PaymentTypeDimensionBuilder.build ex (now env 2%nat));
       dim_customers := dim_customers d |}.

Definition _build_dim_customers (self : state) (env : environment) (cfg : business_rules)
    (ex : extracts) : state :=
  let d := self_dimensions self in
  set_dimensions self
    {| dim_date := dim_date d; dim_products := dim_products d;
       dim_payment_type := dim_payment_type d;
       dim_customers :=
         Some (CustomerDimensionBuilder.build (group_order env 0%nat) (group_order env 1%nat)
                 cfg ex (now env 3%nat) (now env 4%nat)) |}.

(** The fact builder works on the frames held in [self.dimensions]: a
    missing one is a [KeyError], and what the builder assigns into a frame is
    seen in the dictionary afterwards. *)
Definition _build_fact_orders (self : state) (env : environment) (ex : extracts)
  : option state :=
  let d := self_dimensions self in
  d_customers <- dim_customers d ;;
  d_products <- dim_products d ;;
  d_payment_type <- dim_payment_type d ;;
  d_date <- dim_date d ;;
  fd <- FactOrdersBuilder.build (group_order env 2%nat) (group_order env 3%nat) ex
          {| FactOrdersBuilder.dim_customers := d_customers;
             FactOrdersBuilder.dim_products := d_products;
             FactOrdersBuilder.dim_payment_type := d_payment_type;
             FactOrdersBuilder.dim_date := d_date |} (now env 5%nat) ;;
  Some {| self_dimensions :=
            {| dim_date := Some (FactOrdersBuilder.dim_date (snd fd));
               dim_products := Some (FactOrdersBuilder.dim_products (snd fd));
               dim_payment_type := Some (FactOrdersBuilder.dim_payment_type (snd fd));
               dim_customers := Some (FactOrdersBuilder.dim_customers (snd fd)) |};
          self_facts :=
            {| fact_orders := Some (fst fd);
               fact_cohort_retention := fact_cohort_retention (self_facts self) |} |}.

Definition _build_fact_cohort_retention (self : state) (env : environment) (ex : extracts)
  : option state :=
  d_customers <- dim_customers (self_dimensions self) ;;
  t <- CohortRetentionBuilder.build (group_order env 4%nat) ex d_customers (now env 6%nat) ;;
  Some (set_facts self
          {| fact_orders := fact_orders (self_facts self);
             fact_cohort_retention := Some t |}).

(** [run_all]: the six builders in dependency order. The returned state is
    the returned dictionary ['dimensions': self.dimensions, 'facts':
    self.facts]; [None] is a raised exception. *)
Definition run_all (self : state) (env : environment) (cfg : business_rules)
    (ex : extracts) : option state :=
  self <- _build_dim_date self env cfg ;;
  let self := _build_dim_products self env ex in
  let self := _build_dim_payment_type self env ex in
  let self := _build_dim_customers self env cfg ex in
  self <- _build_fact_orders self env ex ;;
  _build_fact_cohort_retention self env ex.

(** The output of a run with the [created_at] and [updated_at] columns
    blanked. *)
Definition blank_date (r : DateDimensionBuilder.row) : DateDimensionBuilder.row :=
  {| DateDimensionBuilder.date_key := DateDimensionBuilder.date_key r;
     DateDimensionBuilder.full_date := DateDimensionBuilder.full_date r;
     DateDimensionBuilder.year := DateDimensionBuilder.year r;
     DateDimensionBuilder.quarter := DateDimensionBuilder.quarter r;
     DateDimensionBuilder.month := DateDimensionBuilder.month r;
     DateDimensionBuilder.month_name := DateDimensionBuilder.month_name r;
     DateDimensionBuilder.week := DateDimensionBuilder.week r;
     DateDimensionBuilder.day_of_month := DateDimensionBuilder.day_of_month r;
     DateDimensionBuilder.day_of_week := DateDimensionBuilder.day_of_week r;
     DateDimensionBuilder.day_name := DateDimensionBuilder.day_name r;
     DateDimensionBuilder.is_weekend := DateDimensionBuilder.is_weekend r;
     DateDimensionBuilder.is_holiday := DateDimensionBuilder.is_holiday r;
     DateDimensionBuilder.fiscal_year := DateDimensionBuilder.fiscal_year r;
     DateDimensionBuilder.fiscal_quarter := DateDimensionBuilder.fiscal_quarter r;
     DateDimensionBuilder.created_at := 0 |}.

Definition blank_date_frame (f : DateDimensionBuilder.frame) : DateDimensionBuilder.frame :=
  {| DateDimensionBuilder.rows := map blank_date (DateDimensionBuilder.rows f);
     DateDimensionBuilder.date_str := DateDimensionBuilder.date_str f |}.

Definition blank_product (r : ProductDimensionBuilder.row) : ProductDimensionBuilder.row :=
  {| ProductDimensionBuilder.product_key := ProductDimensionBuilder.product_key r;
     ProductDimensionBuilder.product_id := ProductDimensionBuilder.product_id r;
     ProductDimensionBuilder.product_category_name :=
       ProductDimensionBuilder.product_category_name r;
     ProductDimensionBuilder.product_category_english :=
       ProductDimensionBuilder.product_category_english r;
     ProductDimensionBuilder.product_category_segment :=
       ProductDimensionBuilder.product_category_segment r;
     ProductDimensionBuilder.product_weight_g := ProductDimensionBuilder.product_weight_g r;
     ProductDimensionBuilder.product_length_cm := ProductDimensionBuilder.product_length_cm r;
     ProductDimensionBuilder.product_height_cm := ProductDimensionBuilder.product_height_cm r;
     ProductDimensionBuilder.product_width_cm := ProductDimensionBuilder.product_width_cm r;
     ProductDimensionBuilder.product_volume_cm3 := ProductDimensionBuilder.product_volume_cm3 r;
     ProductDimensionBuilder.product_photos_qty := ProductDimensionBuilder.product_photos_qty r;
     ProductDimensionBuilder.has_photos := ProductDimensionBuilder.has_photos r;
     ProductDimensionBuilder.created_at := 0 |}.

Definition blank_payment_type (r : PaymentTypeDimensionBuilder.row)
  : PaymentTypeDimensionBuilder.row :=
  {| PaymentTypeDimensionBuilder.payment_type_key :=
       PaymentTypeDimensionBuilder.payment_type_key r;
     PaymentTypeDimensionBuilder.payment_type := PaymentTypeDimensionBuilder.payment_type r;
     PaymentTypeDimensionBuilder.payment_category :=
       PaymentTypeDimensionBuilder.payment_category r;
     PaymentTypeDimensionBuilder.created_at := 0 |}.

Definition blank_customer (r : CustomerDimensionBuilder.row) : CustomerDimensionBuilder.row :=
  {| CustomerDimensionBuilder.customer_key := CustomerDimensionBuilder.customer_key r;
     CustomerDimensionBuilder.customer_id := CustomerDimensionBuilder.customer_id r;
     CustomerDimensionBuilder.customer_unique_id :=
       CustomerDimensionBuilder.customer_unique_id r;
     CustomerDimensionBuilder.customer_city := CustomerDimensionBuilder.customer_city r;
     CustomerDimensionBuilder.customer_state := CustomerDimensionBuilder.customer_state r;
     CustomerDimensionBuilder.customer_region := CustomerDimensionBuilder.customer_region r;
     CustomerDimensionBuilder.customer_segment := CustomerDimensionBuilder.customer_segment r;
     CustomerDimensionBuilder.first_order_date := CustomerDimensionBuilder.first_order_date r;
     CustomerDimensionBuilder.last_order_date := CustomerDimensionBuilder.last_order_date r;
     CustomerDimensionBuilder.total_orders := CustomerDimensionBuilder.total_orders r;
     CustomerDimensionBuilder.delivered_orders := CustomerDimensionBuilder.delivered_orders r;
     CustomerDimensionBuilder.total_spent := CustomerDimensionBuilder.total_spent r;
     CustomerDimensionBuilder.avg_order_value := CustomerDimensionBuilder.avg_order_value r;
     CustomerDimensionBuilder.lifetime_value := CustomerDimensionBuilder.lifetime_value r;
     CustomerDimensionBuilder.days_as_customer := CustomerDimensionBuilder.days_as_customer r;
     CustomerDimensionBuilder.purchase_frequency_annual :=
       CustomerDimensionBuilder.purchase_frequency_annual r;
     CustomerDimensionBuilder.created_at := 0;
     CustomerDimensionBuilder.updated_at := 0 |}.

Definition blank_order (r : FactOrdersBuilder.row) : FactOrdersBuilder.row :=
  {| FactOrdersBuilder.order_key := FactOrdersBuilder.order_key r;
     FactOrdersBuilder.customer_key := FactOrdersBuilder.customer_key r;
     FactOrdersBuilder.product_key := FactOrdersBuilder.product_key r;
     FactOrdersBuilder.order_date_key := FactOrdersBuilder.order_date_key r;
     FactOrdersBuilder.delivery_date_key := FactOrdersBuilder.delivery_date_key r;
     FactOrdersBuilder.payment_type_key := FactOrdersBuilder.payment_type_key r;
     FactOrdersBuilder.order_id := FactOrdersBuilder.order_id r;
     FactOrdersBuilder.order_status := FactOrdersBuilder.order_status r;
     FactOrdersBuilder.seller_id := FactOrdersBuilder.seller_id r;
     FactOrdersBuilder.order_item_count := FactOrdersBuilder.order_item_count r;
     FactOrdersBuilder.order_subtotal := FactOrdersBuilder.order_subtotal r;
     FactOrdersBuilder.order_freight_total := FactOrdersBuilder.order_freight_total r;
     FactOrdersBuilder.order_total_value := FactOrdersBuilder.order_total_value r;
     FactOrdersBuilder.payment_value := FactOrdersBuilder.payment_value r;
     FactOrdersBuilder.payment_installments := FactOrdersBuilder.payment_installments r;
     FactOrdersBuilder.delivery_days := FactOrdersBuilder.delivery_days r;
     FactOrdersBuilder.estimated_delivery_days := FactOrdersBuilder.estimated_delivery_days r;
     FactOrdersBuilder.delivery_delay_days := FactOrdersBuilder.delivery_delay_days r;
     FactOrdersBuilder.is_late_delivery := FactOrdersBuilder.is_late_delivery r;
     FactOrdersBuilder.is_completed_order := FactOrdersBuilder.is_completed_order r;
     FactOrdersBuilder.review_score := FactOrdersBuilder.review_score r;
     FactOrdersBuilder.has_review := FactOrdersBuilder.has_review r;
     FactOrdersBuilder.order_purchase_timestamp := FactOrdersBuilder.order_purchase_timestamp r;
     FactOrdersBuilder.order_delivered_customer_date :=
       FactOrdersBuilder.order_delivered_customer_date r;
     FactOrdersBuilder.created_at := 0 |}.

Definition blank_cohort (r : CohortRetentionBuilder.row) : CohortRetentionBuilder.row :=
  {| CohortRetentionBuilder.cohort_retention_key := CohortRetentionBuilder.cohort_retention_key r;
     CohortRetentionBuilder.cohort_month := CohortRetentionBuilder.cohort_month r;
     CohortRetentionBuilder.months_since_first_purchase :=
       CohortRetentionBuilder.months_since_first_purchase r;
     CohortRetentionBuilder.cohort_size := CohortRetentionBuilder.cohort_size r;
     CohortRetentionBuilder.retained_customers := CohortRetentionBuilder.retained_customers r;
     CohortRetentionBuilder.retention_rate := CohortRetentionBuilder.retention_rate r;
     CohortRetentionBuilder.created_at := 0 |}.

Definition without_timestamps (s : state) : state :=
  {| self_dimensions :=
       {| dim_date := option_map blank_date_frame (dim_date (self_dimensions s));
          dim_products := option_map (map blank_product) (dim_products (self_dimensions s));
          dim_payment_type :=
            option_map (map blank_payment_type) (dim_payment_type (self_dimensions s));
          dim_customers := option_map (map blank_customer) (dim_customers (self_dimensions s)) |};
     self_facts :=
       {| fact_orders := option_map (map blank_order) (fact_orders (self_facts s));
          fact_cohort_retention :=
            option_map (map blank_cohort) (fact_cohort_retention (self_facts s)) |} |}.


(** The four dimensions of a call of the fact builder, blanked likewise. *)
Definition blank_dims (d : FactOrdersBuilder.dims) : FactOrdersBuilder.dims :=
  {| FactOrdersBuilder.dim_customers := map blank_customer (FactOrdersBuilder.dim_customers d);
     FactOrdersBuilder.dim_products := map blank_product (FactOrdersBuilder.dim_products d);
     FactOrdersBuilder.dim_payment_type :=
       map blank_payment_type (FactOrdersBuilder.dim_payment_type d);
     FactOrdersBuilder.dim_date := blank_date_frame (FactOrdersBuilder.dim_date d) |}.

End TransformOrchestrator.

(** ** The segmentation rule as the specification words it

    "[total_orders == 0] -> Inactive; [total_orders >= vip_min_orders] or
    [lifetime_value >= vip_min_value] -> VIP; [total_orders <= 1] -> New;
    [total_orders <= returning_max_orders] -> Returning; else Loyal",
    evaluated in this order. *)

Module Specification.

Inductive segment := Inactive | VIP | New | Returning | Loyal.

Definition segment_name (s : segment) : string :=
  match s with
  | Inactive => "Inactive"
  | VIP => "VIP"
  | New => "New"
  | Returning => "Returning"
  | Loyal => "Loyal"
  end%string.

Definition segment_of (cfg : business_rules) (total_orders : Z) (lifetime_value : Q)
  : segment :=
  if total_orders =? 0 then Inactive
  else if (vip_customer_min_orders cfg <=? total_orders)
          || Qle_bool (vip_customer_min_value cfg) lifetime_value then VIP
  else if total_orders <=? 1 then New
  else if total_orders <=? returning_customer_max_orders cfg then Returning
  else Loyal.

End Specification.

(** ** Sample runs

    Small extracts and configurations on which the builders are run. *)

Module Scenario.

Definition civ (y m d : Z) : Calendar.civil :=
  {| Calendar.year := y; Calendar.month := m; Calendar.day := d |}.

(** One hour past midnight of the given day. *)
Definition at_day (y m d : Z) : option Z :=
  Some (Calendar.days_from_civil (civ y m d) * Calendar.seconds_per_day + 3600).

Definition rules : business_rules :=
  {| vip_customer_min_value := 2000;
     vip_customer_min_orders := 5;
     returning_customer_max_orders := 3;
     regions := [("Southeast", ["SP"; "RJ"; "MG"; "ES"]); ("South", ["PR"; "SC"; "RS"])]%string;
     estimated_lifespan_days := 730;
     start_date := civ 2016 1 4;
     end_date := civ 2016 1 6 |}.

(** The same rules with a VIP threshold of one order. *)
Definition rules_vip_from_first_order : business_rules :=
  {| vip_customer_min_value := 2000;
     vip_customer_min_orders := 1;
     returning_customer_max_orders := 3;
     regions := regions rules;
     estimated_lifespan_days := 730;
     start_date := civ 2016 1 4;
     end_date := civ 2016 1 6 |}.

Definition order (id cust status : string) (purchased : option Z) : Orders.row :=
  {| Orders.order_id := id;
     Orders.customer_id := cust;
     Orders.order_status := Some status;
     Orders.order_purchase_timestamp := purchased;
     Orders.order_delivered_customer_date := None;
     Orders.order_estimated_delivery_date := None |}.

Definition item (id product : string) (price : Q) : OrderItems.row :=
  {| OrderItems.order_id := id;
     OrderItems.order_item_id := Some 1;
     OrderItems.product_id := product;
     OrderItems.seller_id := Some "s1"%string;
     OrderItems.price := Some price;
     OrderItems.freight_value := Some 0%Q |}.

Definition customer (id unique state : string) : Customers.row :=
  {| Customers.customer_id := id;
     Customers.customer_unique_id := unique;
     Customers.customer_city := None;
     Customers.customer_state := Some state |}.

(** Customer C1 orders three times (2016-01-05, 2016-02-10, 2016-04-20, 50
    each); C2 never orders; C3 has one canceled order without items or
    payments. Order o1 was reviewed twice. *)
Definition shop : extracts :=
  {| orders :=
       [ order "o1" "C1" "delivered" (at_day 2016 1 5);
         order "o2" "C1" "delivered" (at_day 2016 2 10);
         order "o3" "C1" "shipped" (at_day 2016 4 20);
         order "o4" "C3" "canceled" (at_day 2016 3 1) ]%string;
     order_items :=
       [ item "o1" "p1" 50; item "o2" "p1" 30; item "o2" "p2" 20; item "o3" "p2" 50 ]%string;
     customers :=
       [ customer "C1" "U1" "SP"; customer "C2" "U2" "AM"; customer "C3" "U3" "RS" ]%string;
     products :=
       [ {| Products.product_id := Some "p1"%string;
            Products.product_category_name := Some "pcs"%string;
            Products.product_weight_g := None;
            Products.product_length_cm := Some 2%Q;
            Products.product_height_cm := Some 3%Q;
            Products.product_width_cm := Some 4%Q;
            Products.product_photos_qty := Some 1%Q |} ];
     payments :=
       [ {| Payments.order_id := "o1"%string;
            Payments.payment_type := Some "boleto"%string;
            Payments.payment_installments := Some 2;
            Payments.payment_value := Some 50%Q |};
         {| Payments.order_id := "o2"%string;
            Payments.payment_type := Some "credit_card"%string;
            Payments.payment_installments := Some 1;
            Payments.payment_value := Some 50%Q |} ];
     reviews :=
       [ {| Reviews.order_id := "o1"%string; Reviews.review_score := Some 5 |};
         {| Reviews.order_id := "o1"%string; Reviews.review_score := Some 3 |} ] |}.

(** One order, reviewed twice, and nothing else. *)
Definition reviewed_twice : extracts :=
  {| orders := [ order "o1" "C1" "delivered" (at_day 2016 1 5) ]%string;
     order_items := [];
     customers := [ customer "C1" "U1" "SP" ]%string;
     products := [];
     payments := [];
     reviews :=
       [ {| Reviews.order_id := "o1"%string; Reviews.review_score := Some 5 |};
         {| Reviews.order_id := "o1"%string; Reviews.review_score := Some 4 |} ] |}.

(** Twelve orders of 100 each by one customer, the first and the last 365
    days apart. *)
Definition monthly_days : list Z := [0; 31; 62; 93; 124; 155; 186; 217; 248; 279; 310; 365].

Definition monthly : extracts :=
  {| orders :=
       map (fun d => order (Text.zero_padded 3 d) "C1" "delivered"
                       (Some ((16801 + d) * Calendar.seconds_per_day))) monthly_days;
     order_items := map (fun d => item (Text.zero_padded 3 d) "p1" 100) monthly_days;
     customers := [ customer "C1" "U1" "SP" ]%string;
     products := [];
     payments := [];
     reviews := [] |}.

(** Two orders of 0.19 each (the double nearest to 0.19) by one customer,
    eight days apart: an average order value of 0.19 and an annual frequency
    of 91.25, whose product with 730 / 365 lies, in exact arithmetic, halfway
    between 34.67 and 34.68. *)
Definition cents : extracts :=
  {| orders :=
       [ order "a" "C1" "delivered" (at_day 2016 1 5);
         order "b" "C1" "delivered" (at_day 2016 1 13) ]%string;
     order_items :=
       [ item "a" "p1" (Float64.fl (19 # 100));
         item "b" "p1" (Float64.fl (19 # 100)) ]%string;
     customers := [ customer "C1" "U1" "SP" ]%string;
     products := [];
     payments := [];
     reviews := [] |}.

Definition clock : nat -> Z := fun n => 1500000000 + Z.of_nat n.

(** The four dimensions as their builders return them for an extract. *)
Definition dims_of (ex : extracts) : option FactOrdersBuilder.dims :=
  d_date <- DateDimensionBuilder.build rules (clock 0) ;;
  Some {| FactOrdersBuilder.dim_customers :=
            CustomerDimensionBuilder.build Frame.in_order Frame.in_order rules ex
              (clock 3) (clock 4);
          FactOrdersBuilder.dim_products := ProductDimensionBuilder.build ex (clock 1);
          FactOrdersBuilder.dim_payment_type := PaymentTypeDimensionBuilder.build ex (clock 2);
          FactOrdersBuilder.dim_date := d_date |}.

(** The fact builder run on them. *)
Definition fact_of (ex : extracts) : option (list FactOrdersBuilder.row * FactOrdersBuilder.dims) :=
  d <- dims_of ex ;;
  FactOrdersBuilder.build Frame.in_order Frame.in_order ex d (clock 5).

Definition env : TransformOrchestrator.environment :=
  {| TransformOrchestrator.now := clock;
     TransformOrchestrator.group_order := fun _ => Frame.reversed |}.

(** Another run: a later clock and the groups in the other order. *)
Definition env' : TransformOrchestrator.environment :=
  {| TransformOrchestrator.now := fun n => 1600000000 + 7 * Z.of_nat n;
     TransformOrchestrator.group_order := fun _ => Frame.in_order |}.

End Scenario.

(** * Properties *)

(** ** Data frames *)

Section FrameFacts.

Context {K : Type} (eqb : K -> K -> bool).
Hypothesis eqb_spec : forall a b, eqb a b = true <-> a = b.

Lemma eqb_refl_of_spec : forall a, eqb a a = true.
Proof. intro a. apply eqb_spec. reflexivity. Qed.

Lemma eqb_false_of_spec : forall a b, eqb a b = false <-> a <> b.
Proof.
  intros a b. split.
  - intros H E. apply eqb_spec in E. congruence.
  - intro H. destruct (eqb a b) eqn:E; [apply eqb_spec in E; contradiction | reflexivity].
Qed.

Lemma distinct_In : forall (l : list K) x, In x (Frame.distinct eqb l) <-> In x l.
Proof.
  induction l as [|k t IH]; intro x; simpl; [tauto|].
  rewrite filter_In, IH. split.
  - intros [H | [H _]]; auto.
  - intros [H | H]; auto.
    destruct (eqb k x) eqn:E.
    + left. apply eqb_spec. exact E.
    + right. split; auto.
Qed.

Lemma NoDup_filter : forall {A} (p : A -> bool) (l : list A), NoDup l -> NoDup (filter p l).
Proof.
  intros A p l H. induction H as [|a l Hn Hd IH]; simpl; [constructor|].
  destruct (p a); auto. constructor; auto.
  intro Hin. apply filter_In in Hin. tauto.
Qed.

Lemma distinct_NoDup : forall l : list K, NoDup (Frame.distinct eqb l).
Proof.
  induction l as [|k t IH]; simpl; constructor.
  - intro H. apply filter_In in H. destruct H as [_ H].
    rewrite eqb_refl_of_spec in H. discriminate.
  - apply NoDup_filter. exact IH.
Qed.

(** The keys of the groups of a [group_by]: distinct, and exactly the keys
    of the rows. *)
Lemma group_by_keys_perm : forall {R} go (key : R -> K) rows,
  Permutation (map fst (Frame.group_by go eqb key rows))
              (Frame.distinct eqb (map key rows)).
Proof.
  intros R go key rows. unfold Frame.group_by.
  eapply Permutation_trans.
  - apply Permutation_map. apply Frame.arrange_perm.
  - rewrite map_map. simpl. rewrite map_id. apply Permutation_refl.
Qed.

Lemma group_by_keys_NoDup : forall {R} go (key : R -> K) rows,
  NoDup (map fst (Frame.group_by go eqb key rows)).
Proof.
  intros R go key rows.
  eapply Permutation_NoDup.
  - apply Permutation_sym. apply group_by_keys_perm.
  - apply distinct_NoDup.
Qed.

Lemma group_by_In : forall {R} go (key : R -> K) rows g,
  In g (Frame.group_by go eqb key rows) <->
  In (fst g) (map key rows) /\ snd g = filter (fun r => eqb (key r) (fst g)) rows.
Proof.
  intros R go key rows g. unfold Frame.group_by.
  split.
  - intro H. eapply Permutation_in in H; [|apply Frame.arrange_perm].
    apply in_map_iff in H. destruct H as [k [E Hk]]. subst g. simpl.
    split; [apply distinct_In; exact Hk | reflexivity].
  - intros [Hk Hs]. eapply Permutation_in; [apply Permutation_sym, Frame.arrange_perm|].
    apply in_map_iff. exists (fst g). split.
    + destruct g as [k rs]. simpl in *. subst rs. reflexivity.
    + apply distinct_In. exact Hk.
Qed.

(** Every group of a [group_by] holds a row, and only rows of its key. *)
Lemma group_by_nonempty : forall {R} go (key : R -> K) rows g,
  In g (Frame.group_by go eqb key rows) -> snd g <> [].
Proof.
  intros R go key rows g H. apply group_by_In in H. destruct H as [Hk Hs].
  apply in_map_iff in Hk. destruct Hk as [r [Er Hr]].
  intro E. rewrite E in Hs.
  assert (Hin : In r (filter (fun r0 => eqb (key r0) (fst g)) rows)).
  { apply filter_In. split; auto. apply eqb_spec. exact Er. }
  rewrite <- Hs in Hin. exact Hin.
Qed.

Lemma filter_absent_key : forall {R} (key : R -> K) (k : K) (l : list R),
  ~ In k (map key l) -> filter (fun r => eqb k (key r)) l = [].
Proof.
  intros R key k l. induction l as [|r t IH]; intro Hn; simpl; [reflexivity|].
  destruct (eqb k (key r)) eqn:E.
  - apply eqb_spec in E. exfalso. apply Hn. simpl. left. symmetry. exact E.
  - apply IH. intro H. apply Hn. simpl. right. exact H.
Qed.

(** A right frame whose keys are distinct matches a key at most once: the
    matching rows are the row [find] returns, if any. *)
Lemma filter_unique_key : forall {R} (key : R -> K) (k : K) (right : list R),
  NoDup (map key right) ->
  filter (fun r => eqb k (key r)) right =
  match find (fun r => eqb k (key r)) right with Some r => [r] | None => [] end.
Proof.
  intros R key k right. induction right as [|r t IH]; intro Hnd; simpl; [reflexivity|].
  inversion Hnd as [|x l Hnotin Hnd' Ex]; subst.
  destruct (eqb k (key r)) eqn:E.
  - f_equal. apply eqb_spec in E. subst k.
    apply filter_absent_key. exact Hnotin.
  - apply IH. exact Hnd'.
Qed.

Lemma merge_left_unique : forall {L R} (lkey : L -> K) (rkey : R -> K) left right,
  NoDup (map rkey right) ->
  Frame.merge_left (fun l r => eqb (lkey l) (rkey r)) left right =
  map (fun l => (l, find (fun r => eqb (lkey l) (rkey r)) right)) left.
Proof.
  intros L R lkey rkey left right Hnd. unfold Frame.merge_left.
  induction left as [|l t IH]; [reflexivity|].
  change (flat_map ?f (l :: t)) with (f l ++ flat_map f t).
  rewrite map_cons, IH, (filter_unique_key rkey (lkey l) right Hnd).
  destruct (find (fun r => eqb (lkey l) (rkey r)) right); reflexivity.
Qed.

(** [find] by key in a frame of distinct keys does not depend on the order
    of its rows. *)
Lemma find_unique_perm : forall {R} (key : R -> K) (k : K) (r1 r2 : list R),
  Permutation r1 r2 -> NoDup (map key r1) ->
  find (fun r => eqb k (key r)) r1 = find (fun r => eqb k (key r)) r2.
Proof.
  intros R key k r1 r2 HP. induction HP as [| x l l' HP IH | x y l | l l' l'' HP1 IH1 HP2 IH2];
    intro Hnd; simpl.
  - reflexivity.
  - inversion Hnd; subst. destruct (eqb k (key x)); auto.
  - inversion Hnd as [|a b Hn Hd]; subst.
    destruct (eqb k (key y)) eqn:Ey, (eqb k (key x)) eqn:Ex; try reflexivity.
    apply eqb_spec in Ey, Ex. exfalso. apply Hn. simpl. left. congruence.
  - rewrite IH1 by exact Hnd. apply IH2.
    eapply Permutation_NoDup; [apply Permutation_map; exact HP1 | exact Hnd].
Qed.

End FrameFacts.

Lemma string_eqb_spec : forall a b : string, String.eqb a b = true <-> a = b.
Proof. intros; apply String.eqb_eq. Qed.

Lemma enumerate_from_snd : forall {A} (l : list A) n, map snd (Frame.enumerate_from n l) = l.
Proof. induction l as [|a t IH]; intro n; simpl; [reflexivity | rewrite IH; reflexivity]. Qed.

Lemma enumerate_from_length : forall {A} (l : list A) n,
  List.length (Frame.enumerate_from n l) = List.length l.
Proof. induction l as [|a t IH]; intro n; simpl; [reflexivity | rewrite IH; reflexivity]. Qed.

Lemma enumerate_from_In : forall {A} (l : list A) n k a,
  In (k, a) (Frame.enumerate_from n l) -> In a l.
Proof.
  intros A l n k a H. rewrite <- (enumerate_from_snd l n).
  apply in_map_iff. exists (k, a). split; auto.
Qed.

Lemma In_enumerate_from : forall {A} (l : list A) n a,
  In a l -> exists k, In (k, a) (Frame.enumerate_from n l).
Proof.
  intros A l n a H. rewrite <- (enumerate_from_snd l n) in H.
  apply in_map_iff in H. destruct H as [[k a'] [E H]]. simpl in E. subst a'.
  exists k. exact H.
Qed.

(** ** The customer dimension *)

Section CustomerDimension.

Import CustomerDimensionBuilder.

Variables (go_items go_orders : Frame.group_order) (cfg : business_rules) (ex : extracts).

Local Abbreviation orders_of := (CustomerDimensionBuilder.orders_of go_items ex).
Local Abbreviation metrics_for :=
  (CustomerDimensionBuilder.metrics_for go_items go_orders cfg ex).

Lemma order_revenue_keys : NoDup (map fst (order_revenue go_items ex)).
Proof.
  unfold order_revenue. rewrite map_map. simpl.
  apply (group_by_keys_NoDup String.eqb string_eqb_spec).
Qed.

(** The left join with the revenue keeps the orders as they are, one row
    each. *)
Lemma orders_with_total_eq :
  orders_with_total go_items ex =
  map (fun o => (o, Cell.fillna 0%Q
                      (option_map snd
                         (find (fun r => String.eqb (Orders.order_id o) (fst r))
                               (order_revenue go_items ex)))))
      (orders ex).
Proof.
  unfold orders_with_total.
  rewrite (merge_left_unique String.eqb string_eqb_spec Orders.order_id fst
             (orders ex) (order_revenue go_items ex) order_revenue_keys).
  rewrite map_map. reflexivity.
Qed.

Lemma orders_with_total_fst : map fst (orders_with_total go_items ex) = orders ex.
Proof. rewrite orders_with_total_eq, map_map. simpl. apply map_id. Qed.

Lemma customer_metrics_keys :
  NoDup (map m_customer_id (customer_metrics go_items go_orders cfg ex)).
Proof.
  unfold customer_metrics. rewrite map_map. simpl.
  apply (group_by_keys_NoDup String.eqb string_eqb_spec).
Qed.

Lemma orders_of_fst : forall cid,
  map fst (orders_of cid) =
  filter (fun o => String.eqb (Orders.customer_id o) cid) (orders ex).
Proof.
  intro cid. unfold CustomerDimensionBuilder.orders_of. rewrite <- orders_with_total_fst.
  induction (orders_with_total go_items ex) as [|a t IH]; simpl; [reflexivity|].
  destruct (String.eqb (Orders.customer_id (fst a)) cid); simpl; rewrite IH; reflexivity.
Qed.

(** The metrics row the left join finds for a customer: none when the
    customer has no order, the aggregation of the customer's orders
    otherwise. *)
Lemma metrics_for_none : forall cid,
  (forall o, In o (orders ex) -> Orders.customer_id o <> cid) ->
  metrics_for cid = None.
Proof.
  intros cid Hno. unfold CustomerDimensionBuilder.metrics_for.
  destruct (find _ _) as [m|] eqn:E; [|reflexivity].
  exfalso. apply find_some in E. destruct E as [Hin Heq].
  apply String.eqb_eq in Heq.
  unfold customer_metrics in Hin. apply in_map_iff in Hin.
  destruct Hin as [g [Eg Hg]].
  apply (group_by_In String.eqb string_eqb_spec) in Hg. destruct Hg as [Hk _].
  apply in_map_iff in Hk. destruct Hk as [ot [Ek Hot]].
  assert (Ho : In (fst ot) (orders ex)).
  { rewrite <- orders_with_total_fst. apply in_map. exact Hot. }
  apply (Hno _ Ho). rewrite Ek. subst m. simpl in Heq. congruence.
Qed.

Lemma metrics_for_some : forall cid o,
  In o (orders ex) -> Orders.customer_id o = cid ->
  metrics_for cid = Some (metrics_of_group cfg (cid, orders_of cid)).
Proof.
  intros cid o Ho Hc. unfold CustomerDimensionBuilder.metrics_for.
  destruct (find _ _) as [m|] eqn:E.
  - apply find_some in E. destruct E as [Hin Heq]. apply String.eqb_eq in Heq.
    unfold customer_metrics in Hin. apply in_map_iff in Hin.
    destruct Hin as [[k rs] [Eg Hg]].
    apply (group_by_In String.eqb string_eqb_spec) in Hg. simpl in Hg.
    destruct Hg as [_ Hs]. subst m. simpl in Heq. subst k rs. reflexivity.
  - exfalso.
    rewrite <- orders_with_total_fst in Ho. apply in_map_iff in Ho.
    destruct Ho as [ot [Eo Hot]].
    assert (Hg : In (cid, orders_of cid)
                   (Frame.group_by go_orders String.eqb
                      (fun o => Orders.customer_id (fst o)) (orders_with_total go_items ex))).
    { apply (group_by_In String.eqb string_eqb_spec). simpl. split; [|reflexivity].
      apply in_map_iff. exists ot. split; [congruence | exact Hot]. }
    assert (Hm : In (metrics_of_group cfg (cid, orders_of cid))
                   (customer_metrics go_items go_orders cfg ex)).
    { unfold customer_metrics. apply in_map. exact Hg. }
    pose proof (find_none _ _ E _ Hm) as Hf. simpl in Hf.
    rewrite String.eqb_refl in Hf. discriminate.
Qed.

(** Every row of the dimension is the row of one customer of the extract,
    joined with the metrics found for that customer. *)
Lemma build_row_inv : forall now1 now2 r,
  In r (build go_items go_orders cfg ex now1 now2) ->
  exists k c, In c (customers ex) /\
    r = dimension_row cfg now1 now2 k c (metrics_for (Customers.customer_id c)).
Proof.
  intros now1 now2 r H. unfold build in H.
  rewrite (merge_left_unique String.eqb string_eqb_spec Customers.customer_id m_customer_id
             (customers ex) _ customer_metrics_keys) in H.
  apply in_map_iff in H. destruct H as [[k [c m]] [Er Hin]]. simpl in Er.
  apply enumerate_from_In in Hin. apply in_map_iff in Hin.
  destruct Hin as [c' [Ec Hc]]. inversion Ec; subst c' m.
  exists k, c. split; [exact Hc | symmetry; exact Er].
Qed.

Lemma build_row_of_customer : forall now1 now2 c,
  In c (customers ex) ->
  exists k, In (dimension_row cfg now1 now2 k c (metrics_for (Customers.customer_id c)))
               (build go_items go_orders cfg ex now1 now2).
Proof.
  intros now1 now2 c Hc. unfold build.
  rewrite (merge_left_unique String.eqb string_eqb_spec Customers.customer_id m_customer_id
             (customers ex) _ customer_metrics_keys).
  destruct (In_enumerate_from
              (map (fun l => (l, find (fun r => String.eqb (Customers.customer_id l)
                                                  (m_customer_id r))
                                   (customer_metrics go_items go_orders cfg ex)))
                   (customers ex)) 1
              (c, metrics_for (Customers.customer_id c))) as [k Hk].
  { apply in_map_iff. exists c. split; [reflexivity | exact Hc]. }
  exists k. apply in_map_iff. exists (k, (c, metrics_for (Customers.customer_id c))).
  split; [reflexivity | exact Hk].
Qed.

Lemma build_length : forall now1 now2,
  List.length (build go_items go_orders cfg ex now1 now2) = List.length (customers ex).
Proof.
  intros. unfold build.
  rewrite (merge_left_unique String.eqb string_eqb_spec Customers.customer_id m_customer_id
             (customers ex) _ customer_metrics_keys).
  rewrite length_map, enumerate_from_length, length_map. reflexivity.
Qed.

(** Whether a customer has an order is decidable on the extract. *)
Lemma has_order_dec : forall cid,
  (exists o, In o (orders ex) /\ Orders.customer_id o = cid) \/
  (forall o, In o (orders ex) -> Orders.customer_id o <> cid).
Proof.
  intro cid. induction (orders ex) as [|o t IH].
  - right. intros o [].
  - destruct (String.eqb (Orders.customer_id o) cid) eqn:E.
    + left. exists o. split; [left; reflexivity | apply String.eqb_eq; exact E].
    + destruct IH as [[o' [Ho' Hc]] | Hn].
      * left. exists o'. split; [right; exact Ho' | exact Hc].
      * right. intros o' [Eo | Ho'].
        -- subst o'. apply String.eqb_neq. exact E.
        -- apply Hn. exact Ho'.
Qed.

End CustomerDimension.

(** ** Rounding *)

Lemma round_half_even_bounds : forall (q : Q) (n m : Z),
  (inject_Z n <= q)%Q -> (q <= inject_Z m)%Q ->
  n <= Float64.round_half_even q <= m.
Proof.
  intros q n m Hn Hm.
  assert (Hfn : n <= Qfloor q).
  { rewrite <- (Qfloor_Z n). apply Qfloor_resp_le. exact Hn. }
  assert (Hfm : Qfloor q <= m).
  { rewrite <- (Qfloor_Z m). apply Qfloor_resp_le. exact Hm. }
  assert (Hup : (inject_Z (Qfloor q) < q)%Q -> Qfloor q + 1 <= m).
  { intro Hlt. destruct (Z.eq_dec (Qfloor q) m) as [E|NE]; [|lia].
    exfalso. rewrite E in Hlt. apply (Qlt_irrefl q).
    eapply Qle_lt_trans; [exact Hm | exact Hlt]. }
  assert (Hhalf : (1 # 2 <= q - inject_Z (Qfloor q))%Q -> (inject_Z (Qfloor q) < q)%Q).
  { intro H. apply (Qplus_lt_l _ _ (- inject_Z (Qfloor q))).
    setoid_replace (inject_Z (Qfloor q) + - inject_Z (Qfloor q))%Q with 0%Q by ring.
    eapply Qlt_le_trans; [|exact H]. reflexivity. }
  unfold Float64.round_half_even.
  destruct (Qcompare (q - inject_Z (Qfloor q)) (1 # 2)) eqn:Ec.
  - apply Qeq_alt in Ec.
    assert (H : (1 # 2 <= q - inject_Z (Qfloor q))%Q) by (rewrite Ec; apply Qle_refl).
    specialize (Hup (Hhalf H)). destruct (Z.even (Qfloor q)); lia.
  - lia.
  - apply Qgt_alt in Ec. specialize (Hup (Hhalf (Qlt_le_weak _ _ Ec))). lia.
Qed.

(** The rounded integer is a nearest one, the even one of the two at a tie. *)
Lemma round_half_even_nearest : forall q : Q,
  (Qabs (q - inject_Z (Float64.round_half_even q)) <= 1 # 2)%Q /\
  ((Qabs (q - inject_Z (Float64.round_half_even q)) == 1 # 2)%Q ->
   Z.even (Float64.round_half_even q) = true).
Proof.
  intro q.
  pose proof (Qfloor_le q) as Hlo. pose proof (Qlt_floor q) as Hhi.
  unfold Float64.round_half_even.
  set (f := Qfloor q) in *.
  rewrite inject_Z_plus in Hhi. change (inject_Z 1) with 1%Q in Hhi.
  destruct (Qcompare (q - inject_Z f) (1 # 2)) eqn:Ec.
  - apply Qeq_alt in Ec.
    destruct (Z.even f) eqn:Ev.
    + split; [|intros _; exact Ev]. rewrite Ec. discriminate.
    + assert (E : (q - inject_Z (f + 1) == - (1 # 2))%Q).
      { rewrite inject_Z_plus. change (inject_Z 1) with 1%Q. lra. }
      split; [rewrite E; discriminate|]. intros _.
      rewrite Z.even_add, Ev. reflexivity.
  - apply Qlt_alt in Ec.
    rewrite (Qabs_pos (q - inject_Z f)) by lra.
    split; [lra|]. intro E. lra.
  - apply Qgt_alt in Ec.
    rewrite inject_Z_plus. change (inject_Z 1) with 1%Q.
    rewrite (Qabs_neg (q - (inject_Z f + 1))) by lra.
    split; [lra|]. intro E. lra.
Qed.

Lemma fl_comp : forall p q : Q, (p == q)%Q -> Float64.fl p = Float64.fl q.
Proof. intros p q E. unfold Float64.fl. rewrite (Qred_complete p q E). reflexivity. Qed.

Lemma two_neq_0 : ~ (2 == 0)%Q.
Proof. discriminate. Qed.

Lemma binade_le : forall q : Q, (0 < q)%Q -> (2 ^ Float64.binade q <= q)%Q.
Proof.
  intros [a b] Hq. unfold Float64.binade. cbn [Qnum Qden].
  assert (Ha : 0 < a). { unfold Qlt in Hq. cbn in Hq. lia. }
  set (la := Z.log2 a). set (lb := Z.log2 (Z.pos b)).
  destruct (Qle_bool (2 ^ (la - lb)) (a # b)) eqn:E; [apply Qle_bool_iff; exact E|].
  destruct (Z.log2_spec a Ha) as [Hla _]. fold la in Hla.
  destruct (Z.log2_spec (Z.pos b) eq_refl) as [_ Hlb]. fold lb in Hlb.
  assert (Hla0 : 0 <= la) by apply Z.log2_nonneg.
  assert (Hlb0 : 0 <= lb) by apply Z.log2_nonneg.
  replace (la - lb - 1) with (la - (lb + 1)) by lia.
  rewrite (Qpower_minus 2 la (lb + 1) two_neq_0).
  change 2%Q with (inject_Z 2).
  rewrite <- (Zpower_Qpower 2 la Hla0), <- (Zpower_Qpower 2 (lb + 1)) by lia.
  set (A := 2 ^ la) in *. set (B := 2 ^ Z.succ lb) in *.
  replace (lb + 1) with (Z.succ lb) by lia. fold B.
  assert (HB : 0 < B) by lia.
  apply Qle_shift_div_r; [rewrite <- (Zlt_Qlt 0); exact HB|].
  unfold Qle, Qmult, inject_Z. cbn [Qnum Qden]. nia.
Qed.

(** Rounding to a double does not cross a small non-negative integer. *)
Lemma fl_bounds : forall (x : Q) (c : Z),
  0 <= c < 2 ^ 53 -> (0 <= x)%Q -> (x <= inject_Z c)%Q ->
  (0 <= Float64.fl x)%Q /\ (Float64.fl x <= inject_Z c)%Q.
Proof.
  intros x c Hc H0 Hx. unfold Float64.fl.
  pose proof (Qred_correct x) as Ex.
  set (q := Qred x) in *. rewrite <- Ex in H0, Hx. clearbody q. clear Ex x.
  destruct (Qnum q) eqn:En.
  - split; [apply Qle_refl|]. rewrite <- (Zle_Qle 0). lia.
  - assert (Hpos : (0 < q)%Q). { unfold Qlt. cbn. rewrite En. lia. }
    assert (Eabs : Qabs q = q).
    { destruct q as [a b]. cbn in En. subst a. reflexivity. }
    unfold Float64.ulp_exponent. rewrite Eabs.
    pose proof (binade_le q Hpos) as Hb.
    assert (He : Float64.binade q < 53).
    { apply (Qpower_lt_compat_l_inv 2); [|reflexivity].
      eapply Qle_lt_trans; [exact Hb|]. eapply Qle_lt_trans; [exact Hx|].
      change 2%Q with (inject_Z 2). rewrite <- (Zpower_Qpower 2 53) by lia.
      rewrite <- Zlt_Qlt. lia. }
    set (u := Z.max (Float64.binade q - 52) (-1074)).
    assert (Hu : u <= 0) by (unfold u; lia).
    assert (Epow : (2 ^ u == / inject_Z (2 ^ (- u)))%Q).
    { replace u with (- (- u)) at 1 by lia. rewrite Qpower_opp.
      change 2%Q with (inject_Z 2). rewrite <- (Zpower_Qpower 2 (- u)) by lia. reflexivity. }
    set (P := 2 ^ (- u)) in *.
    assert (HP : 0 < P) by (unfold P; apply Z.pow_pos_nonneg; lia).
    assert (HPq : (0 < inject_Z P)%Q) by (rewrite <- (Zlt_Qlt 0); exact HP).
    assert (Escale : (q / 2 ^ u == q * inject_Z P)%Q).
    { rewrite Epow. unfold Qdiv. rewrite Qinv_involutive. reflexivity. }
    destruct (round_half_even_bounds (q / 2 ^ u) 0 (c * P)) as [Hlo Hhi].
    + rewrite Escale. change (inject_Z 0) with 0%Q.
      apply Qmult_le_0_compat; [exact H0 | apply Qlt_le_weak; exact HPq].
    + rewrite Escale, inject_Z_mult.
      apply Qmult_le_compat_r; [exact Hx | apply Qlt_le_weak; exact HPq].
    + set (m := Float64.round_half_even (q / 2 ^ u)) in *.
      rewrite Qred_correct, Epow.
      split.
      * apply Qmult_le_0_compat; [rewrite <- (Zle_Qle 0); exact Hlo|].
        apply Qlt_le_weak. apply Qinv_lt_0_compat. exact HPq.
      * change (inject_Z m * / inject_Z P)%Q with (inject_Z m / inject_Z P)%Q.
        apply Qle_shift_div_r; [exact HPq|].
        rewrite <- inject_Z_mult, <- Zle_Qle. exact Hhi.
  - exfalso. unfold Qle in H0. cbn in H0. rewrite En in H0. lia.
Qed.

(** Rounding to two decimals keeps an amount between 0 and 100. *)
Lemma round2_bounds : forall q, (0 <= q)%Q -> (q <= 100)%Q ->
  (0 <= Cell.round2 q)%Q /\ (Cell.round2 q <= 100)%Q.
Proof.
  intros q H0 H1. unfold Cell.round2, Float64.div, Float64.mul, Float64.rint.
  destruct (fl_bounds (q * 100) 10000) as [Ha Hb]; [lia | | |].
  - apply Qmult_le_0_compat; [exact H0 | discriminate].
  - change (inject_Z 10000) with (100 * 100)%Q.
    apply Qmult_le_compat_r; [exact H1 | discriminate].
  - destruct (round_half_even_bounds (Float64.fl (q * 100)) 0 10000 Ha Hb) as [Hc Hd].
    set (k := Float64.round_half_even (Float64.fl (q * 100))) in *.
    apply (fl_bounds (inject_Z k / 100) 100); [lia | |].
    + apply Qle_shift_div_l; [reflexivity|]. rewrite Qmult_0_l, <- (Zle_Qle 0). exact Hc.
    + apply Qle_shift_div_r; [reflexivity|].
      change (inject_Z 100 * 100)%Q with (inject_Z 10000). rewrite <- Zle_Qle. exact Hd.
Qed.

(** ** Customers: metrics, lifetime value, segments *)

Section CustomerClaims.

Import CustomerDimensionBuilder.

Lemma dropna_In : forall {A} (l : list (option A)) a, In a (Cell.dropna l) <-> In (Some a) l.
Proof.
  intros A l a. unfold Cell.dropna. rewrite in_flat_map. split.
  - intros [x [Hx Hin]]. destruct x as [b|]; simpl in Hin; [|contradiction].
    destruct Hin as [E|[]]. subst b. exact Hx.
  - intro H. exists (Some a). split; [exact H | left; reflexivity].
Qed.

Lemma Zmin_list_some : forall l t, In (Some t) l -> exists m, Cell.Zmin_list l = Some m.
Proof.
  intros l t H. apply dropna_In in H. unfold Cell.Zmin_list.
  destruct (Cell.dropna l); [contradiction | eexists; reflexivity].
Qed.

Lemma Zmax_list_some : forall l t, In (Some t) l -> exists m, Cell.Zmax_list l = Some m.
Proof.
  intros l t H. apply dropna_In in H. unfold Cell.Zmax_list.
  destruct (Cell.dropna l); [contradiction | eexists; reflexivity].
Qed.

Lemma at_least_one_day_ge : forall x d, at_least_one_day x = Some d -> 1 <= d.
Proof.
  intros [v|] d H; simpl in H; [|discriminate]. inversion H. lia.
Qed.

(** C10. A customer of the extract who has no order gets a dimension row in
    which exactly [total_orders], [total_spent] and [lifetime_value] are set
    to 0; [avg_order_value], [first_order_date], [last_order_date],
    [days_as_customer], [delivered_orders] and [purchase_frequency_annual]
    stay null. *)
Theorem customers_without_orders_zeroed :
  forall go_items go_orders cfg ex now1 now2 r,
    In r (build go_items go_orders cfg ex now1 now2) ->
    (forall o, In o (orders ex) -> Orders.customer_id o <> customer_id r) ->
    total_orders r = Some 0 /\ total_spent r = Some 0%Q /\ lifetime_value r = Some 0%Q /\
    avg_order_value r = None /\ first_order_date r = None /\ last_order_date r = None /\
    days_as_customer r = None /\ delivered_orders r = None /\
    purchase_frequency_annual r = None.
Proof.
  intros go_items go_orders cfg ex now1 now2 r Hin Hno.
  destruct (build_row_inv go_items go_orders cfg ex now1 now2 r Hin) as [k [c [Hc Er]]].
  assert (Eid : customer_id r = Customers.customer_id c) by (rewrite Er; reflexivity).
  rewrite Eid in Hno.
  rewrite (metrics_for_none go_items go_orders cfg ex _ Hno) in Er.
  subst r. simpl. repeat split; reflexivity.
Qed.

Lemma customers_without_orders_zeroed_witness :
  let r := nth 1 (build Frame.reversed Frame.in_order Scenario.rules Scenario.shop 10 11)
               (dimension_row Scenario.rules 0 0 0 (Scenario.customer "" "" "") None) in
  customer_id r = "C2"%string /\
  total_orders r = Some 0 /\ total_spent r = Some 0%Q /\ lifetime_value r = Some 0%Q /\
  avg_order_value r = None /\ first_order_date r = None /\ last_order_date r = None /\
  days_as_customer r = None /\ delivered_orders r = None /\
  purchase_frequency_annual r = None.
Proof.
  split; [reflexivity|].
  apply (customers_without_orders_zeroed Frame.reversed Frame.in_order
           Scenario.rules Scenario.shop 10 11).
  - vm_compute. right. left. reflexivity.
  - intros o Ho. vm_compute in Ho.
    destruct Ho as [E|[E|[E|[E|[]]]]]; subst o; vm_compute; discriminate.
Defined.

(** C4, as stated, fails: the row of a customer who has no order carries a
    null [days_as_customer], not a number that is at least 1. *)
Lemma days_as_customer_at_least_1_fails :
  ~ (forall r, In r (build Frame.in_order Frame.in_order Scenario.rules Scenario.shop 10 11) ->
               exists d, days_as_customer r = Some d /\ 1 <= d).
Proof.
  intro H.
  destruct (H (nth 1 (build Frame.in_order Frame.in_order Scenario.rules Scenario.shop 10 11)
                 (dimension_row Scenario.rules 0 0 0 (Scenario.customer "" "" "") None)))
    as [d [E _]].
  - vm_compute. right. left. reflexivity.
  - vm_compute in E. discriminate.
Qed.

(** C4, amended. In every row of the customer dimension [days_as_customer]
    is null or at least 1. It is a number, at least 1, for every customer
    with an order that carries a purchase timestamp, and exactly 1 when
    [first_order_date] equals [last_order_date]; it is null for a customer
    with no order. *)
Theorem days_as_customer_null_or_at_least_1 :
  forall go_items go_orders cfg ex now1 now2 r,
    In r (build go_items go_orders cfg ex now1 now2) ->
    (forall d, days_as_customer r = Some d -> 1 <= d) /\
    ((exists o t, In o (orders ex) /\ Orders.customer_id o = customer_id r /\
                  Orders.order_purchase_timestamp o = Some t) ->
     exists d, days_as_customer r = Some d /\ 1 <= d) /\
    (forall t, first_order_date r = Some t -> last_order_date r = Some t ->
               days_as_customer r = Some 1) /\
    ((forall o, In o (orders ex) -> Orders.customer_id o <> customer_id r) ->
     days_as_customer r = None).
Proof.
  intros go_items go_orders cfg ex now1 now2 r Hin.
  destruct (build_row_inv go_items go_orders cfg ex now1 now2 r Hin) as [k [c [Hc Er]]].
  assert (Eid : customer_id r = Customers.customer_id c) by (rewrite Er; reflexivity).
  assert (Hge : forall d, days_as_customer r = Some d -> 1 <= d).
  { intros d Hd. rewrite Er in Hd. simpl in Hd.
    destruct (metrics_for go_items go_orders cfg ex (Customers.customer_id c)) as [m|] eqn:Em;
      [|discriminate].
    simpl in Hd.
    destruct (has_order_dec ex (Customers.customer_id c)) as [[o [Ho Eo]] | Hn].
    - rewrite (metrics_for_some go_items go_orders cfg ex _ o Ho Eo) in Em.
      inversion Em; subst m. simpl in Hd. eapply at_least_one_day_ge. exact Hd.
    - rewrite (metrics_for_none go_items go_orders cfg ex _ Hn) in Em. discriminate. }
  split; [exact Hge|]. split; [|split].
  - intros [o [t [Ho [Eo Et]]]]. rewrite Eid in Eo.
    assert (Hd : exists d, days_as_customer r = Some d).
    { rewrite Er. simpl.
      rewrite (metrics_for_some go_items go_orders cfg ex _ o Ho Eo). simpl.
      assert (Hts : In (Some t)
                      (map (fun o0 : Orders.row * option Q =>
                              Orders.order_purchase_timestamp (fst o0))
                           (orders_of go_items ex (Customers.customer_id c)))).
      { rewrite <- (map_map fst Orders.order_purchase_timestamp).
        rewrite orders_of_fst. apply in_map_iff. exists o. split; [exact Et|].
        apply filter_In. split; [exact Ho | apply String.eqb_eq; exact Eo]. }
      destruct (Zmin_list_some _ _ Hts) as [mn Emn].
      destruct (Zmax_list_some _ _ Hts) as [mx Emx].
      rewrite Emn, Emx. simpl. eexists. reflexivity. }
    destruct Hd as [d Hd]. exists d. split; [exact Hd | apply Hge; exact Hd].
  - intros t Hf Hl. rewrite Er in Hf, Hl |- *. simpl in *.
    destruct (metrics_for go_items go_orders cfg ex (Customers.customer_id c)) as [m|] eqn:Em;
      [|discriminate].
    simpl in *.
    destruct (has_order_dec ex (Customers.customer_id c)) as [[o [Ho Eo]] | Hn].
    + rewrite (metrics_for_some go_items go_orders cfg ex _ o Ho Eo) in Em.
      inversion Em; subst m. simpl in *. rewrite Hf, Hl. simpl.
      unfold Calendar.delta_days. rewrite Z.sub_diag. reflexivity.
    + rewrite (metrics_for_none go_items go_orders cfg ex _ Hn) in Em. discriminate.
  - intro Hn. rewrite Eid in Hn. rewrite Er. simpl.
    rewrite (metrics_for_none go_items go_orders cfg ex _ Hn). reflexivity.
Qed.

Lemma days_as_customer_null_or_at_least_1_witness :
  let r := nth 2 (build Frame.reversed Frame.in_order Scenario.rules Scenario.shop 10 11)
               (dimension_row Scenario.rules 0 0 0 (Scenario.customer "" "" "") None) in
  customer_id r = "C3"%string /\ first_order_date r = last_order_date r /\
  days_as_customer r = Some 1.
Proof.
  split; [reflexivity|]. split; [reflexivity|].
  refine (proj1 (proj2 (proj2
            (days_as_customer_null_or_at_least_1 Frame.reversed Frame.in_order
               Scenario.rules Scenario.shop 10 11 _ _))) 1456794000 _ _).
  - vm_compute. right. right. left. reflexivity.
  - reflexivity.
  - reflexivity.
Defined.

(** The two shapes of a dimension row: a customer without orders, or a
    customer joined with the aggregation of their orders. *)
Lemma build_row_cases : forall go_items go_orders cfg ex now1 now2 r,
  In r (build go_items go_orders cfg ex now1 now2) ->
  exists k c, In c (customers ex) /\
    (((forall o, In o (orders ex) -> Orders.customer_id o <> Customers.customer_id c) /\
      r = dimension_row cfg now1 now2 k c None) \/
     ((exists o, In o (orders ex) /\ Orders.customer_id o = Customers.customer_id c) /\
      r = dimension_row cfg now1 now2 k c
            (Some (metrics_of_group cfg
                     (Customers.customer_id c,
                      orders_of go_items ex (Customers.customer_id c)))))).
Proof.
  intros go_items go_orders cfg ex now1 now2 r Hin.
  destruct (build_row_inv go_items go_orders cfg ex now1 now2 r Hin) as [k [c [Hc Er]]].
  exists k, c. split; [exact Hc|].
  destruct (has_order_dec ex (Customers.customer_id c)) as [[o [Ho Eo]] | Hn].
  - right. split; [exists o; auto|].
    rewrite (metrics_for_some go_items go_orders cfg ex _ o Ho Eo) in Er. exact Er.
  - left. split; [exact Hn|].
    rewrite (metrics_for_none go_items go_orders cfg ex _ Hn) in Er. exact Er.
Qed.

(** C5. For every customer with at least one order, [lifetime_value] is
    [avg_order_value * purchase_frequency_annual * (estimated_lifespan_days /
    365)] rounded to two decimals, where [purchase_frequency_annual] is
    [total_orders / days_as_customer * 365], each operation on doubles. The
    rounding is spelled out: the value is the double nearest to [k / 100],
    where [k] is the integer nearest to 100 times the product (as a double),
    the even one at a tie. With an average order value of 100, a frequency
    of 12 and a lifespan of 730 days it is 2400.00. *)
Theorem lifetime_value_formula :
  forall go_items go_orders cfg ex now1 now2 r,
    In r (build go_items go_orders cfg ex now1 now2) ->
    (exists o, In o (orders ex) /\ Orders.customer_id o = customer_id r) ->
    exists n,
      total_orders r = Some n /\
      purchase_frequency_annual r =
        option_map (fun d => Float64.mul (Float64.div (inject_Z n) (inject_Z d)) 365)
          (days_as_customer r) /\
      lifetime_value r =
        option_map Cell.round2
          (Cell.lift2
             (fun a f => Float64.mul (Float64.mul a f)
                           (Float64.div (inject_Z (estimated_lifespan_days cfg)) 365))
             (avg_order_value r) (purchase_frequency_annual r)) /\
      (forall a f, avg_order_value r = Some a -> purchase_frequency_annual r = Some f ->
         let x := Float64.mul (Float64.mul a f)
                    (Float64.div (inject_Z (estimated_lifespan_days cfg)) 365) in
         exists k : Z,
           lifetime_value r = Some (Float64.fl (inject_Z k / 100)) /\
           (Qabs (Float64.fl (x * 100) - inject_Z k) <= 1 # 2)%Q /\
           ((Qabs (Float64.fl (x * 100) - inject_Z k) == 1 # 2)%Q -> Z.even k = true)) /\
      (forall a f, avg_order_value r = Some a -> purchase_frequency_annual r = Some f ->
                   (a == 100)%Q -> (f == 12)%Q -> estimated_lifespan_days cfg = 730 ->
                   lifetime_value r = Some 2400%Q).
Proof.
  intros go_items go_orders cfg ex now1 now2 r Hin [o [Ho Eo]].
  destruct (build_row_cases go_items go_orders cfg ex now1 now2 r Hin)
    as [k [c [Hc [[Hn Er] | [_ Er]]]]].
  - exfalso. apply (Hn o Ho). rewrite Eo, Er. reflexivity.
  - exists (Z.of_nat (List.length (orders_of go_items ex (Customers.customer_id c)))).
    assert (Hf : purchase_frequency_annual r =
                 option_map
                   (fun d => Float64.mul
                               (Float64.div
                                  (inject_Z (Z.of_nat (List.length
                                     (orders_of go_items ex (Customers.customer_id c)))))
                                  (inject_Z d)) 365) (days_as_customer r)).
    { rewrite Er. reflexivity. }
    assert (Hl : lifetime_value r =
                 option_map Cell.round2
                   (Cell.lift2
                      (fun a f => Float64.mul (Float64.mul a f)
                                    (Float64.div (inject_Z (estimated_lifespan_days cfg)) 365))
                      (avg_order_value r) (purchase_frequency_annual r))).
    { rewrite Er. reflexivity. }
    split; [rewrite Er; reflexivity|]. split; [exact Hf|]. split; [exact Hl|]. split.
    + intros a f Ha Hfr x.
      exists (Float64.round_half_even (Float64.fl (x * 100))).
      split; [rewrite Hl, Ha, Hfr; reflexivity|].
      apply round_half_even_nearest.
    + intros a f Ha Hfr Ea Ef El. rewrite Hl, Ha, Hfr, El.
      cbn [Cell.lift2 option_map]. f_equal.
      assert (Em : Float64.mul a f = 1200%Q).
      { unfold Float64.mul. rewrite (fl_comp (a * f) 1200) by (rewrite Ea, Ef; reflexivity).
        vm_compute. reflexivity. }
      rewrite Em. vm_compute. reflexivity.
Qed.

Lemma lifetime_value_formula_witness :
  let r := nth 0 (build Frame.reversed Frame.in_order Scenario.rules Scenario.monthly 10 11)
               (dimension_row Scenario.rules 0 0 0 (Scenario.customer "" "" "") None) in
  let r' := nth 0 (build Frame.reversed Frame.in_order Scenario.rules Scenario.cents 10 11)
                (dimension_row Scenario.rules 0 0 0 (Scenario.customer "" "" "") None) in
  total_orders r = Some 12 /\ days_as_customer r = Some 365 /\
  lifetime_value r = Some 2400%Q /\
  avg_order_value r' = Some (Float64.fl (19 # 100)) /\
  purchase_frequency_annual r' = Some (365 # 4)%Q /\
  lifetime_value r' = Some (Float64.fl (3467 # 100)).
Proof.
  split; [reflexivity|]. split; [reflexivity|].
  destruct (lifetime_value_formula Frame.reversed Frame.in_order Scenario.rules
              Scenario.monthly 10 11
              (nth 0 (build Frame.reversed Frame.in_order Scenario.rules Scenario.monthly 10 11)
                 (dimension_row Scenario.rules 0 0 0 (Scenario.customer "" "" "") None)))
    as [n [_ [_ [H _]]]].
  - vm_compute. left. reflexivity.
  - exists (Scenario.order "000" "C1" "delivered" (Some (16801 * Calendar.seconds_per_day))).
    split; [left; reflexivity | reflexivity].
  - destruct (lifetime_value_formula Frame.reversed Frame.in_order Scenario.rules
                Scenario.cents 10 11
                (nth 0 (build Frame.reversed Frame.in_order Scenario.rules Scenario.cents 10 11)
                   (dimension_row Scenario.rules 0 0 0 (Scenario.customer "" "" "") None)))
      as [n' [_ [_ [H' _]]]].
    + vm_compute. left. reflexivity.
    + exists (Scenario.order "a" "C1" "delivered" (Scenario.at_day 2016 1 5)).
      split; [left; reflexivity | reflexivity].
    + split; [rewrite H; vm_compute; reflexivity|].
      split; [vm_compute; reflexivity|]. split; [vm_compute; reflexivity|].
      rewrite H'. vm_compute. reflexivity.
Defined.

(** The segment function follows the precedence of the specification; the
    lifetime value it reads counts a null as 0. *)
Lemma segment_customer_precedence : forall cfg n ltv,
  _segment_customer cfg (Some n) ltv =
  Specification.segment_name
    (Specification.segment_of cfg n (match ltv with Some v => v | None => 0%Q end)).
Proof.
  intros cfg n ltv. unfold _segment_customer, Specification.segment_of, Qgeb. simpl.
  destruct (n =? 0); [reflexivity|].
  destruct ((vip_customer_min_orders cfg <=? n)
            || Qle_bool (vip_customer_min_value cfg)
                 (match ltv with Some v => v | None => 0%Q end)); [reflexivity|].
  destruct (n <=? 1); [reflexivity|].
  destruct (n <=? returning_customer_max_orders cfg); reflexivity.
Qed.

Lemma Qle_bool_false_of_lt : forall a b : Q, (a < b)%Q -> Qle_bool b a = false.
Proof.
  intros a b H. destruct (Qle_bool b a) eqn:E; [|reflexivity].
  apply Qle_bool_iff in E. exfalso. apply (Qlt_not_le _ _ H). exact E.
Qed.

(** C6, as stated, fails in its second sentence: where the VIP rule is set to
    one order, the customer with a single order and a lifetime value under
    the value threshold is 'VIP', not 'New'. *)
Lemma single_order_below_value_threshold_not_always_new :
  ~ (forall r,
       In r (build Frame.in_order Frame.in_order Scenario.rules_vip_from_first_order
               Scenario.shop 10 11) ->
       total_orders r = Some 1 ->
       (exists v, lifetime_value r = Some v /\
                  (v < vip_customer_min_value Scenario.rules_vip_from_first_order)%Q) ->
       customer_segment r = "New"%string).
Proof.
  intro H.
  specialize (H (nth 2 (build Frame.in_order Frame.in_order
                          Scenario.rules_vip_from_first_order Scenario.shop 10 11)
                   (dimension_row Scenario.rules 0 0 0 (Scenario.customer "" "" "") None))).
  assert (E : "VIP"%string = "New"%string).
  { apply H.
    - vm_compute. right. right. left. reflexivity.
    - reflexivity.
    - exists 0%Q. split; reflexivity. }
  discriminate E.
Qed.

(** C6, amended. The segment of every customer row follows the precedence:
    'Inactive' if [total_orders = 0]; else 'VIP' if [total_orders >=
    vip_min_orders] or [lifetime_value >= vip_min_value]; else 'New' if
    [total_orders <= 1]; else 'Returning' if [total_orders <=
    returning_max_orders]; else 'Loyal'. A customer with no order is
    'Inactive' whatever the lifetime value; a customer with one order and a
    lifetime value under the value threshold is never 'Returning', and is
    'New' when [vip_min_orders > 1] ('VIP' when [vip_min_orders <= 1]). *)
Theorem segment_follows_precedence :
  forall go_items go_orders cfg ex now1 now2 r,
    In r (build go_items go_orders cfg ex now1 now2) ->
    exists n,
      total_orders r = Some n /\
      let ltv := match lifetime_value r with Some v => v | None => 0%Q end in
      customer_segment r =
        Specification.segment_name (Specification.segment_of cfg n ltv) /\
      (n = 0 -> customer_segment r = "Inactive"%string) /\
      (n = 1 -> (ltv < vip_customer_min_value cfg)%Q ->
       customer_segment r <> "Returning"%string /\
       (1 < vip_customer_min_orders cfg -> customer_segment r = "New"%string) /\
       (vip_customer_min_orders cfg <= 1 -> customer_segment r = "VIP"%string)).
Proof.
  intros go_items go_orders cfg ex now1 now2 r Hin.
  assert (H : exists n, total_orders r = Some n /\
                customer_segment r = _segment_customer cfg (Some n) (lifetime_value r)).
  { destruct (build_row_cases go_items go_orders cfg ex now1 now2 r Hin)
      as [k [c [Hc [[_ Er] | [_ Er]]]]]; rewrite Er; simpl; eexists; split; reflexivity. }
  destruct H as [n [Hn Hs]]. exists n. split; [exact Hn|].
  cbv zeta. rewrite Hs, segment_customer_precedence.
  set (ltv := match lifetime_value r with Some v => v | None => 0%Q end).
  split; [reflexivity|]. split.
  - intro E. subst n. reflexivity.
  - intros E Hlt. subst n. unfold Specification.segment_of.
    rewrite (Qle_bool_false_of_lt _ _ Hlt). simpl.
    destruct (vip_customer_min_orders cfg <=? 1) eqn:Ev; simpl.
    + split; [discriminate|]. split; [|reflexivity].
      apply Z.leb_le in Ev. lia.
    + split; [discriminate|]. split; [reflexivity|].
      apply Z.leb_gt in Ev. lia.
Qed.

Lemma segment_follows_precedence_witness :
  let r := nth 2 (build Frame.reversed Frame.in_order Scenario.rules Scenario.shop 10 11)
               (dimension_row Scenario.rules 0 0 0 (Scenario.customer "" "" "") None) in
  total_orders r = Some 1 /\ customer_segment r = "New"%string.
Proof.
  split; [reflexivity|].
  destruct (segment_follows_precedence Frame.reversed Frame.in_order Scenario.rules
              Scenario.shop 10 11
              (nth 2 (build Frame.reversed Frame.in_order Scenario.rules Scenario.shop 10 11)
                 (dimension_row Scenario.rules 0 0 0 (Scenario.customer "" "" "") None)))
    as [n [Hn [_ [_ H]]]].
  - vm_compute. right. right. left. reflexivity.
  - assert (E : n = 1) by (vm_compute in Hn; congruence).
    destruct (H E) as [_ [Hnew _]]; [reflexivity|].
    apply Hnew. reflexivity.
Defined.

End CustomerClaims.

(** ** The order fact *)

Section FactOrders.

Import FactOrdersBuilder.

Variables (go_items go_payments : Frame.group_order) (ex : extracts).

Lemma order_items_agg_keys : NoDup (map ia_order_id (order_items_agg go_items ex)).
Proof.
  unfold order_items_agg. rewrite map_map. simpl.
  apply (group_by_keys_NoDup String.eqb string_eqb_spec).
Qed.

Lemma order_payments_agg_keys : NoDup (map pa_order_id (order_payments_agg go_payments ex)).
Proof.
  unfold order_payments_agg. rewrite map_map. simpl.
  apply (group_by_keys_NoDup String.eqb string_eqb_spec).
Qed.

Lemma merge_left_length : forall {L R} (on : L -> R -> bool) left right,
  (List.length left <= List.length (Frame.merge_left on left right))%nat.
Proof.
  intros L R on left right. unfold Frame.merge_left.
  induction left as [|l t IH]; [apply Nat.le_refl|].
  change (flat_map ?f (l :: t)) with (f l ++ flat_map f t).
  rewrite length_app.
  assert (H1 : (1 <= List.length
                       match filter (on l) right with
                       | [] => [(l, @None R)]
                       | m :: ms => map (fun r => (l, Some r)) (m :: ms)
                       end)%nat).
  { destruct (filter (on l) right); simpl; lia. }
  simpl List.length at 1. apply (Nat.add_le_mono 1 _ _ _ H1 IH).
Qed.

Lemma merge_left_In_left : forall {L R} (on : L -> R -> bool) left right l,
  In l left -> exists r, In (l, r) (Frame.merge_left on left right).
Proof.
  intros L R on left right l H. unfold Frame.merge_left.
  destruct (filter (on l) right) as [|m ms] eqn:E.
  - exists None. apply in_flat_map. exists l. split; [exact H|]. rewrite E. left. reflexivity.
  - exists (Some m). apply in_flat_map. exists l. split; [exact H|]. rewrite E.
    left. reflexivity.
Qed.

Lemma merge_left_In_inv : forall {L R} (on : L -> R -> bool) left right l r,
  In (l, r) (Frame.merge_left on left right) ->
  In l left /\
  match r with
  | Some m => In m right /\ on l m = true
  | None => forall m, In m right -> on l m = false
  end.
Proof.
  intros L R on left right l r H. unfold Frame.merge_left in H.
  apply in_flat_map in H. destruct H as [l' [Hl' Hin]].
  destruct (filter (on l') right) as [|m ms] eqn:E.
  - destruct Hin as [Eq|[]]. inversion Eq; subst l' r. split; [exact Hl'|].
    intros m Hm. destruct (on l m) eqn:Eo; [|reflexivity].
    assert (Hf : In m (filter (on l) right)) by (apply filter_In; auto).
    rewrite E in Hf. contradiction.
  - apply in_map_iff in Hin. destruct Hin as [m' [Eq Hm']]. inversion Eq; subst l' r.
    split; [exact Hl'|]. rewrite <- E in Hm'. apply filter_In in Hm'. exact Hm'.
Qed.

(** The payments aggregate has a row for an order only if the order has a
    payment. *)
Lemma order_payments_agg_In : forall a,
  In a (order_payments_agg go_payments ex) ->
  exists p, In p (payments ex) /\ Payments.order_id p = pa_order_id a.
Proof.
  intros a H. unfold order_payments_agg in H. apply in_map_iff in H.
  destruct H as [g [Ea Hg]]. apply (group_by_In String.eqb string_eqb_spec) in Hg.
  destruct Hg as [Hk _]. apply in_map_iff in Hk. destruct Hk as [p [Ep Hp]].
  exists p. split; [exact Hp|]. subst a. simpl. exact Ep.
Qed.

(** The rows of the joined frame: each is a row of the orders extract, and
    every row of the orders extract is there. *)
Lemma joined_In_inv : forall o ia pa rv,
  In (((o, ia), pa), rv) (joined go_items go_payments ex) ->
  In o (orders ex) /\
  match pa with
  | Some a => In a (order_payments_agg go_payments ex) /\ pa_order_id a = Orders.order_id o
  | None => forall p, In p (payments ex) -> Payments.order_id p <> Orders.order_id o
  end.
Proof.
  intros o ia pa rv H. unfold joined in H.
  apply merge_left_In_inv in H. destruct H as [H _].
  apply merge_left_In_inv in H. destruct H as [H Hpa].
  apply merge_left_In_inv in H. destruct H as [Ho _].
  split; [exact Ho|]. simpl in Hpa.
  destruct pa as [a|].
  - destruct Hpa as [Ha Heq]. split; [exact Ha|]. apply String.eqb_eq in Heq. auto.
  - intros p Hp Ep.
    assert (Hg : In (Orders.order_id o)
                   (map pa_order_id (order_payments_agg go_payments ex))).
    { unfold order_payments_agg. rewrite map_map. simpl.
      eapply Permutation_in;
        [apply Permutation_sym, (group_by_keys_perm String.eqb) |].
      apply (distinct_In String.eqb string_eqb_spec).
      apply in_map_iff. exists p. auto. }
    apply in_map_iff in Hg. destruct Hg as [a [Ea Ha]].
    specialize (Hpa a Ha). rewrite Ea, String.eqb_refl in Hpa. discriminate.
Qed.

Lemma joined_In_order : forall o,
  In o (orders ex) ->
  exists ia pa rv, In (((o, ia), pa), rv) (joined go_items go_payments ex).
Proof.
  intros o Ho. unfold joined.
  destruct (merge_left_In_left
              (fun o a => String.eqb (Orders.order_id o) (ia_order_id a))
              (orders ex) (order_items_agg go_items ex) o Ho) as [ia H1].
  destruct (merge_left_In_left
              (fun l p => String.eqb (Orders.order_id (fst l)) (pa_order_id p))
              _ (order_payments_agg go_payments ex) (o, ia) H1) as [pa H2].
  destruct (merge_left_In_left
              (fun l r => String.eqb (Orders.order_id (fst (fst l))) (Reviews.order_id r))
              _ (reviews ex) ((o, ia), pa) H2) as [rv H3].
  exists ia, pa, rv. exact H3.
Qed.

(** The fact builder never returns fewer rows than the orders extract has. *)
Lemma joined_length : (List.length (orders ex) <= List.length (joined go_items go_payments ex))%nat.
Proof.
  unfold joined.
  eapply Nat.le_trans; [|apply merge_left_length].
  eapply Nat.le_trans; [|apply merge_left_length].
  apply merge_left_length.
Qed.

Lemma df_fact_In_inv : forall d now w,
  In w (df_fact go_items go_payments ex d now) ->
  exists k j, In j (joined go_items go_payments ex) /\ w = fact_row d now k j.
Proof.
  intros d now w H. unfold df_fact in H. apply in_map_iff in H.
  destruct H as [[k j] [Ew Hin]]. apply enumerate_from_In in Hin.
  exists k, j. split; [exact Hin | symmetry; exact Ew].
Qed.

Lemma df_fact_In : forall d now j,
  In j (joined go_items go_payments ex) ->
  exists k, In (fact_row d now k j) (df_fact go_items go_payments ex d now).
Proof.
  intros d now j H. destruct (In_enumerate_from _ 1 j H) as [k Hk].
  exists k. unfold df_fact. apply in_map_iff. exists (k, j). split; [reflexivity | exact Hk].
Qed.

(** What a successful call leaves in the caller's frames: the customer,
    product and payment-type dimensions as they were, the date dimension
    with the same rows and one more column. *)
Lemma build_frames : forall d now fact d',
  build go_items go_payments ex d now = Some (fact, d') ->
  fact = map selected (df_fact go_items go_payments ex d' now) /\
  dim_customers d' = dim_customers d /\
  dim_products d' = dim_products d /\
  dim_payment_type d' = dim_payment_type d /\
  DateDimensionBuilder.rows (dim_date d') = DateDimensionBuilder.rows (dim_date d) /\
  DateDimensionBuilder.date_str (dim_date d') <> None.
Proof.
  intros d now fact d' H. unfold build in H.
  destruct (add_date_str (dim_date d)) as [dd|] eqn:E; simpl in H; [|discriminate].
  inversion H; subst fact d'; clear H. simpl.
  unfold add_date_str in E.
  destruct (traverse _ _) as [col|]; simpl in E; [|discriminate].
  inversion E; subst dd. simpl. repeat split; try reflexivity. discriminate.
Qed.

(** C2, as stated, fails: for an order without payments the fact row
    carries [payment_installments = 1], not 0. *)
Lemma missing_payment_installments_not_zero :
  ~ (forall fact d r,
       Scenario.fact_of Scenario.shop = Some (fact, d) ->
       In r fact ->
       (forall p, In p (payments Scenario.shop) -> Payments.order_id p <> order_id r) ->
       payment_value r = Some 0%Q /\ payment_installments r = Some 0).
Proof.
  intro H.
  destruct (Scenario.fact_of Scenario.shop) as [[fact d]|] eqn:E;
    [|vm_compute in E; discriminate].
  specialize (H fact d (nth 4 fact (selected (fact_row d 0 0
                 (((Scenario.order "" "" "" None, None), None), None)))) eq_refl).
  vm_compute in E. inversion E as [[Ef Ed]]. clear E.
  rewrite <- Ef in H.
  assert (H1 : Some 0%Q = Some 0%Q /\ Some 1 = Some 0).
  { apply H.
    - do 4 right. left. reflexivity.
    - intros p Hp. simpl in Hp. destruct Hp as [<-|[<-|[]]]; discriminate. }
  destruct H1 as [_ H1]. discriminate H1.
Qed.

(** C2, amended. Every order of the extract has a fact row; for an order
    without payment records each of its rows carries [payment_value = 0] and
    [payment_installments = 1], and the working frame carries the payment
    type ['not_defined']. *)
Theorem missing_payments_defaulted :
  forall d now fact d',
    build go_items go_payments ex d now = Some (fact, d') ->
    forall o, In o (orders ex) ->
      (forall p, In p (payments ex) -> Payments.order_id p <> Orders.order_id o) ->
      (exists r, In r fact /\ order_id r = Orders.order_id o) /\
      (forall r, In r fact -> order_id r = Orders.order_id o ->
                 payment_value r = Some 0%Q /\ payment_installments r = Some 1) /\
      (forall w, In w (df_fact go_items go_payments ex d' now) ->
                 order_id (selected w) = Orders.order_id o ->
                 payment_type w = Some "not_defined"%string).
Proof.
  intros d now fact d' Hb o Ho Hnp.
  destruct (build_frames d now fact d' Hb) as [Ef _]. subst fact.
  assert (Hrow : forall w, In w (df_fact go_items go_payments ex d' now) ->
                  order_id (selected w) = Orders.order_id o ->
                  payment_value (selected w) = Some 0%Q /\
                  payment_installments (selected w) = Some 1 /\
                  payment_type w = Some "not_defined"%string).
  { intros w Hw Eo. apply df_fact_In_inv in Hw. destruct Hw as [k [j [Hj Ew]]].
    destruct j as [[[o' ia] pa] rv].
    destruct (joined_In_inv o' ia pa rv Hj) as [Ho' Hpa].
    assert (Eid : Orders.order_id o' = Orders.order_id o) by (rewrite Ew in Eo; exact Eo).
    destruct pa as [a|].
    - exfalso. destruct Hpa as [Ha Ea].
      destruct (order_payments_agg_In a Ha) as [p [Hp Ep]].
      apply (Hnp p Hp). congruence.
    - subst w. simpl. repeat split; reflexivity. }
  split; [|split].
  - destruct (joined_In_order o Ho) as [ia [pa [rv Hj]]].
    destruct (df_fact_In d' now _ Hj) as [k Hk].
    exists (selected (fact_row d' now k (((o, ia), pa), rv))).
    split; [apply in_map; exact Hk | reflexivity].
  - intros r Hr Eo. apply in_map_iff in Hr. destruct Hr as [w [Ew Hw]]. subst r.
    destruct (Hrow w Hw Eo) as [H1 [H2 _]]. auto.
  - intros w Hw Eo. apply (Hrow w Hw Eo).
Qed.

End FactOrders.

Lemma missing_payments_defaulted_witness :
  exists r,
    In r (match Scenario.fact_of Scenario.shop with Some fd => fst fd | None => [] end) /\
    FactOrdersBuilder.order_id r = "o4"%string /\
    FactOrdersBuilder.payment_value r = Some 0%Q /\
    FactOrdersBuilder.payment_installments r = Some 1.
Proof.
  destruct (Scenario.dims_of Scenario.shop) as [d|] eqn:Ed; [|vm_compute in Ed; discriminate].
  destruct (FactOrdersBuilder.build Frame.in_order Frame.in_order Scenario.shop d
              (Scenario.clock 5)) as [[fact d']|] eqn:Eb.
  - destruct (missing_payments_defaulted Frame.in_order Frame.in_order Scenario.shop
                d (Scenario.clock 5) fact d' Eb
                (Scenario.order "o4" "C3" "canceled" (Scenario.at_day 2016 3 1)))
      as [[r [Hr Eo]] [Hv _]].
    + do 3 right. left. reflexivity.
    + intros p Hp. simpl in Hp. destruct Hp as [<-|[<-|[]]]; discriminate.
    + exists r. unfold Scenario.fact_of. rewrite Ed. simpl. rewrite Eb. simpl.
      split; [exact Hr|]. split; [exact Eo|]. apply Hv; assumption.
  - exfalso. vm_compute in Ed. inversion Ed; subst d. vm_compute in Eb. discriminate.
Defined.

(** C1 fails on the code: an order reviewed twice gets two fact rows, while
    the orders extract holds one distinct [order_id]. *)
Theorem fact_rows_duplicated_by_reviews :
  option_map (fun fd => List.length (fst fd)) (Scenario.fact_of Scenario.reviewed_twice)
    = Some 2%nat /\
  option_map (fun fd => map FactOrdersBuilder.order_id (fst fd))
    (Scenario.fact_of Scenario.reviewed_twice) = Some ["o1"; "o1"]%string /\
  List.length (Frame.distinct String.eqb
                 (map Orders.order_id (orders Scenario.reviewed_twice))) = 1%nat.
Proof. vm_compute. repeat split; reflexivity. Qed.

(** C3 fails on the code: the call assigns a [date_str] column into the date
    dimension it was given, so that frame is not what it was before the
    call; the three other dimensions are. *)
Theorem dim_date_mutated_by_fact_build :
  exists d fact d',
    Scenario.dims_of Scenario.shop = Some d /\
    FactOrdersBuilder.build Frame.in_order Frame.in_order Scenario.shop d (Scenario.clock 5)
      = Some (fact, d') /\
    FactOrdersBuilder.dim_customers d' = FactOrdersBuilder.dim_customers d /\
    FactOrdersBuilder.dim_products d' = FactOrdersBuilder.dim_products d /\
    FactOrdersBuilder.dim_payment_type d' = FactOrdersBuilder.dim_payment_type d /\
    DateDimensionBuilder.date_str (FactOrdersBuilder.dim_date d) = None /\
    DateDimensionBuilder.date_str (FactOrdersBuilder.dim_date d')
      = Some [20160104; 20160105; 20160106] /\
    FactOrdersBuilder.dim_date d' <> FactOrdersBuilder.dim_date d.
Proof.
  destruct (Scenario.dims_of Scenario.shop) as [d|] eqn:Ed; [|vm_compute in Ed; discriminate].
  destruct (FactOrdersBuilder.build Frame.in_order Frame.in_order Scenario.shop d
              (Scenario.clock 5)) as [[fact d']|] eqn:Eb.
  - exists d, fact, d'. split; [reflexivity|]. split; [exact Eb|].
    destruct (build_frames _ _ _ _ _ _ _ Eb) as [_ [H1 [H2 [H3 _]]]].
    split; [exact H1|]. split; [exact H2|]. split; [exact H3|].
    assert (Hn : DateDimensionBuilder.date_str (FactOrdersBuilder.dim_date d) = None).
    { vm_compute in Ed. inversion Ed. reflexivity. }
    assert (Hs : DateDimensionBuilder.date_str (FactOrdersBuilder.dim_date d')
                 = Some [20160104; 20160105; 20160106]).
    { vm_compute in Ed. inversion Ed; subst d. vm_compute in Eb. inversion Eb. reflexivity. }
    split; [exact Hn|]. split; [exact Hs|].
    intro E. rewrite E, Hn in Hs. discriminate.
  - exfalso. vm_compute in Ed. inversion Ed; subst d. vm_compute in Eb. discriminate.
Qed.

(** ** The calendar *)

Section CalendarFacts.

Import Calendar.

Ltac div_lia := Z.div_mod_to_equations; lia.

(** Within an era of 146097 days the year of era, the day of the
    (March-based) year, the month and the day of the month are in range. *)
Lemma era_facts : forall doe, 0 <= doe < 146097 ->
  0 <= yoe_of doe <= 399 /\ 0 <= doy_of doe <= 365 /\ 0 <= mp_of doe <= 11 /\
  1 <= doy_of doe - (153 * mp_of doe + 2) / 5 + 1 <= 31.
Proof.
  intros doe H. unfold mp_of, doy_of, yoe_of. div_lia.
Qed.

Lemma yoe_of_year_start : forall yoe doy, 0 <= yoe <= 399 -> 0 <= doy ->
  (doy <= 364 \/
   (doy = 365 /\ (yoe + 1) mod 4 = 0 /\ ((yoe + 1) mod 100 <> 0 \/ yoe = 399))) ->
  yoe_of (yoe * 365 + yoe / 4 - yoe / 100 + doy) = yoe.
Proof.
  intros yoe doy Hy Hd Hl. unfold yoe_of. div_lia.
Qed.

Lemma era_split : forall z,
  0 <= (z + epoch_shift) mod days_per_era < 146097 /\
  z + 719468 = 146097 * ((z + epoch_shift) / days_per_era) + (z + epoch_shift) mod days_per_era.
Proof.
  intro z. unfold epoch_shift, days_per_era. split.
  - apply Z.mod_pos_bound. lia.
  - apply Z.div_mod. lia.
Qed.

(** The month and the day of every date are a month and a day. *)
Lemma civil_from_days_range : forall z,
  1 <= month (civil_from_days z) <= 12 /\ 1 <= day (civil_from_days z) <= 31.
Proof.
  intro z. destruct (era_split z) as [Hd _].
  destruct (era_facts _ Hd) as [_ [_ [Hmp Hday]]].
  unfold civil_from_days, civil_of_era. cbn [month day].
  split; [|exact Hday].
  destruct (mp_of ((z + epoch_shift) mod days_per_era) <? 10) eqn:E;
    [apply Z.ltb_lt in E | apply Z.ltb_ge in E]; lia.
Qed.

(** The month ordinal in terms of the era, the year of era and the
    March-based month. *)
Lemma month_ordinal_of_era : forall era doe, 0 <= doe < 146097 ->
  month_ordinal (civil_of_era era doe) = 12 * (yoe_of doe + 400 * era) + mp_of doe - 23638.
Proof.
  intros era doe H. destruct (era_facts doe H) as [_ [_ [Hmp _]]].
  unfold month_ordinal, civil_of_era. cbn [year month].
  destruct (mp_of doe <? 10) eqn:E; [apply Z.ltb_lt in E | apply Z.ltb_ge in E].
  - replace (mp_of doe + 3 <=? 2) with false by (symmetry; apply Z.leb_gt; lia). lia.
  - replace (mp_of doe - 9 <=? 2) with true by (symmetry; apply Z.leb_le; lia). lia.
Qed.

(** The first day of a year of the era, and the year of era between two year
    starts. *)
Lemma year_start_le : forall doe, 0 <= doe <= 146096 ->
  365 * yoe_of doe + yoe_of doe / 4 - yoe_of doe / 100 <= doe.
Proof. intros doe H. unfold yoe_of. div_lia. Qed.

Lemma next_year_start_gt : forall doe, 0 <= doe < 146096 ->
  doe < 365 * (yoe_of doe + 1) + (yoe_of doe + 1) / 4 - (yoe_of doe + 1) / 100.
Proof. intros doe H. unfold yoe_of. div_lia. Qed.

Lemma year_start_mono : forall a b, 0 <= a -> a + 1 <= b ->
  365 * (a + 1) + (a + 1) / 4 - (a + 1) / 100 <= 365 * b + b / 4 - b / 100.
Proof. intros a b H1 H2. div_lia. Qed.

Lemma yoe_of_mono : forall a b, 0 <= a <= b -> b <= 146096 -> yoe_of a <= yoe_of b.
Proof.
  intros a b H1 H2.
  destruct (Z_le_gt_dec (yoe_of a) (yoe_of b)) as [|G]; [assumption|exfalso].
  pose proof (year_start_le a ltac:(lia)) as La.
  destruct (era_facts a ltac:(lia)) as [Ra _].
  destruct (era_facts b ltac:(lia)) as [Rb _].
  destruct (Z.eq_dec b 146096) as [->|Hb].
  - assert (E : yoe_of 146096 = 399) by reflexivity. lia.
  - pose proof (next_year_start_gt b ltac:(lia)) as Ub.
    pose proof (year_start_mono (yoe_of b) (yoe_of a) ltac:(lia) ltac:(lia)). lia.
Qed.

Lemma era_month_mono : forall a b, 0 <= a <= b -> b < 146097 ->
  12 * yoe_of a + mp_of a <= 12 * yoe_of b + mp_of b.
Proof.
  intros a b H1 H2.
  pose proof (yoe_of_mono a b H1 ltac:(lia)) as Hm.
  destruct (era_facts a ltac:(lia)) as [_ [Fa _]].
  destruct (era_facts b ltac:(lia)) as [_ [Fb _]].
  destruct (Z.eq_dec (yoe_of a) (yoe_of b)) as [E|NE].
  - assert (doy_of a <= doy_of b) by (unfold doy_of; rewrite E; lia).
    unfold mp_of. rewrite E. div_lia.
  - unfold mp_of. div_lia.
Qed.

(** A later day is in the same month or a later one. *)
Lemma month_ordinal_mono : forall z1 z2, z1 <= z2 ->
  month_ordinal (civil_from_days z1) <= month_ordinal (civil_from_days z2).
Proof.
  intros z1 z2 H. unfold civil_from_days.
  destruct (era_split z1) as [Hd1 He1]. destruct (era_split z2) as [Hd2 He2].
  rewrite !month_ordinal_of_era by assumption.
  set (e1 := (z1 + epoch_shift) / days_per_era) in *.
  set (e2 := (z2 + epoch_shift) / days_per_era) in *.
  set (d1 := (z1 + epoch_shift) mod days_per_era) in *.
  set (d2 := (z2 + epoch_shift) mod days_per_era) in *.
  destruct (era_facts d1 Hd1) as [Hy1 [_ [Hm1 _]]].
  destruct (era_facts d2 Hd2) as [Hy2 [_ [Hm2 _]]].
  destruct (Z.eq_dec e1 e2) as [E|NE].
  - assert (Hle : d1 <= d2) by lia.
    pose proof (era_month_mono d1 d2 ltac:(lia) ltac:(lia)). lia.
  - assert (e1 < e2) by lia. lia.
Qed.

Lemma to_period_M_mono : forall t1 t2, t1 <= t2 -> to_period_M t1 <= to_period_M t2.
Proof.
  intros t1 t2 H. unfold to_period_M, date_of, seconds_per_day.
  apply month_ordinal_mono. apply Z.div_le_mono; lia.
Qed.

(** Reading the day number off the civil date of a day gives the day back. *)
Lemma days_from_civil_from_days : forall z, days_from_civil (civil_from_days z) = z.
Proof.
  intro z. unfold civil_from_days.
  destruct (era_split z) as [Hd Hdm].
  set (era := (z + epoch_shift) / days_per_era) in *.
  set (doe := (z + epoch_shift) mod days_per_era) in *.
  destruct (era_facts doe Hd) as [Hy [Hdoy [Hmp Hday]]].
  unfold days_from_civil, civil_of_era, days_per_era, epoch_shift. cbn [year month day].
  destruct (mp_of doe <? 10) eqn:E1; [apply Z.ltb_lt in E1 | apply Z.ltb_ge in E1].
  - replace (mp_of doe + 3 <=? 2) with false by (symmetry; apply Z.leb_gt; lia).
    replace ((yoe_of doe + era * 400) / 400) with era by div_lia.
    replace ((mp_of doe + 3 + 9) mod 12) with (mp_of doe) by div_lia.
    replace (yoe_of doe + era * 400 - era * 400) with (yoe_of doe) by lia.
    unfold doy_of in *. lia.
  - replace (mp_of doe - 9 <=? 2) with true by (symmetry; apply Z.leb_le; lia).
    replace ((yoe_of doe + era * 400 + 1 - 1) / 400) with era by div_lia.
    replace ((mp_of doe - 9 + 9) mod 12) with (mp_of doe) by div_lia.
    replace (yoe_of doe + era * 400 + 1 - 1 - era * 400) with (yoe_of doe) by lia.
    unfold doy_of in *. lia.
Qed.

Lemma civil_from_days_inj : forall z1 z2,
  civil_from_days z1 = civil_from_days z2 -> z1 = z2.
Proof.
  intros z1 z2 H. rewrite <- (days_from_civil_from_days z1), <- (days_from_civil_from_days z2).
  rewrite H. reflexivity.
Qed.

End CalendarFacts.

Section CalendarRoundTrip.

Import Calendar.

Ltac div_lia := Z.div_mod_to_equations; lia.

Lemma is_leap_spec : forall y,
  is_leap y = true <-> (y mod 4 = 0 /\ y mod 100 <> 0) \/ y mod 400 = 0.
Proof.
  intro y. unfold is_leap.
  rewrite orb_true_iff, andb_true_iff, negb_true_iff, !Z.eqb_eq, Z.eqb_neq. reflexivity.
Qed.

Lemma valid_date_spec : forall c, valid_date c = true ->
  1 <= year c <= 9999 /\ 1 <= month c <= 12 /\
  1 <= day c <= days_in_month (year c) (month c).
Proof.
  intros c H. unfold valid_date in H.
  repeat (apply andb_prop in H; destruct H as [H ?]).
  repeat match goal with H : (_ <=? _) = true |- _ => apply Z.leb_le in H end.
  lia.
Qed.

(** The civil date of the day number of a valid date is that date. *)
Lemma civil_from_days_from_civil : forall c,
  valid_date c = true -> civil_from_days (days_from_civil c) = c.
Proof.
  intros [y m d] H. apply valid_date_spec in H. cbn [year month day] in H.
  destruct H as [Hy [Hm Hd]].
  unfold days_in_month in Hd.
  assert (Hleap := is_leap_spec y).
  unfold days_from_civil. cbn [year month day].
  set (y' := if m <=? 2 then y - 1 else y).
  set (mp := (m + 9) mod 12).
  set (yoe := y' - y' / 400 * 400).
  set (doy := (153 * mp + 2) / 5 + d - 1).
  assert (Hyoe : 0 <= yoe <= 399) by (unfold yoe; div_lia).
  assert (Hmp : 0 <= mp <= 11) by (unfold mp; div_lia).
  assert (Hm' : (if mp <? 10 then mp + 3 else mp - 9) = m).
  { unfold mp. destruct ((m + 9) mod 12 <? 10) eqn:E;
      [apply Z.ltb_lt in E | apply Z.ltb_ge in E]; div_lia. }
  assert (Hy' : y' = if m <=? 2 then y - 1 else y) by reflexivity.
  assert (Hdoy : 0 <= doy /\
                 (doy <= 364 \/
                  (doy = 365 /\ (yoe + 1) mod 4 = 0 /\
                   ((yoe + 1) mod 100 <> 0 \/ yoe = 399)))).
  { unfold doy, mp, yoe. rewrite Hy'.
    destruct (m =? 2) eqn:E2; [apply Z.eqb_eq in E2 | apply Z.eqb_neq in E2].
    - subst m. change (2 <=? 2) with true. cbv iota.
      destruct (is_leap y) eqn:El.
      + destruct Hleap as [Hl _]. specialize (Hl eq_refl). div_lia.
      + div_lia.
    - destruct ((m =? 4) || (m =? 6) || (m =? 9) || (m =? 11)) eqn:E30.
      + rewrite !orb_true_iff, !Z.eqb_eq in E30.
        destruct (m <=? 2) eqn:Em; [apply Z.leb_le in Em | apply Z.leb_gt in Em]; div_lia.
      + rewrite !orb_false_iff, !Z.eqb_neq in E30.
        destruct (m <=? 2) eqn:Em; [apply Z.leb_le in Em | apply Z.leb_gt in Em]; div_lia. }
  destruct Hdoy as [Hdoy0 Hdoy].
  set (doe := yoe * 365 + yoe / 4 - yoe / 100 + doy).
  assert (Hdoe : 0 <= doe < 146097) by (unfold doe; div_lia).
  assert (Hyo : yoe_of doe = yoe) by (apply yoe_of_year_start; assumption).
  assert (Hdo : doy_of doe = doy) by (unfold doy_of; rewrite Hyo; unfold doe; lia).
  assert (Hd31 : 1 <= d <= 31).
  { destruct (m =? 2); [destruct (is_leap y); lia|].
    destruct ((m =? 4) || (m =? 6) || (m =? 9) || (m =? 11)); lia. }
  assert (Hmo : mp_of doe = mp).
  { unfold mp_of. rewrite Hdo. unfold doy, mp.
    assert (Hcases : m = 1 \/ m = 2 \/ m = 3 \/ m = 4 \/ m = 5 \/ m = 6 \/ m = 7 \/
                     m = 8 \/ m = 9 \/ m = 10 \/ m = 11 \/ m = 12) by lia.
    clear - Hcases Hd Hd31.
    repeat (destruct Hcases as [-> | Hcases]); try subst m;
      simpl in Hd; try (destruct (is_leap y)); div_lia. }
  unfold civil_from_days.
  assert (Hz : y' / 400 * days_per_era + doe - epoch_shift + epoch_shift
               = doe + y' / 400 * days_per_era) by lia.
  fold yoe. fold doe. rewrite Hz.
  rewrite Z.div_add by (unfold days_per_era; lia).
  rewrite Z.mod_add by (unfold days_per_era; lia).
  rewrite Z.div_small, Z.mod_small by (unfold days_per_era; lia).
  unfold civil_of_era. rewrite Hyo, Hdo, Hmo, Hm'.
  f_equal.
  - rewrite Hy'. unfold yoe. rewrite Hy'.
    destruct (m <=? 2); lia.
  - unfold doy. lia.
Qed.

End CalendarRoundTrip.

(** ** Dates as text *)

Section TextFacts.
Lemma digit_value_digit : forall n, Text.digit_value (Text.digit n) = Some (n mod 10).
Proof.
  intro n. unfold Text.digit_value, Text.digit.
  assert (H : 0 <= n mod 10 < 10) by (apply Z.mod_pos_bound; lia).
  rewrite nat_ascii_embedding by lia.
  rewrite Nat2Z.inj_add, Z2Nat.id by lia.
  change (Z.of_nat 48) with 48.
  replace ((48 <=? 48 + n mod 10) && (48 + n mod 10 <=? 57)) with true.
  - f_equal. lia.
  - symmetry. apply andb_true_intro. split; apply Z.leb_le; lia.
Qed.

Lemma int_of_digits_app : forall s1 s2 acc,
  Text.int_of_digits acc (s1 ++ s2) =
  bind (Text.int_of_digits acc s1) (fun a => Text.int_of_digits a s2).
Proof.
  induction s1 as [|c s1 IH]; intros s2 acc; simpl; [reflexivity|].
  destruct (Text.digit_value c); [apply IH | reflexivity].
Qed.

Lemma int_of_digits_zero_padded : forall w n acc, 0 <= n < 10 ^ Z.of_nat w ->
  Text.int_of_digits acc (Text.zero_padded w n) = Some (acc * 10 ^ Z.of_nat w + n).
Proof.
  induction w as [|w IH]; intros n acc H.
  - change (10 ^ Z.of_nat 0) with 1 in *. cbn [Text.zero_padded Text.int_of_digits].
    f_equal. lia.
  - rewrite Nat2Z.inj_succ, Z.pow_succ_r in * by lia.
    assert (HP : 0 < 10 ^ Z.of_nat w) by (apply Z.pow_pos_nonneg; lia).
    set (P := 10 ^ Z.of_nat w) in *.
    cbn [Text.zero_padded]. rewrite int_of_digits_app.
    rewrite IH by (fold P; Z.div_mod_to_equations; lia).
    fold P. cbn [bind Text.int_of_digits]. rewrite digit_value_digit. f_equal.
    Z.div_mod_to_equations; lia.
Qed.

Lemma zero_padded_succ_not_empty : forall w n, Text.zero_padded (S w) n <> EmptyString.
Proof.
  intros w n. cbn [Text.zero_padded].
  destruct (Text.zero_padded w (n / 10)); discriminate.
Qed.

Lemma cast_int_app : forall s1 s2, s1 <> EmptyString ->
  Text.cast_int (s1 ++ s2) = Text.int_of_digits 0 (s1 ++ s2).
Proof.
  intros s1 s2 H. destruct s1 as [|c s1]; [contradiction | reflexivity].
Qed.

(** The integer cast of [strftime('%Y%m%d')] is year * 10000 + month * 100 +
    day, for the years that are written with four digits. *)
Lemma cast_int_strftime_Ymd : forall z,
  0 <= Calendar.year (Calendar.civil_from_days z) <= 9999 ->
  Text.cast_int (Text.strftime_Ymd z) =
  Some (Calendar.year (Calendar.civil_from_days z) * 10000
        + Calendar.month (Calendar.civil_from_days z) * 100
        + Calendar.day (Calendar.civil_from_days z)).
Proof.
  intros z Hy. destruct (civil_from_days_range z) as [Hm Hd].
  unfold Text.strftime_Ymd. set (c := Calendar.civil_from_days z) in *.
  rewrite cast_int_app by apply zero_padded_succ_not_empty.
  rewrite int_of_digits_app.
  rewrite (int_of_digits_zero_padded 4) by (change (10 ^ Z.of_nat 4) with 10000; lia).
  cbn [bind]. rewrite int_of_digits_app.
  rewrite (int_of_digits_zero_padded 2) by (change (10 ^ Z.of_nat 2) with 100; lia).
  cbn [bind].
  rewrite (int_of_digits_zero_padded 2) by (change (10 ^ Z.of_nat 2) with 100; lia).
  f_equal. change (10 ^ Z.of_nat 4) with 10000. change (10 ^ Z.of_nat 2) with 100. lia.
Qed.

End TextFacts.

(** ** The date dimension *)

Section DateDimension.

Import DateDimensionBuilder.

Lemma traverse_total : forall {A B} (f : A -> option B) (g : A -> B) (l : list A),
  (forall a, In a l -> f a = Some (g a)) -> traverse f l = Some (map g l).
Proof.
  intros A B f g l. induction l as [|a t IH]; intro H; [reflexivity|].
  cbn [traverse map]. rewrite (H a (or_introl eq_refl)). cbn [bind].
  rewrite IH by (intros b Hb; apply H; right; exact Hb). reflexivity.
Qed.

Lemma traverse_some_inv : forall {A B} (f : A -> option B) (l : list A) bs,
  traverse f l = Some bs ->
  List.length bs = List.length l /\
  forall b, In b bs -> exists a, In a l /\ f a = Some b.
Proof.
  intros A B f l. induction l as [|a t IH]; intros bs H.
  - inversion H. split; [reflexivity | intros b []].
  - cbn [traverse] in H. destruct (f a) as [b0|] eqn:Ea; [|discriminate].
    cbn [bind] in H. destruct (traverse f t) as [bs'|] eqn:Et; [|discriminate].
    cbn [bind] in H. inversion H; subst bs. destruct (IH bs' eq_refl) as [Hl Hin].
    split; [simpl; rewrite Hl; reflexivity|].
    intros b [E|Hb].
    + subst b0. exists a. split; [left; reflexivity | exact Ea].
    + destruct (Hin b Hb) as [a' [Ha' Ef]]. exists a'. split; [right; exact Ha' | exact Ef].
Qed.

Lemma date_range_In : forall s e z, In z (date_range s e) <-> s <= z <= e.
Proof.
  intros s e z. unfold date_range. rewrite in_map_iff. split.
  - intros [i [E Hi]]. apply in_seq in Hi. lia.
  - intro H. exists (Z.to_nat (z - s)). split; [lia|]. apply in_seq. lia.
Qed.

Lemma date_range_NoDup : forall s e, NoDup (date_range s e).
Proof.
  intros s e. unfold date_range.
  apply Finite.Injective_map_NoDup; [|apply seq_NoDup].
  intros i j H. lia.
Qed.

Lemma date_range_length : forall s e, s <= e ->
  Z.of_nat (List.length (date_range s e)) = e - s + 1.
Proof.
  intros s e H. unfold date_range. rewrite length_map, length_seq. lia.
Qed.

Lemma build_row_of_day : forall now d,
  0 <= Calendar.year (Calendar.civil_from_days d) <= 9999 ->
  build_row now d = Some (row_of_day now d).
Proof.
  intros now d H. unfold build_row. rewrite (cast_int_strftime_Ymd d H). reflexivity.
Qed.

(** The years of the days between two valid dates have four digits. *)
Lemma year_between : forall s e z,
  Calendar.valid_date s = true -> Calendar.valid_date e = true ->
  Calendar.days_from_civil s <= z <= Calendar.days_from_civil e ->
  Calendar.year s <= Calendar.year (Calendar.civil_from_days z) <= Calendar.year e.
Proof.
  intros s e z Hs He Hz.
  pose proof (month_ordinal_mono _ _ (proj1 Hz)) as H1.
  pose proof (month_ordinal_mono _ _ (proj2 Hz)) as H2.
  rewrite (civil_from_days_from_civil s Hs) in H1.
  rewrite (civil_from_days_from_civil e He) in H2.
  destruct (civil_from_days_range z) as [Hm _].
  apply valid_date_spec in Hs, He.
  unfold Calendar.month_ordinal in *. lia.
Qed.

(** C8. For well-formed configured dates with [start_date <= end_date] the
    date dimension holds exactly one row per calendar day of the inclusive
    range, from the start date to the end date without gap or duplicate, and
    every row has [date_key = int(strftime(full_date, '%Y%m%d'))]. *)
Theorem date_dimension_covers_range :
  forall cfg now,
    Calendar.valid_date (start_date cfg) = true ->
    Calendar.valid_date (end_date cfg) = true ->
    Calendar.days_from_civil (start_date cfg) <= Calendar.days_from_civil (end_date cfg) ->
    exists f,
      build cfg now = Some f /\
      map full_date (rows f) =
        date_range (Calendar.days_from_civil (start_date cfg))
                   (Calendar.days_from_civil (end_date cfg)) /\
      (forall z, In z (map full_date (rows f)) <->
                 Calendar.days_from_civil (start_date cfg) <= z
                 <= Calendar.days_from_civil (end_date cfg)) /\
      NoDup (map full_date (rows f)) /\
      Z.of_nat (List.length (rows f)) =
        Calendar.days_from_civil (end_date cfg)
        - Calendar.days_from_civil (start_date cfg) + 1 /\
      Calendar.civil_from_days (Calendar.days_from_civil (start_date cfg)) = start_date cfg /\
      Calendar.civil_from_days (Calendar.days_from_civil (end_date cfg)) = end_date cfg /\
      (forall r, In r (rows f) ->
                 Text.cast_int (Text.strftime_Ymd (full_date r)) = Some (date_key r)).
Proof.
  intros cfg now Hs He Hle.
  set (s := Calendar.days_from_civil (start_date cfg)) in *.
  set (e := Calendar.days_from_civil (end_date cfg)) in *.
  assert (Hy : forall z, In z (date_range s e) ->
                 0 <= Calendar.year (Calendar.civil_from_days z) <= 9999).
  { intros z Hz. apply date_range_In in Hz.
    pose proof (year_between _ _ z Hs He Hz) as Hb.
    apply valid_date_spec in Hs, He. lia. }
  assert (Ht : traverse (build_row now) (date_range s e)
               = Some (map (row_of_day now) (date_range s e))).
  { apply traverse_total. intros z Hz. apply build_row_of_day. apply Hy. exact Hz. }
  exists {| rows := map (row_of_day now) (date_range s e); date_str := None |}.
  assert (Hfd : map full_date (map (row_of_day now) (date_range s e)) = date_range s e).
  { rewrite map_map. simpl. apply map_id. }
  split; [unfold build; fold s; fold e; rewrite Ht; reflexivity|].
  cbn [rows]. rewrite Hfd.
  split; [reflexivity|].
  split; [intro z; apply date_range_In|].
  split; [apply date_range_NoDup|].
  split; [rewrite length_map; apply date_range_length; exact Hle|].
  split; [apply civil_from_days_from_civil; exact Hs|].
  split; [apply civil_from_days_from_civil; exact He|].
  intros r Hr. apply in_map_iff in Hr. destruct Hr as [z [Er Hz]]. subst r.
  cbn [full_date date_key row_of_day]. apply cast_int_strftime_Ymd. apply Hy. exact Hz.
Qed.

Lemma date_dimension_covers_range_witness :
  exists f,
    build Scenario.rules 7 = Some f /\
    map full_date (rows f) = [16804; 16805; 16806] /\
    map date_key (rows f) = [20160104; 20160105; 20160106].
Proof.
  destruct (date_dimension_covers_range Scenario.rules 7) as [f [Hb [Hf _]]].
  - reflexivity.
  - reflexivity.
  - vm_compute. discriminate.
  - exists f. split; [exact Hb|]. split; [exact Hf|].
    vm_compute in Hb. inversion Hb. reflexivity.
Defined.

End DateDimension.

(** ** More on data frames: inner joins, sorting, counting *)

Section FrameFacts2.

Lemma merge_inner_In : forall {L R} (on : L -> R -> bool) left right l r,
  In (l, r) (Frame.merge_inner on left right) <->
  In l left /\ In r right /\ on l r = true.
Proof.
  intros L R on left right l r. unfold Frame.merge_inner. rewrite in_flat_map. split.
  - intros [l' [Hl' Hin]]. apply in_map_iff in Hin. destruct Hin as [r' [E Hr']].
    inversion E; subst l' r'. apply filter_In in Hr'. tauto.
  - intros [Hl [Hr Ho]]. exists l. split; [exact Hl|].
    apply in_map_iff. exists r. split; [reflexivity|]. apply filter_In. tauto.
Qed.

Lemma traverse_In : forall {A B} (f : A -> option B) (l : list A) bs,
  traverse f l = Some bs ->
  forall a, In a l -> exists b, f a = Some b /\ In b bs.
Proof.
  intros A B f l. induction l as [|a t IH]; intros bs H x Hx; [contradiction|].
  cbn [traverse] in H. destruct (f a) as [b0|] eqn:Ea; [|discriminate].
  cbn [bind] in H. destruct (traverse f t) as [bs'|] eqn:Et; [|discriminate].
  cbn [bind] in H. inversion H; subst bs.
  destruct Hx as [E|Hx].
  - subst x. exists b0. split; [exact Ea | left; reflexivity].
  - destruct (IH bs' eq_refl x Hx) as [b [Eb Hb]]. exists b. split; [exact Eb | right; exact Hb].
Qed.

Lemma insert_sorted_perm : forall {A} (leb : A -> A -> bool) a l,
  Permutation (Frame.insert_sorted leb a l) (a :: l).
Proof.
  intros A leb a l. induction l as [|b t IH]; simpl; [apply Permutation_refl|].
  destruct (leb a b); [apply Permutation_refl|].
  eapply Permutation_trans; [apply perm_skip; exact IH | apply perm_swap].
Qed.

(** Sorting rearranges the rows and nothing else. *)
Lemma sort_perm : forall {A} (leb : A -> A -> bool) l, Permutation (Frame.sort leb l) l.
Proof.
  intros A leb l. unfold Frame.sort. induction l as [|a t IH]; simpl; [constructor|].
  eapply Permutation_trans; [apply insert_sorted_perm | apply perm_skip; exact IH].
Qed.

Lemma filter_length_perm : forall {A} (p : A -> bool) l1 l2,
  Permutation l1 l2 -> List.length (filter p l1) = List.length (filter p l2).
Proof.
  intros A p l1 l2 H. induction H; simpl.
  - reflexivity.
  - destruct (p x); simpl; congruence.
  - destruct (p x), (p y); reflexivity.
  - congruence.
Qed.

Lemma filter_map_length : forall {A B} (g : A -> B) (p : B -> bool) l,
  List.length (filter p (map g l)) = List.length (filter (fun a => p (g a)) l).
Proof.
  intros A B g p l. induction l as [|a t IH]; simpl; [reflexivity|].
  destruct (p (g a)); simpl; rewrite IH; reflexivity.
Qed.

Lemma filter_enumerate_length : forall {A} (p : A -> bool) l n,
  List.length (filter (fun ka => p (snd ka)) (Frame.enumerate_from n l)) =
  List.length (filter p l).
Proof.
  intros A p l. induction l as [|a t IH]; intro n; simpl; [reflexivity|].
  destruct (p a); simpl; rewrite IH; reflexivity.
Qed.

(** In a frame of distinct keys exactly one row has a key that is there. *)
Lemma filter_key_once : forall {A K} (eqb : K -> K -> bool),
  (forall a b, eqb a b = true <-> a = b) ->
  forall (key : A -> K) (k : K) (l : list A),
    NoDup (map key l) -> In k (map key l) ->
    List.length (filter (fun x => eqb k (key x)) l) = 1%nat.
Proof.
  intros A K eqb Hspec key k l Hnd Hin.
  rewrite (filter_unique_key eqb Hspec key k l Hnd).
  destruct (find (fun r => eqb k (key r)) l) eqn:E; [reflexivity|].
  exfalso. apply in_map_iff in Hin. destruct Hin as [x [Ex Hx]].
  pose proof (find_none _ _ E x Hx) as Hf. simpl in Hf.
  assert (Ht : eqb k (key x) = true) by (apply Hspec; symmetry; exact Ex).
  congruence.
Qed.

Lemma NoDup_map_key_inj : forall {A K} (key : A -> K) (l : list A) a b,
  NoDup (map key l) -> In a l -> In b l -> key a = key b -> a = b.
Proof.
  intros A K key l. induction l as [|x t IH]; intros a b Hnd Ha Hb E; [contradiction|].
  simpl in Hnd. inversion Hnd as [|y l' Hn Hd]; subst.
  destruct Ha as [Ha|Ha], Hb as [Hb|Hb].
  - congruence.
  - subst x. exfalso. apply Hn. rewrite E. apply in_map. exact Hb.
  - subst x. exfalso. apply Hn. rewrite <- E. apply in_map. exact Ha.
  - apply IH; assumption.
Qed.

(** The least and the greatest non-null cell of a column. *)
Lemma fold_left_min_spec : forall l a,
  (fold_left Z.min l a <= a /\ forall x, In x l -> fold_left Z.min l a <= x) /\
  In (fold_left Z.min l a) (a :: l).
Proof.
  induction l as [|b t IH]; intro a; simpl.
  - split; [split; [lia | intros x []] | left; reflexivity].
  - destruct (IH (Z.min a b)) as [[H1 H2] H3]. split; [split|].
    + lia.
    + intros x [E|Hx]; [subst x; lia | apply H2; exact Hx].
    + destruct H3 as [E|H3]; [|right; right; exact H3].
      rewrite <- E. destruct (Z.min_spec a b) as [[_ Em]|[_ Em]]; rewrite Em; auto.
Qed.

Lemma Zmin_list_spec : forall l m, Cell.Zmin_list l = Some m ->
  In (Some m) l /\ forall t, In (Some t) l -> m <= t.
Proof.
  intros l m H. unfold Cell.Zmin_list in H.
  destruct (Cell.dropna l) as [|a t] eqn:E; [discriminate|]. inversion H; subst m; clear H.
  destruct (fold_left_min_spec t a) as [[H1 H2] H3]. split.
  - apply dropna_In. rewrite E. exact H3.
  - intros x Hx. apply dropna_In in Hx. rewrite E in Hx.
    destruct Hx as [Ex|Hx]; [subst x; exact H1 | apply H2; exact Hx].
Qed.

End FrameFacts2.

(** ** Cohort retention *)

Section CohortRetention.

Import CohortRetentionBuilder.

Variables (go_items go_orders go : Frame.group_order) (cfg : business_rules) (ex : extracts).
Variables (now1 now2 : Z).

Local Abbreviation dim :=
  (CustomerDimensionBuilder.build go_items go_orders cfg ex now1 now2).

(** The first order date of a dimension row is the purchase time of one of
    the customer's orders, and no order of the customer is earlier. *)
Lemma first_order_date_is_first : forall r f,
  In r dim -> CustomerDimensionBuilder.first_order_date r = Some f ->
  (exists o, In o (orders ex) /\
             Orders.customer_id o = CustomerDimensionBuilder.customer_id r /\
             Orders.order_purchase_timestamp o = Some f) /\
  (forall o t, In o (orders ex) ->
               Orders.customer_id o = CustomerDimensionBuilder.customer_id r ->
               Orders.order_purchase_timestamp o = Some t -> f <= t).
Proof.
  intros r f Hr Hf.
  destruct (build_row_cases go_items go_orders cfg ex now1 now2 r Hr)
    as [k [c [Hc [[_ Er] | [_ Er]]]]].
  - rewrite Er in Hf. discriminate.
  - assert (Eid : CustomerDimensionBuilder.customer_id r = Customers.customer_id c)
      by (rewrite Er; reflexivity).
    rewrite Er in Hf. simpl in Hf.
    rewrite <- (map_map fst Orders.order_purchase_timestamp) in Hf.
    rewrite orders_of_fst in Hf.
    apply Zmin_list_spec in Hf. destruct Hf as [Hin Hmin]. rewrite Eid. split.
    + apply in_map_iff in Hin. destruct Hin as [o [Et Ho]].
      apply filter_In in Ho. destruct Ho as [Ho Eo]. apply String.eqb_eq in Eo.
      exists o. auto.
    + intros o t Ho Eo Et. apply Hmin. apply in_map_iff. exists o. split; [exact Et|].
      apply filter_In. split; [exact Ho | apply String.eqb_eq; exact Eo].
Qed.

(** The rows the aggregation works on: (cohort month, months since first
    purchase, customer). *)
Lemma analysis_rows : forall rows,
  traverse months_since (analysis ex dim) = Some rows ->
  forall cm off cid, In (cm, off, cid) rows ->
    0 <= off /\ In (cm, 0, cid) rows.
Proof.
  intros rows Ht cm off cid Hin.
  destruct (traverse_some_inv _ _ _ Ht) as [_ Hinv].
  destruct (Hinv _ Hin) as [[[oc om] [cc cmo]] [Hj Hm]].
  unfold months_since in Hm. simpl in Hm.
  destruct om as [om|]; [|discriminate]. destruct cmo as [cm'|]; [|discriminate].
  inversion Hm; subst cm' off oc; clear Hm.
  unfold analysis in Hj. apply merge_inner_In in Hj. destruct Hj as [Ho [Hcst Heq]].
  simpl in Heq. apply String.eqb_eq in Heq. subst cc.
  unfold orders_cohort in Ho. apply in_map_iff in Ho. destruct Ho as [o [Eo Ho]].
  inversion Eo as [[Ecid Eom]]; clear Eo.
  unfold customers_cohort in Hcst. apply in_map_iff in Hcst. destruct Hcst as [r [Er Hr]].
  inversion Er as [[Ercid Ecm]]; clear Er.
  destruct (Orders.order_purchase_timestamp o) as [t|] eqn:Et; [|discriminate].
  destruct (CustomerDimensionBuilder.first_order_date r) as [f|] eqn:Ef; [|discriminate].
  simpl in Eom, Ecm. inversion Eom; subst om. inversion Ecm; subst cm. clear Eom Ecm.
  destruct (first_order_date_is_first r f Hr Ef) as [[o' [Ho' [Eo' Et']]] Hmin].
  split.
  - pose proof (Hmin o t Ho (eq_trans Ecid (eq_sym Ercid)) Et) as Hle.
    pose proof (to_period_M_mono _ _ Hle). lia.
  - assert (Hj' : In ((cid, Some (Calendar.to_period_M f)),
                      (cid, Some (Calendar.to_period_M f))) (analysis ex dim)).
    { unfold analysis. apply merge_inner_In. split; [|split].
      - unfold orders_cohort. apply in_map_iff. exists o'. split; [|exact Ho'].
        rewrite Et'. simpl. f_equal. congruence.
      - unfold customers_cohort. apply in_map_iff. exists r. split; [|exact Hr].
        rewrite Ef. simpl. f_equal. exact Ercid.
      - simpl. apply String.eqb_refl. }
    destruct (traverse_In _ _ _ Ht _ Hj') as [b [Eb Hb]].
    unfold months_since in Eb. simpl in Eb. inversion Eb; subst b.
    rewrite Z.sub_diag in Hb. rewrite Ecid. exact Hb.
Qed.

Lemma pair_eqb_spec : forall a b : Z * Z, pair_eqb a b = true <-> a = b.
Proof.
  intros [a1 a2] [b1 b2]. unfold pair_eqb. simpl.
  rewrite andb_true_iff, !Z.eqb_eq. split; [intros [-> ->]; reflexivity | intro E; inversion E; auto].
Qed.

Lemma distinct_not_empty : forall {K} (eqb : K -> K -> bool) (l : list K),
  l <> [] -> Frame.distinct eqb l <> [].
Proof. intros K eqb [|a t] H; [contradiction | discriminate]. Qed.

(** The grouped frame has one row per (cohort month, months since first
    purchase) pair of the analysis rows, each counting at least one
    customer. *)
Lemma cohort_data_keys : forall rows,
  NoDup (map fst (cohort_data go rows)) /\
  (forall k, In k (map fst (cohort_data go rows)) <-> In k (map fst rows)) /\
  (forall d, In d (cohort_data go rows) -> 1 <= snd d).
Proof.
  intro rows. unfold cohort_data.
  set (groups := Frame.group_by go pair_eqb fst rows).
  set (agg := fun g : Z * Z * list (Z * Z * string) =>
                (fst g, Z.of_nat (List.length (Frame.distinct String.eqb (map snd (snd g)))))).
  assert (HP : Permutation (Frame.sort (fun a b => pair_leb (fst a) (fst b)) (map agg groups))
                           (map agg groups)) by apply sort_perm.
  assert (Hk : map fst (map agg groups) = map fst groups).
  { rewrite map_map. reflexivity. }
  assert (HPk : Permutation (map fst (Frame.sort (fun a b => pair_leb (fst a) (fst b))
                                        (map agg groups)))
                            (Frame.distinct pair_eqb (map fst rows))).
  { eapply Permutation_trans; [apply Permutation_map; exact HP|].
    rewrite Hk. apply group_by_keys_perm. }
  split; [|split].
  - eapply Permutation_NoDup; [apply Permutation_sym; exact HPk|].
    apply (distinct_NoDup pair_eqb pair_eqb_spec).
  - intro k. split; intro H.
    + apply (distinct_In pair_eqb pair_eqb_spec).
      eapply Permutation_in; [exact HPk | exact H].
    + eapply Permutation_in; [apply Permutation_sym; exact HPk|].
      apply (distinct_In pair_eqb pair_eqb_spec). exact H.
  - intros d Hd. eapply Permutation_in in Hd; [|exact HP].
    apply in_map_iff in Hd. destruct Hd as [g [Ed Hg]]. subst d. unfold agg. simpl.
    pose proof (group_by_nonempty pair_eqb pair_eqb_spec go fst rows g Hg) as Hne.
    assert (Hd : Frame.distinct String.eqb (map snd (snd g)) <> []).
    { apply distinct_not_empty. destruct (snd g); [contradiction | discriminate]. }
    destruct (Frame.distinct String.eqb (map snd (snd g))); [contradiction|]. simpl. lia.
Qed.

Lemma cohort_sizes_keys : forall data : list ((Z * Z) * Z),
  NoDup (map fst data) -> NoDup (map fst (cohort_sizes data)).
Proof.
  intros data. unfold cohort_sizes. rewrite map_map. simpl.
  induction data as [|a t IH]; intro Hnd; simpl; [constructor|].
  inversion Hnd as [|x l Hn Hd]; subst.
  destruct (snd (fst a) =? 0) eqn:E; [|apply IH; exact Hd].
  simpl. constructor; [|apply IH; exact Hd].
  intro Hin. apply in_map_iff in Hin. destruct Hin as [b [Eb Hb]].
  apply filter_In in Hb. destruct Hb as [Hb Eb0].
  apply Z.eqb_eq in E, Eb0. apply Hn. apply in_map_iff. exists b. split; [|exact Hb].
  destruct a as [[a1 a2] a3], b as [[b1 b2] b3]. simpl in *. congruence.
Qed.

(** The size joined onto a cohort is the count of its month-0 row. *)
Lemma cohort_size_found : forall (data : list ((Z * Z) * Z)) d0 cm,
  NoDup (map fst data) -> In d0 data -> fst d0 = (cm, 0) ->
  find (fun s => cm =? fst s) (cohort_sizes data) = Some (cm, snd d0).
Proof.
  intros data d0 cm Hnd Hd0 Ek.
  assert (Hs : In (cm, snd d0) (cohort_sizes data)).
  { unfold cohort_sizes. apply in_map_iff. exists d0. split; [rewrite Ek; reflexivity|].
    apply filter_In. split; [exact Hd0 | rewrite Ek; reflexivity]. }
  destruct (find (fun s => cm =? fst s) (cohort_sizes data)) as [s|] eqn:E.
  - apply find_some in E. destruct E as [Hin Heq]. apply Z.eqb_eq in Heq.
    f_equal. apply (NoDup_map_key_inj fst (cohort_sizes data)).
    + apply cohort_sizes_keys. exact Hnd.
    + exact Hin.
    + exact Hs.
    + simpl. symmetry. exact Heq.
  - pose proof (find_none _ _ E _ Hs) as Hf. simpl in Hf. rewrite Z.eqb_refl in Hf.
    discriminate.
Qed.

Lemma full_cohort_rate : forall n, 1 <= n -> rate n (Some n) = Some 100%Q.
Proof.
  intros n H. unfold rate. cbn [option_map]. f_equal.
  assert (Hn : ~ (inject_Z n == 0)%Q).
  { unfold Qeq. simpl. lia. }
  assert (E : Float64.div (inject_Z n) (inject_Z n) = 1%Q).
  { unfold Float64.div. rewrite (fl_comp (inject_Z n / inject_Z n) 1) by (field; exact Hn).
    vm_compute. reflexivity. }
  rewrite E. vm_compute. reflexivity.
Qed.

(** The table of a successful build, row by row. *)
Lemma build_inv : forall dimc now t,
  build go ex dimc now = Some t ->
  exists rows,
    traverse months_since (analysis ex dimc) = Some rows /\
    t = map (fun kd =>
               let d := snd kd in
               let s := find (fun s => fst (fst d) =? fst s)
                             (cohort_sizes (cohort_data go rows)) in
               {| cohort_retention_key := fst kd;
                  cohort_month := fst (fst d);
                  months_since_first_purchase := snd (fst d);
                  cohort_size := option_map snd s;
                  retained_customers := snd d;
                  retention_rate := rate (snd d) (option_map snd s);
                  created_at := now |})
            (Frame.enumerate_from 1 (cohort_data go rows)).
Proof.
  intros dimc now t H. unfold build in H.
  destruct (traverse months_since (analysis ex dimc)) as [rows|] eqn:Et; [|discriminate].
  cbn [bind] in H. inversion H as [Ht]; clear H. exists rows. split; [reflexivity|].
  clear Ht.
  destruct (cohort_data_keys rows) as [Hnd _].
  rewrite (merge_left_unique Z.eqb Z.eqb_eq (fun r : (Z * Z) * Z => fst (fst r)) fst
             (cohort_data go rows) (cohort_sizes (cohort_data go rows))
             (cohort_sizes_keys _ Hnd)).
  clear Hnd. generalize (cohort_sizes (cohort_data go rows)). intro sizes.
  generalize 1. induction (cohort_data go rows) as [|d l IH]; intro n; [reflexivity|].
  cbn [map Frame.enumerate_from]. rewrite IH. reflexivity.
Qed.

(** C7. In the cohort-retention table built from the customer dimension of
    the same extracts, every row has [months_since_first_purchase >= 0];
    every cohort month present has exactly one row of month 0; and that row
    has [cohort_size = retained_customers] and [retention_rate = 100.00]. *)
Theorem cohort_month_zero_row :
  forall now t,
    build go ex dim now = Some t ->
    (forall r, In r t -> 0 <= months_since_first_purchase r) /\
    (forall r, In r t ->
       List.length
         (filter (fun r' => (cohort_month r' =? cohort_month r)
                            && (months_since_first_purchase r' =? 0)) t) = 1%nat) /\
    (forall r, In r t -> months_since_first_purchase r = 0 ->
       cohort_size r = Some (retained_customers r) /\ retention_rate r = Some 100%Q).
Proof.
  intros now t Hb.
  destruct (build_inv dim now t Hb) as [rows [Ht Et]].
  destruct (cohort_data_keys rows) as [Hnd [Hk Hpos]].
  set (data := cohort_data go rows) in *.
  assert (Hrow : forall r, In r t ->
            exists k d, In d data /\
              cohort_month r = fst (fst d) /\
              months_since_first_purchase r = snd (fst d) /\
              retained_customers r = snd d /\
              cohort_size r =
                option_map snd (find (fun s => fst (fst d) =? fst s) (cohort_sizes data)) /\
              retention_rate r =
                rate (snd d)
                  (option_map snd (find (fun s => fst (fst d) =? fst s) (cohort_sizes data))) /\
              In k (map fst rows) /\ k = fst d).
  { intros r Hr. rewrite Et in Hr. apply in_map_iff in Hr. destruct Hr as [[k d] [Er Hin]].
    apply enumerate_from_In in Hin. exists (fst d), d. subst r. simpl.
    repeat split; try reflexivity; try exact Hin.
    apply Hk. apply in_map. exact Hin. }
  assert (Hkey : forall cm off, In (cm, off) (map fst rows) ->
                   0 <= off /\ In (cm, 0) (map fst rows)).
  { intros cm off Hin. apply in_map_iff in Hin. destruct Hin as [[[cm' off'] cid] [E Hin]].
    simpl in E. inversion E; subst cm' off'.
    destruct (analysis_rows rows Ht cm off cid Hin) as [H0 Hz].
    split; [exact H0|]. apply in_map_iff. exists (cm, 0, cid). split; [reflexivity | exact Hz]. }
  split; [|split].
  - intros r Hr. destruct (Hrow r Hr) as [k [d [Hd [_ [Em [_ [_ [_ [Hkin Ek]]]]]]]]].
    rewrite Em. destruct d as [[cm off] n]. simpl in *. subst k.
    apply (Hkey cm off Hkin).
  - intros r Hr. destruct (Hrow r Hr) as [k [d [Hd [Ec [_ [_ [_ [_ [Hkin Ek]]]]]]]]].
    destruct d as [[cm off] n]. simpl in *. subst k. rewrite Ec.
    destruct (Hkey cm off Hkin) as [_ Hz].
    rewrite Et. rewrite filter_map_length. cbn [cohort_month months_since_first_purchase].
    rewrite (filter_enumerate_length
               (fun d' : (Z * Z) * Z => (fst (fst d') =? cm) && (snd (fst d') =? 0))).
    rewrite (filter_ext _ (fun d' : (Z * Z) * Z => pair_eqb (cm, 0) (fst d'))).
    + apply (filter_key_once pair_eqb pair_eqb_spec fst (cm, 0) data Hnd).
      apply Hk. exact Hz.
    + intros [[a b] c]. unfold pair_eqb. simpl.
      rewrite (Z.eqb_sym a cm), (Z.eqb_sym b 0). reflexivity.
  - intros r Hr E0.
    destruct (Hrow r Hr) as [k [d [Hd [Ec [Em [En [Es [Erate _]]]]]]]].
    assert (Ekd : fst d = (fst (fst d), 0)).
    { destruct d as [[cm off] n]. simpl in *. congruence. }
    rewrite (cohort_size_found data d (fst (fst d)) Hnd Hd Ekd) in Es, Erate.
    cbn [option_map snd] in Es, Erate. rewrite Es, Erate, En. split; [reflexivity|].
    exact (full_cohort_rate (snd d) (Hpos d Hd)).
Qed.

End CohortRetention.

Lemma cohort_month_zero_row_witness :
  exists t,
    CohortRetentionBuilder.build Frame.reversed Scenario.shop
      (CustomerDimensionBuilder.build Frame.in_order Frame.reversed Scenario.rules
         Scenario.shop 3 4) 6 = Some t /\
    map (fun r => (CohortRetentionBuilder.cohort_month r,
                   CohortRetentionBuilder.months_since_first_purchase r)) t
      = [(552, 0); (552, 1); (552, 3); (554, 0)] /\
    (forall r, In r t -> 0 <= CohortRetentionBuilder.months_since_first_purchase r).
Proof.
  destruct (CohortRetentionBuilder.build Frame.reversed Scenario.shop
              (CustomerDimensionBuilder.build Frame.in_order Frame.reversed Scenario.rules
                 Scenario.shop 3 4) 6) as [t|] eqn:E.
  - exists t. split; [reflexivity|]. split.
    + vm_compute in E. inversion E. reflexivity.
    + exact (proj1 (cohort_month_zero_row Frame.in_order Frame.reversed Frame.reversed
                      Scenario.rules Scenario.shop 3 4 6 t E)).
  - vm_compute in E. discriminate.
Defined.

(** ** Sorting is canonical *)

Section SortFacts.

Context {A : Type} (leb : A -> A -> bool).
Hypothesis leb_total : forall a b, leb a b = true \/ leb b a = true.
Hypothesis leb_trans : forall a b c, leb a b = true -> leb b c = true -> leb a c = true.

Local Abbreviation le := (fun a b => leb a b = true).

Lemma insert_sorted_sorted : forall a l,
  StronglySorted le l -> StronglySorted le (Frame.insert_sorted leb a l).
Proof.
  intros a l H. induction H as [|b t Hs IH Hall]; simpl.
  - constructor; constructor.
  - destruct (leb a b) eqn:E.
    + constructor; [constructor; assumption|].
      constructor; [exact E|].
      eapply Forall_impl; [|exact Hall]. intros c Hc. simpl in *. eapply leb_trans; eauto.
    + constructor; [exact IH|].
      assert (Hba : leb b a = true) by (destruct (leb_total a b); congruence).
      eapply Permutation_Forall; [apply Permutation_sym, insert_sorted_perm|].
      constructor; assumption.
Qed.

Lemma sort_sorted : forall l, StronglySorted le (Frame.sort leb l).
Proof.
  intro l. unfold Frame.sort. induction l as [|a t IH]; simpl; [constructor|].
  apply insert_sorted_sorted. exact IH.
Qed.

(** Two sorted arrangements of the same rows are the same list, when no two
    distinct rows compare both ways. *)
Lemma sorted_perm_unique : forall l1 l2,
  StronglySorted le l1 -> StronglySorted le l2 -> Permutation l1 l2 ->
  (forall a b, In a l1 -> In b l1 -> leb a b = true -> leb b a = true -> a = b) ->
  l1 = l2.
Proof.
  induction l1 as [|a t1 IH]; intros l2 H1 H2 HP Hanti.
  - apply Permutation_nil in HP. subst. reflexivity.
  - destruct l2 as [|b t2]; [apply Permutation_sym, Permutation_nil in HP; discriminate|].
    inversion H1 as [|x l Hs1 Hall1]; subst. inversion H2 as [|x l Hs2 Hall2]; subst.
    assert (E : a = b).
    { assert (Ha : In a (b :: t2)) by (eapply Permutation_in; [exact HP | left; reflexivity]).
      assert (Hb : In b (a :: t1))
        by (eapply Permutation_in; [apply Permutation_sym; exact HP | left; reflexivity]).
      destruct Ha as [Ha|Ha]; [symmetry; exact Ha|].
      destruct Hb as [Hb|Hb]; [exact Hb|].
      rewrite Forall_forall in Hall1, Hall2.
      apply Hanti; [left; reflexivity | right; exact Hb | apply Hall1; exact Hb
                   | apply Hall2; exact Ha]. }
    subst b. f_equal. apply IH; try assumption.
    + eapply Permutation_cons_inv. exact HP.
    + intros x y Hx Hy. apply Hanti; right; assumption.
Qed.

Lemma sort_perm_unique : forall l1 l2,
  Permutation l1 l2 ->
  (forall a b, In a l1 -> In b l1 -> leb a b = true -> leb b a = true -> a = b) ->
  Frame.sort leb l1 = Frame.sort leb l2.
Proof.
  intros l1 l2 HP Hanti. apply sorted_perm_unique.
  - apply sort_sorted.
  - apply sort_sorted.
  - eapply Permutation_trans; [apply sort_perm|].
    eapply Permutation_trans; [exact HP | apply Permutation_sym, sort_perm].
  - intros a b Ha Hb.
    apply Hanti; [exact (Permutation_in _ (sort_perm leb l1) Ha)
                 | exact (Permutation_in _ (sort_perm leb l1) Hb)].
Qed.

End SortFacts.

Lemma pair_leb_total : forall a b,
  CohortRetentionBuilder.pair_leb a b = true \/ CohortRetentionBuilder.pair_leb b a = true.
Proof.
  intros [a1 a2] [b1 b2]. unfold CohortRetentionBuilder.pair_leb. simpl.
  rewrite !orb_true_iff, !andb_true_iff, !Z.ltb_lt, !Z.eqb_eq, !Z.leb_le. lia.
Qed.

Lemma pair_leb_trans : forall a b c,
  CohortRetentionBuilder.pair_leb a b = true -> CohortRetentionBuilder.pair_leb b c = true ->
  CohortRetentionBuilder.pair_leb a c = true.
Proof.
  intros [a1 a2] [b1 b2] [c1 c2]. unfold CohortRetentionBuilder.pair_leb. simpl.
  rewrite !orb_true_iff, !andb_true_iff, !Z.ltb_lt, !Z.eqb_eq, !Z.leb_le. lia.
Qed.

Lemma pair_leb_antisym : forall a b,
  CohortRetentionBuilder.pair_leb a b = true -> CohortRetentionBuilder.pair_leb b a = true ->
  a = b.
Proof.
  intros [a1 a2] [b1 b2]. unfold CohortRetentionBuilder.pair_leb. simpl.
  rewrite !orb_true_iff, !andb_true_iff, !Z.ltb_lt, !Z.eqb_eq, !Z.leb_le.
  intros H1 H2. f_equal; lia.
Qed.

(** ** What a run does not control does not show in its output *)

Section Arrangements.

Lemma group_by_perm : forall {R K} (go go' : Frame.group_order) (eqb : K -> K -> bool)
    (key : R -> K) rows,
  Permutation (Frame.group_by go eqb key rows) (Frame.group_by go' eqb key rows).
Proof.
  intros R K go go' eqb key rows. unfold Frame.group_by.
  eapply Permutation_trans; [apply Frame.arrange_perm|].
  apply Permutation_sym. apply Frame.arrange_perm.
Qed.

(** A left join on a right frame of distinct keys does not depend on the
    order of the right frame. *)
Lemma merge_left_perm : forall {L R K} (eqb : K -> K -> bool),
  (forall a b, eqb a b = true <-> a = b) ->
  forall (lkey : L -> K) (rkey : R -> K) left right right',
    Permutation right right' -> NoDup (map rkey right) ->
    Frame.merge_left (fun l r => eqb (lkey l) (rkey r)) left right =
    Frame.merge_left (fun l r => eqb (lkey l) (rkey r)) left right'.
Proof.
  intros L R K eqb Hspec lkey rkey left right right' HP Hnd.
  assert (Hnd' : NoDup (map rkey right')).
  { eapply Permutation_NoDup; [apply Permutation_map; exact HP | exact Hnd]. }
  rewrite (merge_left_unique eqb Hspec lkey rkey left right Hnd).
  rewrite (merge_left_unique eqb Hspec lkey rkey left right' Hnd').
  apply map_ext. intro l. f_equal.
  apply (find_unique_perm eqb Hspec rkey (lkey l) right right' HP Hnd).
Qed.

Variables (cfg : business_rules) (ex : extracts).

Lemma orders_with_total_arrangement : forall go go',
  CustomerDimensionBuilder.orders_with_total go ex =
  CustomerDimensionBuilder.orders_with_total go' ex.
Proof.
  intros go go'. unfold CustomerDimensionBuilder.orders_with_total. f_equal.
  apply (merge_left_perm String.eqb string_eqb_spec Orders.order_id fst).
  - unfold CustomerDimensionBuilder.order_revenue. apply Permutation_map. apply group_by_perm.
  - apply order_revenue_keys.
Qed.

(** The customer dimension does not depend on the order in which Polars
    returns the groups. *)
Lemma customer_build_arrangement : forall gi go gi' go' n1 n2,
  CustomerDimensionBuilder.build gi go cfg ex n1 n2 =
  CustomerDimensionBuilder.build gi' go' cfg ex n1 n2.
Proof.
  intros gi go gi' go' n1 n2. unfold CustomerDimensionBuilder.build. do 2 f_equal.
  apply (merge_left_perm String.eqb string_eqb_spec Customers.customer_id
           CustomerDimensionBuilder.m_customer_id).
  - unfold CustomerDimensionBuilder.customer_metrics.
    rewrite (orders_with_total_arrangement gi gi').
    apply Permutation_map. apply group_by_perm.
  - apply customer_metrics_keys.
Qed.

Lemma customer_build_blank : forall gi go gi' go' n1 n2 n1' n2',
  map TransformOrchestrator.blank_customer (CustomerDimensionBuilder.build gi go cfg ex n1 n2) =
  map TransformOrchestrator.blank_customer
      (CustomerDimensionBuilder.build gi' go' cfg ex n1' n2').
Proof.
  intros. rewrite (customer_build_arrangement gi go gi' go' n1 n2).
  unfold CustomerDimensionBuilder.build. rewrite !map_map. apply map_ext.
  intros [k [c m]]. reflexivity.
Qed.

Lemma product_build_blank : forall n n',
  map TransformOrchestrator.blank_product (ProductDimensionBuilder.build ex n) =
  map TransformOrchestrator.blank_product (ProductDimensionBuilder.build ex n').
Proof.
  intros. unfold ProductDimensionBuilder.build. rewrite !map_map. apply map_ext.
  intros [k [id p]]. reflexivity.
Qed.

Lemma payment_type_build_blank : forall n n',
  map TransformOrchestrator.blank_payment_type (PaymentTypeDimensionBuilder.build ex n) =
  map TransformOrchestrator.blank_payment_type (PaymentTypeDimensionBuilder.build ex n').
Proof.
  intros. unfold PaymentTypeDimensionBuilder.build. rewrite !map_map. apply map_ext.
  intros [k t]. reflexivity.
Qed.

Lemma traverse_blank : forall {A B C} (f f' : A -> option B) (g : B -> C) (l : list A),
  (forall a, option_map g (f a) = option_map g (f' a)) ->
  option_map (map g) (traverse f l) = option_map (map g) (traverse f' l).
Proof.
  intros A B C f f' g l H. induction l as [|a t IH]; [reflexivity|].
  cbn [traverse]. specialize (H a).
  destruct (f a) as [b|], (f' a) as [b'|]; simpl in H; try discriminate; cbn [bind].
  - destruct (traverse f t) as [bs|], (traverse f' t) as [bs'|]; simpl in IH;
      try discriminate; cbn [bind option_map map]; [|reflexivity].
    inversion H. inversion IH. reflexivity.
  - reflexivity.
Qed.

Lemma date_build_blank : forall n n',
  option_map TransformOrchestrator.blank_date_frame (DateDimensionBuilder.build cfg n) =
  option_map TransformOrchestrator.blank_date_frame (DateDimensionBuilder.build cfg n').
Proof.
  intros n n'. unfold DateDimensionBuilder.build.
  pose proof (traverse_blank (DateDimensionBuilder.build_row n)
                (DateDimensionBuilder.build_row n') TransformOrchestrator.blank_date
                (DateDimensionBuilder.date_range
                   (Calendar.days_from_civil (start_date cfg))
                   (Calendar.days_from_civil (end_date cfg)))) as H.
  destruct (traverse (DateDimensionBuilder.build_row n) _) as [rs|],
           (traverse (DateDimensionBuilder.build_row n') _) as [rs'|];
    cbn [bind option_map] in *.
  - f_equal. unfold TransformOrchestrator.blank_date_frame. simpl. f_equal.
    assert (E : Some (map TransformOrchestrator.blank_date rs) =
                Some (map TransformOrchestrator.blank_date rs')).
    { apply H. intro d. unfold DateDimensionBuilder.build_row.
      destruct (Text.cast_int (Text.strftime_Ymd d)); reflexivity. }
    inversion E. reflexivity.
  - exfalso. assert (E : Some (map TransformOrchestrator.blank_date rs) = None).
    { apply H. intro d. unfold DateDimensionBuilder.build_row.
      destruct (Text.cast_int (Text.strftime_Ymd d)); reflexivity. }
    discriminate.
  - exfalso. assert (E : None = Some (map TransformOrchestrator.blank_date rs')).
    { apply H. intro d. unfold DateDimensionBuilder.build_row.
      destruct (Text.cast_int (Text.strftime_Ymd d)); reflexivity. }
    discriminate.
  - reflexivity.
Qed.

End Arrangements.

Section FactArrangements.

Import TransformOrchestrator.

Variable ex : extracts.

Lemma joined_arrangement : forall gi gp gi' gp',
  FactOrdersBuilder.joined gi gp ex = FactOrdersBuilder.joined gi' gp' ex.
Proof.
  intros gi gp gi' gp'. unfold FactOrdersBuilder.joined.
  rewrite (merge_left_perm String.eqb string_eqb_spec Orders.order_id
             FactOrdersBuilder.ia_order_id (orders ex)
             (FactOrdersBuilder.order_items_agg gi ex)
             (FactOrdersBuilder.order_items_agg gi' ex)).
  - rewrite (merge_left_perm String.eqb string_eqb_spec
               (fun l : Orders.row * option FactOrdersBuilder.items_agg =>
                  Orders.order_id (fst l))
               FactOrdersBuilder.pa_order_id _
               (FactOrdersBuilder.order_payments_agg gp ex)
               (FactOrdersBuilder.order_payments_agg gp' ex)).
    + reflexivity.
    + unfold FactOrdersBuilder.order_payments_agg. apply Permutation_map, group_by_perm.
    + apply order_payments_agg_keys.
  - unfold FactOrdersBuilder.order_items_agg. apply Permutation_map, group_by_perm.
  - apply order_items_agg_keys.
Qed.

Lemma map_through_blank : forall {A B} (blank : A -> A) (f : A -> B) (l l' : list A),
  (forall a, f (blank a) = f a) -> map blank l = map blank l' -> map f l = map f l'.
Proof.
  intros A B blank f l l' Hf H.
  rewrite <- (map_ext _ _ Hf l), <- (map_ext _ _ Hf l'), <- !(map_map blank f), H.
  reflexivity.
Qed.

(** A fact row reads the dimensions only through their business and
    surrogate keys. *)
Lemma fact_row_blank : forall d d' n n' k j,
  blank_dims d = blank_dims d' ->
  blank_order (FactOrdersBuilder.selected (FactOrdersBuilder.fact_row d n k j)) =
  blank_order (FactOrdersBuilder.selected (FactOrdersBuilder.fact_row d' n' k j)).
Proof.
  intros d d' n n' k [[[o ia] pa] rv] H.
  unfold blank_dims in H. inversion H as [[Hc Hp Ht Hd]]. clear H.
  unfold blank_date_frame in Hd. inversion Hd as [[Hr Hs]]. clear Hd.
  unfold FactOrdersBuilder.fact_row, blank_order. cbn.
  rewrite (map_through_blank blank_customer
             (fun c => (CustomerDimensionBuilder.customer_id c,
                        CustomerDimensionBuilder.customer_key c)) _ _
             (fun a => eq_refl) Hc).
  rewrite (map_through_blank blank_product
             (fun p => (ProductDimensionBuilder.product_id p,
                        ProductDimensionBuilder.product_key p)) _ _
             (fun a => eq_refl) Hp).
  rewrite (map_through_blank blank_payment_type
             (fun p => (PaymentTypeDimensionBuilder.payment_type p,
                        PaymentTypeDimensionBuilder.payment_type_key p)) _ _
             (fun a => eq_refl) Ht).
  rewrite (map_through_blank blank_date
             (fun r => (DateDimensionBuilder.full_date r, DateDimensionBuilder.date_key r)) _ _
             (fun a => eq_refl) Hr).
  reflexivity.
Qed.

Lemma traverse_map : forall {A B C} (g : A -> B) (h : B -> option C) (l : list A),
  traverse (fun a => h (g a)) l = traverse h (map g l).
Proof.
  intros A B C g h l. induction l as [|a t IH]; [reflexivity|].
  cbn [traverse map]. rewrite IH. reflexivity.
Qed.

Lemma add_date_str_blank : forall f f',
  blank_date_frame f = blank_date_frame f' ->
  option_map blank_date_frame (FactOrdersBuilder.add_date_str f) =
  option_map blank_date_frame (FactOrdersBuilder.add_date_str f').
Proof.
  intros f f' H. unfold blank_date_frame in H. inversion H as [[Hr Hs]]. clear H.
  unfold FactOrdersBuilder.add_date_str.
  rewrite (traverse_map DateDimensionBuilder.full_date
             (fun z => Text.cast_int (Text.strftime_Ymd z)) (DateDimensionBuilder.rows f)).
  rewrite (traverse_map DateDimensionBuilder.full_date
             (fun z => Text.cast_int (Text.strftime_Ymd z)) (DateDimensionBuilder.rows f')).
  rewrite (map_through_blank blank_date DateDimensionBuilder.full_date _ _
             (fun a => eq_refl) Hr).
  destruct (traverse _ _) as [col|]; cbn [bind option_map]; [|reflexivity].
  unfold blank_date_frame. cbn. rewrite Hr. reflexivity.
Qed.

(** The fact table and the frames the call leaves behind depend on neither
    the clock (but for [created_at]) nor the order of the groups, and on the
    dimensions only up to their timestamps. *)
Lemma fact_build_blank : forall gi gp gi' gp' d d' n n',
  blank_dims d = blank_dims d' ->
  option_map (fun fd => (map blank_order (fst fd), blank_dims (snd fd)))
    (FactOrdersBuilder.build gi gp ex d n) =
  option_map (fun fd => (map blank_order (fst fd), blank_dims (snd fd)))
    (FactOrdersBuilder.build gi' gp' ex d' n').
Proof.
  intros gi gp gi' gp' d d' n n' H.
  assert (Hd : blank_date_frame (FactOrdersBuilder.dim_date d) =
               blank_date_frame (FactOrdersBuilder.dim_date d')).
  { exact (f_equal FactOrdersBuilder.dim_date H). }
  pose proof (add_date_str_blank _ _ Hd) as Ha.
  unfold FactOrdersBuilder.build.
  destruct (FactOrdersBuilder.add_date_str (FactOrdersBuilder.dim_date d)) as [dd|],
           (FactOrdersBuilder.add_date_str (FactOrdersBuilder.dim_date d')) as [dd'|];
    cbn [bind option_map] in *; try discriminate; [|reflexivity].
  assert (Hdd : blank_date_frame dd = blank_date_frame dd') by congruence. clear Ha.
  set (d1 := {| FactOrdersBuilder.dim_customers := FactOrdersBuilder.dim_customers d;
                FactOrdersBuilder.dim_products := FactOrdersBuilder.dim_products d;
                FactOrdersBuilder.dim_payment_type := FactOrdersBuilder.dim_payment_type d;
                FactOrdersBuilder.dim_date := dd |}).
  set (d1' := {| FactOrdersBuilder.dim_customers := FactOrdersBuilder.dim_customers d';
                 FactOrdersBuilder.dim_products := FactOrdersBuilder.dim_products d';
                 FactOrdersBuilder.dim_payment_type := FactOrdersBuilder.dim_payment_type d';
                 FactOrdersBuilder.dim_date := dd' |}).
  assert (H1 : blank_dims d1 = blank_dims d1').
  { pose proof (f_equal FactOrdersBuilder.dim_customers H) as Hc.
    pose proof (f_equal FactOrdersBuilder.dim_products H) as Hp.
    pose proof (f_equal FactOrdersBuilder.dim_payment_type H) as Ht.
    unfold blank_dims in Hc, Hp, Ht |- *. unfold d1, d1'.
    cbn [FactOrdersBuilder.dim_customers FactOrdersBuilder.dim_products
         FactOrdersBuilder.dim_payment_type FactOrdersBuilder.dim_date] in Hc, Hp, Ht |- *.
    rewrite Hc, Hp, Ht, Hdd. reflexivity. }
  cbn [fst snd]. f_equal. f_equal; [|exact H1].
  unfold FactOrdersBuilder.df_fact. rewrite (joined_arrangement gi gp gi' gp').
  rewrite !map_map. apply map_ext. intros [k j]. apply fact_row_blank. exact H1.
Qed.

Lemma cohort_data_arrangement : forall go go' rows,
  CohortRetentionBuilder.cohort_data go rows = CohortRetentionBuilder.cohort_data go' rows.
Proof.
  intros go go' rows. unfold CohortRetentionBuilder.cohort_data.
  apply sort_perm_unique.
  - intros a b. apply pair_leb_total.
  - intros a b c. apply pair_leb_trans.
  - apply Permutation_map, group_by_perm.
  - intros a b Ha Hb H1 H2.
    pose proof (pair_leb_antisym _ _ H1 H2) as E.
    refine (NoDup_map_key_inj fst _ a b _ Ha Hb E).
    rewrite map_map. simpl.
    apply (group_by_keys_NoDup CohortRetentionBuilder.pair_eqb pair_eqb_spec).
Qed.

Lemma cohort_build_blank : forall go go' dc dc' n n',
  map blank_customer dc = map blank_customer dc' ->
  option_map (map blank_cohort) (CohortRetentionBuilder.build go ex dc n) =
  option_map (map blank_cohort) (CohortRetentionBuilder.build go' ex dc' n').
Proof.
  intros go go' dc dc' n n' H. unfold CohortRetentionBuilder.build.
  assert (Ha : CohortRetentionBuilder.analysis ex dc = CohortRetentionBuilder.analysis ex dc').
  { unfold CohortRetentionBuilder.analysis, CohortRetentionBuilder.customers_cohort.
    rewrite (map_through_blank blank_customer
               (fun c => (CustomerDimensionBuilder.customer_id c,
                          option_map Calendar.to_period_M
                            (CustomerDimensionBuilder.first_order_date c))) _ _
               (fun a => eq_refl) H).
    reflexivity. }
  rewrite Ha.
  destruct (traverse CohortRetentionBuilder.months_since
              (CohortRetentionBuilder.analysis ex dc')) as [rows|];
    cbn [bind option_map]; [|reflexivity].
  rewrite (cohort_data_arrangement go go' rows). f_equal.
  rewrite !map_map. apply map_ext. intros [k [r s]]. reflexivity.
Qed.

End FactArrangements.

Section Determinism.

Import TransformOrchestrator.

(** The output of a run, timestamps aside, depends only on the extracts and
    the configuration: not on the state the orchestrator starts from, not on
    the clock, not on the order in which Polars returns its groups. *)
Lemma run_all_independent : forall self self' env env' cfg ex,
  option_map without_timestamps (run_all self env cfg ex) =
  option_map without_timestamps (run_all self' env' cfg ex).
Proof.
  intros self self' env env' cfg ex.
  unfold run_all, _build_dim_date.
  pose proof (date_build_blank cfg (now env 0%nat) (now env' 0%nat)) as Hdate.
  destruct (DateDimensionBuilder.build cfg (now env 0%nat)) as [dd|],
           (DateDimensionBuilder.build cfg (now env' 0%nat)) as [dd'|];
    cbn [option_map] in Hdate; try discriminate; cbn [bind]; [|reflexivity].
  assert (Hdd : blank_date_frame dd = blank_date_frame dd') by congruence. clear Hdate.
  unfold _build_fact_orders, _build_dim_customers, _build_dim_payment_type,
    _build_dim_products, set_dimensions.
  cbn [self_dimensions self_facts dim_date dim_products dim_payment_type dim_customers bind].
  set (d := {| FactOrdersBuilder.dim_customers :=
                 CustomerDimensionBuilder.build (group_order env 0%nat) (group_order env 1%nat)
                   cfg ex (now env 3%nat) (now env 4%nat);
               FactOrdersBuilder.dim_products :=
                 ProductDimensionBuilder.build ex (now env 1%nat);
               FactOrdersBuilder.dim_payment_type :=
                 PaymentTypeDimensionBuilder.build ex (now env 2%nat);
               FactOrdersBuilder.dim_date := dd |}).
  set (d' := {| FactOrdersBuilder.dim_customers :=
                  CustomerDimensionBuilder.build (group_order env' 0%nat)
                    (group_order env' 1%nat) cfg ex (now env' 3%nat) (now env' 4%nat);
                FactOrdersBuilder.dim_products :=
                  ProductDimensionBuilder.build ex (now env' 1%nat);
                FactOrdersBuilder.dim_payment_type :=
                  PaymentTypeDimensionBuilder.build ex (now env' 2%nat);
                FactOrdersBuilder.dim_date := dd' |}).
  assert (Hd : blank_dims d = blank_dims d').
  { unfold blank_dims, d, d'.
    cbn [FactOrdersBuilder.dim_customers FactOrdersBuilder.dim_products
         FactOrdersBuilder.dim_payment_type FactOrdersBuilder.dim_date].
    rewrite (customer_build_blank cfg ex (group_order env 0%nat) (group_order env 1%nat)
               (group_order env' 0%nat) (group_order env' 1%nat)
               (now env 3%nat) (now env 4%nat) (now env' 3%nat) (now env' 4%nat)).
    rewrite (product_build_blank ex (now env 1%nat) (now env' 1%nat)).
    rewrite (payment_type_build_blank ex (now env 2%nat) (now env' 2%nat)).
    rewrite Hdd. reflexivity. }
  pose proof (fact_build_blank ex (group_order env 2%nat) (group_order env 3%nat)
                (group_order env' 2%nat) (group_order env' 3%nat) d d'
                (now env 5%nat) (now env' 5%nat) Hd) as Hfact.
  destruct (FactOrdersBuilder.build (group_order env 2%nat) (group_order env 3%nat) ex d
              (now env 5%nat)) as [[f d1]|],
           (FactOrdersBuilder.build (group_order env' 2%nat) (group_order env' 3%nat) ex d'
              (now env' 5%nat)) as [[f' d1']|];
    cbn [option_map fst snd] in Hfact; try discriminate; cbn [bind]; [|reflexivity].
  assert (Hf : map blank_order f = map blank_order f') by congruence.
  assert (Hd1 : blank_dims d1 = blank_dims d1') by congruence. clear Hfact.
  unfold _build_fact_cohort_retention, set_facts.
  cbn [self_dimensions self_facts dim_customers fact_orders fact_cohort_retention bind fst snd].
  pose proof (f_equal FactOrdersBuilder.dim_customers Hd1) as Hc1.
  pose proof (f_equal FactOrdersBuilder.dim_products Hd1) as Hp1.
  pose proof (f_equal FactOrdersBuilder.dim_payment_type Hd1) as Ht1.
  pose proof (f_equal FactOrdersBuilder.dim_date Hd1) as Hdt1.
  unfold blank_dims in Hc1, Hp1, Ht1, Hdt1.
  cbn [FactOrdersBuilder.dim_customers FactOrdersBuilder.dim_products
       FactOrdersBuilder.dim_payment_type FactOrdersBuilder.dim_date] in Hc1, Hp1, Ht1, Hdt1.
  pose proof (cohort_build_blank ex (group_order env 4%nat) (group_order env' 4%nat)
                _ _ (now env 6%nat) (now env' 6%nat) Hc1) as Hcoh.
  destruct (CohortRetentionBuilder.build (group_order env 4%nat) ex
              (FactOrdersBuilder.dim_customers d1) (now env 6%nat)) as [c|],
           (CohortRetentionBuilder.build (group_order env' 4%nat) ex
              (FactOrdersBuilder.dim_customers d1') (now env' 6%nat)) as [c'|];
    cbn [option_map] in Hcoh; try discriminate; cbn [bind option_map]; [|reflexivity].
  assert (Hc : map blank_cohort c = map blank_cohort c') by congruence.
  unfold without_timestamps.
  cbn [self_dimensions self_facts dim_date dim_products dim_payment_type dim_customers
       fact_orders fact_cohort_retention option_map].
  rewrite Hc1, Hp1, Ht1, Hdt1, Hf, Hc. reflexivity.
Qed.

(** C9. Running the orchestrator a second time on the same extracts and
    configuration succeeds whenever the first run did, and yields the same
    tables except for their [created_at] / [updated_at] columns. *)
Theorem run_all_twice :
  forall self env env' cfg ex s1,
    run_all self env cfg ex = Some s1 ->
    exists s2,
      run_all s1 env' cfg ex = Some s2 /\
      without_timestamps s2 = without_timestamps s1.
Proof.
  intros self env env' cfg ex s1 H1.
  pose proof (run_all_independent self s1 env env' cfg ex) as H.
  rewrite H1 in H. cbn [option_map] in H.
  destruct (run_all s1 env' cfg ex) as [s2|]; cbn [option_map] in H; [|discriminate].
  exists s2. split; [reflexivity | congruence].
Qed.

Lemma run_all_twice_witness :
  exists s1 s2,
    run_all init Scenario.env Scenario.rules Scenario.shop = Some s1 /\
    run_all s1 Scenario.env' Scenario.rules Scenario.shop = Some s2 /\
    without_timestamps s2 = without_timestamps s1.
Proof.
  destruct (run_all init Scenario.env Scenario.rules Scenario.shop) as [s1|] eqn:E1.
  - destruct (run_all_twice init Scenario.env Scenario.env' Scenario.rules Scenario.shop s1 E1)
      as [s2 [E2 Hw]].
    exists s1, s2. split; [reflexivity|]. split; assumption.
  - vm_compute in E1. discriminate.
Defined.

End Determinism.

(** * Further properties of the builders *)

(** ** Surrogate keys and row order of the dimensions *)

Section DimensionKeys.

(** The numbers 1, 2, ..., n. *)
Lemma enumerate_from_fst : forall {A} (l : list A) n,
  map fst (Frame.enumerate_from n l) =
  map (fun i => n + Z.of_nat i) (seq 0 (List.length l)).
Proof.
  induction l as [|a t IH]; intro n; [reflexivity|].
  cbn [Frame.enumerate_from map List.length seq fst].
  f_equal; [simpl; lia|].
  rewrite IH. rewrite <- seq_shift, map_map. apply map_ext. intro i. lia.
Qed.

(** The customer dimension has one row per row of the customers extract, in
    extract order, and numbers them 1, 2, ..., N. *)
Theorem customer_dimension_rows_and_keys :
  forall gi go cfg ex n1 n2,
    let dim := CustomerDimensionBuilder.build gi go cfg ex n1 n2 in
    map CustomerDimensionBuilder.customer_id dim
      = map Customers.customer_id (customers ex) /\
    map CustomerDimensionBuilder.customer_unique_id dim
      = map Customers.customer_unique_id (customers ex) /\
    map CustomerDimensionBuilder.customer_key dim
      = map (fun i => 1 + Z.of_nat i) (seq 0 (List.length (customers ex))).
Proof.
  intros gi go cfg ex n1 n2 dim. unfold dim, CustomerDimensionBuilder.build.
  rewrite (merge_left_unique String.eqb string_eqb_spec Customers.customer_id
             CustomerDimensionBuilder.m_customer_id (customers ex) _
             (customer_metrics_keys gi go cfg ex)).
  set (joined := map (fun l => (l, find _ _)) (customers ex)).
  assert (Hj : map fst joined = customers ex).
  { unfold joined. rewrite map_map. apply map_id. }
  assert (Hs : forall {B} (f : Customers.row -> B),
             map (fun kcm : Z * (Customers.row * option CustomerDimensionBuilder.metrics) =>
                    f (fst (snd kcm))) (Frame.enumerate_from 1 joined)
             = map f (customers ex)).
  { intros B f. rewrite <- (map_map snd (fun cm => f (fst cm))), enumerate_from_snd.
    rewrite <- (map_map fst f), Hj. reflexivity. }
  rewrite !map_map. cbn [CustomerDimensionBuilder.customer_id
    CustomerDimensionBuilder.customer_unique_id CustomerDimensionBuilder.customer_key
    CustomerDimensionBuilder.dimension_row].
  split; [apply (Hs _ Customers.customer_id)|].
  split; [apply (Hs _ Customers.customer_unique_id)|].
  rewrite <- (map_map fst (fun k => k)), map_id, enumerate_from_fst.
  unfold joined. rewrite length_map. reflexivity.
Qed.

(** The product dimension keeps the products whose [product_id] is not null,
    in extract order, and numbers them 1, 2, ..., N. *)
Theorem product_dimension_rows_and_keys :
  forall ex now,
    let dim := ProductDimensionBuilder.build ex now in
    map ProductDimensionBuilder.product_id dim
      = Cell.dropna (map Products.product_id (products ex)) /\
    map ProductDimensionBuilder.product_key dim
      = map (fun i => 1 + Z.of_nat i) (seq 0 (List.length dim)).
Proof.
  intros ex now dim. unfold dim, ProductDimensionBuilder.build.
  set (df := flat_map _ (products ex)).
  assert (Hdf : map fst df = Cell.dropna (map Products.product_id (products ex))).
  { unfold df, Cell.dropna. induction (products ex) as [|p t IH]; [reflexivity|].
    cbn [flat_map map]. rewrite map_app, IH.
    destruct (Products.product_id p); reflexivity. }
  split.
  - rewrite map_map.
    rewrite (map_ext _ (fun kp : Z * (string * Products.row) => fst (snd kp)))
      by (intros [k [id p]]; reflexivity).
    rewrite <- (map_map snd fst), enumerate_from_snd. exact Hdf.
  - rewrite length_map, enumerate_from_length, map_map.
    rewrite (map_ext _ (fun kp : Z * (string * Products.row) => fst kp))
      by (intros [k [id p]]; reflexivity).
    apply enumerate_from_fst.
Qed.

(** The payment-type dimension lists every payment type that occurs in the
    payments extract, each once, in order of first appearance, numbered 1,
    2, ..., N; a type outside the fixed category table is kept, with
    category 'Other'. *)
Theorem payment_type_dimension_rows_and_keys :
  forall ex now,
    let dim := PaymentTypeDimensionBuilder.build ex now in
    NoDup (map PaymentTypeDimensionBuilder.payment_type dim) /\
    (forall t, In t (map PaymentTypeDimensionBuilder.payment_type dim) <->
               exists p, In p (payments ex) /\ Payments.payment_type p = Some t) /\
    map PaymentTypeDimensionBuilder.payment_type_key dim
      = map (fun i => 1 + Z.of_nat i) (seq 0 (List.length dim)) /\
    (forall r, In r dim ->
       Frame.dict_get String.eqb PaymentTypeDimensionBuilder.payment_categories
         (PaymentTypeDimensionBuilder.payment_type r) = None ->
       PaymentTypeDimensionBuilder.payment_category r = "Other"%string).
Proof.
  intros ex now dim. unfold dim, PaymentTypeDimensionBuilder.build.
  set (types := Frame.distinct String.eqb
                  (Cell.dropna (map Payments.payment_type (payments ex)))).
  assert (Ht : map PaymentTypeDimensionBuilder.payment_type
                 (map (fun kt : Z * string =>
                         let '(k, t) := kt in
                         {| PaymentTypeDimensionBuilder.payment_type_key := k;
                            PaymentTypeDimensionBuilder.payment_type := t;
                            PaymentTypeDimensionBuilder.payment_category :=
                              match Frame.dict_get String.eqb
                                      PaymentTypeDimensionBuilder.payment_categories t with
                              | Some c => c
                              | None => "Other"%string
                              end;
                            PaymentTypeDimensionBuilder.created_at := now |})
                      (Frame.enumerate_from 1 types)) = types).
  { rewrite map_map.
    rewrite (map_ext _ (fun kt : Z * string => snd kt)) by (intros [k t]; reflexivity).
    apply enumerate_from_snd. }
  split; [rewrite Ht; apply (distinct_NoDup String.eqb string_eqb_spec)|].
  split; [|split].
  - intro t. rewrite Ht. unfold types.
    rewrite (distinct_In String.eqb string_eqb_spec), dropna_In, in_map_iff.
    split; intros [p Hp]; exists p; tauto.
  - rewrite length_map, enumerate_from_length, map_map.
    rewrite (map_ext _ (fun kt : Z * string => fst kt)) by (intros [k t]; reflexivity).
    apply enumerate_from_fst.
  - intros r Hr Hn. apply in_map_iff in Hr. destruct Hr as [[k t] [Er _]]. subst r.
    cbn in *. rewrite Hn. reflexivity.
Qed.

End DimensionKeys.

(** ** Invariants of the customer metrics *)

Section CustomerMetrics.

Import CustomerDimensionBuilder.

Lemma fold_left_max_spec : forall l a,
  (a <= fold_left Z.max l a /\ forall x, In x l -> x <= fold_left Z.max l a) /\
  In (fold_left Z.max l a) (a :: l).
Proof.
  induction l as [|b t IH]; intro a; simpl.
  - split; [split; [lia | intros x []] | left; reflexivity].
  - destruct (IH (Z.max a b)) as [[H1 H2] H3]. split; [split|].
    + lia.
    + intros x [E|Hx]; [subst x; lia | apply H2; exact Hx].
    + destruct H3 as [E|H3]; [|right; right; exact H3].
      rewrite <- E. destruct (Z.max_spec a b) as [[_ Em]|[_ Em]]; rewrite Em; auto.
Qed.

Lemma Zmax_list_spec : forall l m, Cell.Zmax_list l = Some m ->
  In (Some m) l /\ forall t, In (Some t) l -> t <= m.
Proof.
  intros l m H. unfold Cell.Zmax_list in H.
  destruct (Cell.dropna l) as [|a t] eqn:E; [discriminate|]. inversion H; subst m; clear H.
  destruct (fold_left_max_spec t a) as [[H1 H2] H3]. split.
  - apply dropna_In. rewrite E. exact H3.
  - intros x Hx. apply dropna_In in Hx. rewrite E in Hx.
    destruct Hx as [Ex|Hx]; [subst x; exact H1 | apply H2; exact Hx].
Qed.

Lemma dropna_all_some : forall {A} (l : list (option A)) (v : list A),
  l = map Some v -> Cell.dropna l = v.
Proof.
  intros A l v E. subst l. unfold Cell.dropna.
  induction v as [|a t IH]; [reflexivity|]. cbn [map flat_map]. rewrite IH. reflexivity.
Qed.

(** After the fill, every order carries a revenue. *)
Lemma order_totals_not_null : forall gi ex cid,
  exists v, map snd (orders_of gi ex cid) = map Some v /\
            List.length v = List.length (orders_of gi ex cid).
Proof.
  intros gi ex cid. unfold orders_of. rewrite orders_with_total_eq.
  induction (orders ex) as [|o t IH].
  - exists []. split; reflexivity.
  - destruct IH as [v [Ev El]]. cbn [map filter fst].
    destruct (String.eqb (Orders.customer_id o) cid).
    + cbn [map snd List.length].
      destruct (find _ _) as [r|]; cbn [option_map Cell.fillna].
      * exists (snd r :: v). split; [cbn [map]; rewrite Ev; reflexivity | simpl; rewrite El; reflexivity].
      * exists (0%Q :: v). split; [cbn [map]; rewrite Ev; reflexivity | simpl; rewrite El; reflexivity].
    + exists v. split; assumption.
Qed.

(** For a customer with at least one order: the order count is positive,
    the delivered orders are among them, the total spent and the average
    order value are not null, the first order is not after the last, and
    the two dates are null together. *)
Theorem customer_metrics_consistent :
  forall gi go cfg ex n1 n2 r,
    In r (build gi go cfg ex n1 n2) ->
    (exists o, In o (orders ex) /\ Orders.customer_id o = customer_id r) ->
    exists n k s a,
      total_orders r = Some n /\ 1 <= n /\
      delivered_orders r = Some k /\ 0 <= k <= n /\
      total_spent r = Some s /\ avg_order_value r = Some a /\
      (forall f l, first_order_date r = Some f -> last_order_date r = Some l -> f <= l) /\
      (first_order_date r = None <-> last_order_date r = None).
Proof.
  intros gi go cfg ex n1 n2 r Hin [o [Ho Eo]].
  destruct (build_row_cases gi go cfg ex n1 n2 r Hin) as [k0 [c [Hc [[Hn Er] | [_ Er]]]]].
  - exfalso. apply (Hn o Ho). rewrite Eo, Er. reflexivity.
  - assert (Eid : customer_id r = Customers.customer_id c) by (rewrite Er; reflexivity).
    set (os := orders_of gi ex (Customers.customer_id c)) in *.
    destruct (order_totals_not_null gi ex (Customers.customer_id c)) as [v [Ev El]].
    fold os in Ev, El.
    assert (Hos : In o (map fst os)).
    { unfold os. rewrite orders_of_fst. apply filter_In. split; [exact Ho|].
      apply String.eqb_eq. congruence. }
    assert (Hlen : (1 <= List.length os)%nat).
    { destruct os; [contradiction | simpl; lia]. }
    exists (Z.of_nat (List.length os)),
           (Z.of_nat (List.length
                        (filter (fun o0 => is_delivered (Orders.order_status (fst o0))) os))),
           (Cell.Qsum v),
           (Float64.div (Cell.Qsum v) (inject_Z (Z.of_nat (List.length v)))).
    rewrite Er. cbn - [Cell.Zmin_list Cell.Zmax_list Cell.sum Cell.mean]. fold os.
    split; [reflexivity|]. split; [lia|]. split; [reflexivity|].
    split; [pose proof (filter_length_le (fun o0 => is_delivered (Orders.order_status (fst o0))) os); lia|].
    split; [unfold Cell.sum; rewrite (dropna_all_some _ v Ev); reflexivity|].
    split.
    { unfold Cell.mean. rewrite (dropna_all_some _ v Ev).
      destruct v; [simpl in El; lia | reflexivity]. }
    split.
    + intros f l Hf Hl.
      apply Zmin_list_spec in Hf. apply Zmax_list_spec in Hl.
      destruct Hf as [Hfin _]. destruct Hl as [_ Hmax]. apply Hmax. exact Hfin.
    + unfold Cell.Zmin_list, Cell.Zmax_list.
      destruct (Cell.dropna _); split; intro H; try reflexivity; discriminate.
Qed.

Lemma customer_metrics_consistent_witness :
  exists r n k s a,
    In r (build Frame.in_order Frame.reversed Scenario.rules Scenario.shop 3 4) /\
    customer_id r = "C1"%string /\
    total_orders r = Some n /\ delivered_orders r = Some k /\ 0 <= k <= n /\
    total_spent r = Some s /\ avg_order_value r = Some a.
Proof.
  set (r := nth 0 (build Frame.in_order Frame.reversed Scenario.rules Scenario.shop 3 4)
              (dimension_row Scenario.rules 0 0 0 (Scenario.customer "" "" "") None)).
  assert (Hin : In r (build Frame.in_order Frame.reversed Scenario.rules Scenario.shop 3 4)).
  { vm_compute. left. reflexivity. }
  destruct (customer_metrics_consistent Frame.in_order Frame.reversed Scenario.rules
              Scenario.shop 3 4 r Hin) as [n [k [s [a H]]]].
  - exists (Scenario.order "o1" "C1" "delivered" (Scenario.at_day 2016 1 5)).
    split; [left; reflexivity | reflexivity].
  - exists r, n, k, s, a. split; [exact Hin|]. split; [reflexivity|]. tauto.
Defined.

End CustomerMetrics.

(** ** Lookup dictionaries *)

Section Dictionaries.

Context {K V : Type} (eqb : K -> K -> bool).
Hypothesis eqb_spec : forall a b, eqb a b = true <-> a = b.

Lemma dict_get_In : forall (d : list (K * V)) k v,
  Frame.dict_get eqb d k = Some v -> In (k, v) d.
Proof.
  induction d as [|[k' v'] t IH]; intros k v H; simpl in H; [discriminate|].
  destruct (Frame.dict_get eqb t k) as [v0|] eqn:E.
  - inversion H; subst v0. right. apply IH. exact E.
  - destruct (eqb k' k) eqn:Ek; [|discriminate].
    inversion H; subst v'. apply eqb_spec in Ek. subst k'. left. reflexivity.
Qed.

Lemma dict_get_None : forall (d : list (K * V)) k,
  Frame.dict_get eqb d k = None <-> ~ In k (map fst d).
Proof.
  induction d as [|[k' v'] t IH]; intro k; simpl.
  - split; [intros _ [] | reflexivity].
  - destruct (Frame.dict_get eqb t k) as [v0|] eqn:E.
    + split; [discriminate|]. intro H. exfalso. apply H. right.
      apply dict_get_In in E. apply in_map_iff. exists (k, v0). split; [reflexivity | exact E].
    + destruct (eqb k' k) eqn:Ek.
      * split; [discriminate|]. intro H. exfalso. apply H. left. apply eqb_spec. exact Ek.
      * split; [|reflexivity]. intros _ [H|H].
        -- apply eqb_spec in H. congruence.
        -- apply (proj1 (IH k) E). exact H.
Qed.

(** A dictionary built from a function graph returns the function's value on
    the keys it holds. *)
Lemma dict_get_graph : forall (f : K -> V) (l : list K) k,
  Frame.dict_get eqb (map (fun z => (z, f z)) l) k =
  if existsb (eqb k) l then Some (f k) else None.
Proof.
  intros f l k. induction l as [|a t IH]; [reflexivity|].
  cbn [map Frame.dict_get existsb]. rewrite IH.
  destruct (existsb (eqb k) t); [rewrite orb_true_r; reflexivity|].
  rewrite orb_false_r. destruct (eqb a k) eqn:E.
  - apply eqb_spec in E. subst a.
    replace (eqb k k) with true by (symmetry; apply eqb_spec; reflexivity). reflexivity.
  - destruct (eqb k a) eqn:E'; [|reflexivity].
    apply eqb_spec in E'. subst a.
    assert (eqb k k = true) by (apply eqb_spec; reflexivity). congruence.
Qed.

End Dictionaries.

(** ** Rows, keys and foreign keys of the order fact *)

Section FactRows.

Import FactOrdersBuilder.

Variables (go_items go_payments : Frame.group_order) (ex : extracts).

Local Abbreviation find_items :=
  (fun o => find (fun a => String.eqb (Orders.order_id o) (ia_order_id a))
                 (order_items_agg go_items ex)).
Local Abbreviation find_payments :=
  (fun o => find (fun p => String.eqb (Orders.order_id o) (pa_order_id p))
                 (order_payments_agg go_payments ex)).

(** The two aggregate joins add columns to the orders and no row; only the
    join with the reviews can add rows. *)
Lemma joined_eq :
  joined go_items go_payments ex =
  Frame.merge_left
    (fun l r => String.eqb (Orders.order_id (fst (fst l))) (Reviews.order_id r))
    (map (fun o => ((o, find_items o), find_payments o)) (orders ex))
    (reviews ex).
Proof.
  unfold joined.
  rewrite (merge_left_unique String.eqb string_eqb_spec Orders.order_id ia_order_id
             (orders ex) _ (order_items_agg_keys go_items ex)).
  rewrite (merge_left_unique String.eqb string_eqb_spec
             (fun l : Orders.row * option items_agg => Orders.order_id (fst l))
             pa_order_id _ _ (order_payments_agg_keys go_payments ex)).
  rewrite map_map. reflexivity.
Qed.

Lemma joined_row : forall o ia pa rv,
  In (((o, ia), pa), rv) (joined go_items go_payments ex) ->
  In o (orders ex) /\ ia = find_items o /\ pa = find_payments o /\
  match rv with
  | Some r => In r (reviews ex) /\ Reviews.order_id r = Orders.order_id o
  | None => forall r, In r (reviews ex) -> Reviews.order_id r <> Orders.order_id o
  end.
Proof.
  intros o ia pa rv H. rewrite joined_eq in H.
  apply merge_left_In_inv in H. destruct H as [Hl Hrv].
  apply in_map_iff in Hl. destruct Hl as [o' [E Ho']]. inversion E; subst o' ia pa.
  split; [exact Ho'|]. split; [reflexivity|]. split; [reflexivity|].
  destruct rv as [r|]; simpl in Hrv.
  - destruct Hrv as [Hr Er]. apply String.eqb_eq in Er. auto.
  - intros r Hr Er. specialize (Hrv r Hr). rewrite Er, String.eqb_refl in Hrv. discriminate.
Qed.

(** When no order has two reviews the joined frame is the orders extract,
    row for row. *)
Lemma joined_orders_when_reviews_unique :
  NoDup (map Reviews.order_id (reviews ex)) ->
  map (fun j => fst (fst (fst j))) (joined go_items go_payments ex) = orders ex.
Proof.
  intro Hnd. rewrite joined_eq.
  rewrite (merge_left_unique String.eqb string_eqb_spec
             (fun l : (Orders.row * option items_agg) * option payments_agg =>
                Orders.order_id (fst (fst l)))
             Reviews.order_id _ _ Hnd).
  rewrite !map_map. simpl. apply map_id.
Qed.

(** The fact table numbers its rows 1, 2, ..., N; every row is a row of the
    orders extract and every order of the extract has a row; when no order
    has two reviews the fact table follows the orders extract row for row. *)
Theorem fact_rows_follow_orders :
  forall d now fact d',
    build go_items go_payments ex d now = Some (fact, d') ->
    map order_key fact = map (fun i => 1 + Z.of_nat i) (seq 0 (List.length fact)) /\
    (List.length (orders ex) <= List.length fact)%nat /\
    (forall r, In r fact ->
       exists o, In o (orders ex) /\ order_id r = Orders.order_id o /\
                 order_status r = Orders.order_status o /\
                 order_purchase_timestamp r = Orders.order_purchase_timestamp o) /\
    (forall o, In o (orders ex) -> In (Orders.order_id o) (map order_id fact)) /\
    (NoDup (map Reviews.order_id (reviews ex)) ->
       map order_id fact = map Orders.order_id (orders ex)).
Proof.
  intros d now fact d' Hb.
  destruct (build_frames go_items go_payments ex d now fact d' Hb) as [Ef _]. subst fact.
  unfold df_fact. rewrite !map_map.
  split; [|split; [|split; [|split]]].
  - rewrite !length_map, enumerate_from_length.
    rewrite (map_ext _ (fun kj : Z * _ => fst kj))
      by (intros [k [[[o ia] pa] rv]]; reflexivity).
    apply enumerate_from_fst.
  - rewrite length_map, enumerate_from_length. apply joined_length.
  - intros r Hr. apply in_map_iff in Hr. destruct Hr as [[k j] [Er Hin]].
    apply enumerate_from_In in Hin. destruct j as [[[o ia] pa] rv].
    destruct (joined_row o ia pa rv Hin) as [Ho _].
    exists o. subst r. simpl. auto.
  - intros o Ho. destruct (joined_In_order go_items go_payments ex o Ho) as [ia [pa [rv Hj]]].
    destruct (In_enumerate_from _ 1 _ Hj) as [k Hk].
    apply in_map_iff. exists (k, (((o, ia), pa), rv)). split; [reflexivity | exact Hk].
  - intro Hnd.
    rewrite (map_ext _ (fun kj : Z * _ => Orders.order_id (fst (fst (fst (snd kj))))))
      by (intros [k [[[o ia] pa] rv]]; reflexivity).
    rewrite <- (map_map snd (fun j => Orders.order_id (fst (fst (fst j))))).
    rewrite enumerate_from_snd.
    rewrite <- (map_map (fun j => fst (fst (fst j))) Orders.order_id).
    rewrite (joined_orders_when_reviews_unique Hnd). reflexivity.
Qed.

End FactRows.

Lemma fact_rows_follow_orders_witness :
  exists fact d',
    Scenario.fact_of Scenario.monthly = Some (fact, d') /\
    map FactOrdersBuilder.order_id fact = map Orders.order_id (orders Scenario.monthly) /\
    map FactOrdersBuilder.order_key fact = [1; 2; 3; 4; 5; 6; 7; 8; 9; 10; 11; 12].
Proof.
  unfold Scenario.fact_of.
  destruct (Scenario.dims_of Scenario.monthly) as [d|] eqn:Ed; [|vm_compute in Ed; discriminate].
  cbn [bind].
  destruct (FactOrdersBuilder.build Frame.in_order Frame.in_order Scenario.monthly d
              (Scenario.clock 5)) as [[fact d']|] eqn:Eb.
  - exists fact, d'. split; [reflexivity|].
    destruct (fact_rows_follow_orders Frame.in_order Frame.in_order Scenario.monthly
                d (Scenario.clock 5) fact d' Eb) as [Hk [_ [_ [_ Hu]]]].
    split; [apply Hu; constructor|].
    rewrite Hk. vm_compute in Ed. inversion Ed; subst d. vm_compute in Eb.
    inversion Eb. reflexivity.
  - exfalso. vm_compute in Ed. inversion Ed; subst d. vm_compute in Eb. discriminate.
Defined.

(** The payment types of the payment-type dimension are those of the
    payments extract. *)
Lemma payment_types_listed : forall ex now t,
  In t (map PaymentTypeDimensionBuilder.payment_type
          (PaymentTypeDimensionBuilder.build ex now)) <->
  exists p, In p (payments ex) /\ Payments.payment_type p = Some t.
Proof.
  intros ex now t. unfold PaymentTypeDimensionBuilder.build.
  rewrite map_map.
  rewrite (map_ext _ (fun kt : Z * string => snd kt)) by (intros [k t']; reflexivity).
  rewrite enumerate_from_snd.
  rewrite (distinct_In String.eqb string_eqb_spec), dropna_In, in_map_iff.
  split; intros [p Hp]; exists p; tauto.
Qed.

(** A dictionary zipped from two columns of a frame: a hit names a row of the
    frame, a miss means no row has the key. *)
Lemma lookup_hit : forall {A} (key : A -> string) (val : A -> Z) (l : list A) s v,
  Frame.dict_get String.eqb (map (fun c => (key c, val c)) l) s = Some v ->
  exists c, In c l /\ key c = s /\ val c = v.
Proof.
  intros A key val l s v H. apply (dict_get_In String.eqb string_eqb_spec) in H.
  apply in_map_iff in H. destruct H as [c [E Hc]]. inversion E. exists c. auto.
Qed.

Lemma lookup_miss : forall {A} (key : A -> string) (val : A -> Z) (l : list A) s,
  Frame.dict_get String.eqb (map (fun c => (key c, val c)) l) s = None ->
  forall c, In c l -> key c <> s.
Proof.
  intros A key val l s H c Hc E.
  apply (dict_get_None String.eqb string_eqb_spec) in H. apply H.
  rewrite map_map. simpl. apply in_map_iff. exists c. auto.
Qed.

Section ForeignKeys.

Import FactOrdersBuilder.

Variables (go_items go_payments : Frame.group_order) (ex : extracts).
Variables (d : dims) (now : Z).

Lemma payment_type_key_lookup :
  forall w, In w (df_fact go_items go_payments ex d now) ->
    match payment_type_key (selected w), payment_type w with
    | Some k, Some t => exists c, In c (dim_payment_type d) /\
                  PaymentTypeDimensionBuilder.payment_type c = t /\
                  PaymentTypeDimensionBuilder.payment_type_key c = k
    | None, Some t => forall c, In c (dim_payment_type d) ->
                  PaymentTypeDimensionBuilder.payment_type c <> t
    | _, None => False
    end.
Proof.
  intros w Hw. apply df_fact_In_inv in Hw. destruct Hw as [k [[[[o ia] pa] rv] [_ Ew]]].
  subst w. cbn [fact_row selected payment_type_key payment_type].
  destruct (bind pa pa_payment_type) as [t|]; cbn [Cell.fillna bind].
  - destruct (Frame.dict_get String.eqb _ t) eqn:E.
    + apply (lookup_hit _ _ _ _ _ E).
    + apply (lookup_miss _ _ _ _ E).
  - destruct (Frame.dict_get String.eqb _ "not_defined"%string) eqn:E.
    + apply (lookup_hit _ _ _ _ _ E).
    + apply (lookup_miss _ _ _ _ E).
Qed.

(** The three dictionary-mapped foreign keys of a fact row point to a
    dimension row that carries the row's business key; a key is null exactly
    when the dimension has no row for the business key (an order without
    items has no product to look up). *)
Theorem foreign_keys_resolved :
  forall w, In w (df_fact go_items go_payments ex d now) ->
    match customer_key (selected w) with
    | Some k => exists c, In c (dim_customers d) /\
                  CustomerDimensionBuilder.customer_id c = customer_id w /\
                  CustomerDimensionBuilder.customer_key c = k
    | None => forall c, In c (dim_customers d) ->
                  CustomerDimensionBuilder.customer_id c <> customer_id w
    end /\
    match product_key (selected w), primary_product_id w with
    | Some k, Some p => exists c, In c (dim_products d) /\
                  ProductDimensionBuilder.product_id c = p /\
                  ProductDimensionBuilder.product_key c = k
    | Some _, None => False
    | None, Some p => forall c, In c (dim_products d) ->
                  ProductDimensionBuilder.product_id c <> p
    | None, None => True
    end /\
    match payment_type_key (selected w), payment_type w with
    | Some k, Some t => exists c, In c (dim_payment_type d) /\
                  PaymentTypeDimensionBuilder.payment_type c = t /\
                  PaymentTypeDimensionBuilder.payment_type_key c = k
    | None, Some t => forall c, In c (dim_payment_type d) ->
                  PaymentTypeDimensionBuilder.payment_type c <> t
    | _, None => False
    end.
Proof.
  intros w Hw. split; [|split; [|apply (payment_type_key_lookup w Hw)]];
    apply df_fact_In_inv in Hw; destruct Hw as [k [[[[o ia] pa] rv] [_ Ew]]];
    subst w; cbn [fact_row selected customer_key product_key customer_id primary_product_id].
  - destruct (Frame.dict_get String.eqb _ (Orders.customer_id o)) eqn:E.
    + apply (lookup_hit _ _ _ _ _ E).
    + apply (lookup_miss _ _ _ _ E).
  - destruct (bind ia ia_primary_product_id) as [p|]; cbn [bind]; [|exact I].
    destruct (Frame.dict_get String.eqb _ p) eqn:E.
    + apply (lookup_hit _ _ _ _ _ E).
    + apply (lookup_miss _ _ _ _ E).
Qed.

(** With the payment-type dimension built from the same extract, the
    payment-type key of a fact row is null exactly when the row's payment
    type occurs in no payment record: never for the type of a recorded
    payment, and for the sentinel 'not_defined' of an order without payments
    unless some payment record carries that very type. *)
Theorem payment_type_key_null_iff_unobserved :
  forall n w,
    dim_payment_type d = PaymentTypeDimensionBuilder.build ex n ->
    In w (df_fact go_items go_payments ex d now) ->
    exists t, payment_type w = Some t /\
      (payment_type_key (selected w) = None <->
       forall p, In p (payments ex) -> Payments.payment_type p <> Some t) /\
      ((forall p, In p (payments ex) ->
          Payments.order_id p <> order_id (selected w)) ->
       t = "not_defined"%string).
Proof.
  intros n w Hd Hw.
  pose proof (payment_type_key_lookup w Hw) as Hk.
  pose proof (payment_types_listed ex n) as Hin.
  rewrite <- Hd in Hin.
  destruct (payment_type w) as [t|] eqn:Et;
    [|destruct (payment_type_key (selected w)); contradiction].
  exists t. split; [reflexivity|]. split; [split|].
  - intros Hn p Hp Ep. rewrite Hn in Hk.
    assert (Hi : In t (map PaymentTypeDimensionBuilder.payment_type (dim_payment_type d))).
    { apply Hin. exists p. auto. }
    apply in_map_iff in Hi. destruct Hi as [c [Ec Hc]]. apply (Hk c Hc Ec).
  - intro Hno. destruct (payment_type_key (selected w)) as [k|]; [|reflexivity].
    exfalso. destruct Hk as [c [Hc [Ec _]]].
    assert (Hi : In t (map PaymentTypeDimensionBuilder.payment_type (dim_payment_type d))).
    { apply in_map_iff. exists c. auto. }
    apply Hin in Hi. destruct Hi as [p [Hp Ep]]. apply (Hno p Hp Ep).
  - intro Hnp. apply df_fact_In_inv in Hw. destruct Hw as [k [[[[o ia] pa] rv] [Hj Ew]]].
    destruct (joined_In_inv go_items go_payments ex o ia pa rv Hj) as [_ Hpa].
    subst w. cbn in Et, Hnp.
    destruct pa as [a|].
    + exfalso. destruct Hpa as [Ha Ea].
      destruct (order_payments_agg_In go_payments ex a Ha) as [p [Hp Ep]].
      apply (Hnp p Hp). congruence.
    + cbn in Et. congruence.
Qed.

End ForeignKeys.

Lemma payment_type_key_null_iff_unobserved_witness :
  exists d w,
    Scenario.dims_of Scenario.shop = Some d /\
    In w (FactOrdersBuilder.df_fact Frame.in_order Frame.in_order Scenario.shop d 5) /\
    FactOrdersBuilder.order_id (FactOrdersBuilder.selected w) = "o4"%string /\
    FactOrdersBuilder.payment_type w = Some "not_defined"%string /\
    FactOrdersBuilder.payment_type_key (FactOrdersBuilder.selected w) = None.
Proof.
  destruct (Scenario.dims_of Scenario.shop) as [d|] eqn:Ed; [|vm_compute in Ed; discriminate].
  set (w := nth 4 (FactOrdersBuilder.df_fact Frame.in_order Frame.in_order Scenario.shop d 5)
              (FactOrdersBuilder.fact_row d 0 0
                 (((Scenario.order "" "" "" None, None), None), None))).
  assert (Hd : FactOrdersBuilder.dim_payment_type d
               = PaymentTypeDimensionBuilder.build Scenario.shop (Scenario.clock 2)).
  { vm_compute in Ed. inversion Ed. reflexivity. }
  assert (Hw : In w (FactOrdersBuilder.df_fact Frame.in_order Frame.in_order Scenario.shop d 5)).
  { apply nth_In. unfold FactOrdersBuilder.df_fact.
    rewrite length_map, enumerate_from_length. vm_compute. lia. }
  assert (Eo : FactOrdersBuilder.order_id (FactOrdersBuilder.selected w) = "o4"%string)
    by reflexivity.
  destruct (payment_type_key_null_iff_unobserved Frame.in_order Frame.in_order Scenario.shop
              d 5 (Scenario.clock 2) w Hd Hw) as [t [Et [Hiff Hnd]]].
  assert (Etn : t = "not_defined"%string).
  { apply Hnd. intros p Hp. rewrite Eo. simpl in Hp.
    destruct Hp as [<-|[<-|[]]]; discriminate. }
  subst t. exists d, w. split; [reflexivity|]. split; [exact Hw|]. split; [exact Eo|].
  split; [exact Et|]. apply Hiff. intros p Hp. simpl in Hp.
  destruct Hp as [<-|[<-|[]]]; discriminate.
Defined.

Lemma foreign_keys_resolved_witness :
  exists d w c,
    Scenario.dims_of Scenario.shop = Some d /\
    In w (FactOrdersBuilder.df_fact Frame.in_order Frame.in_order Scenario.shop d 5) /\
    In c (FactOrdersBuilder.dim_customers d) /\
    CustomerDimensionBuilder.customer_id c = FactOrdersBuilder.customer_id w /\
    FactOrdersBuilder.customer_key (FactOrdersBuilder.selected w)
      = Some (CustomerDimensionBuilder.customer_key c).
Proof.
  destruct (Scenario.dims_of Scenario.shop) as [d|] eqn:Ed; [|vm_compute in Ed; discriminate].
  set (w := nth 4 (FactOrdersBuilder.df_fact Frame.in_order Frame.in_order Scenario.shop d 5)
              (FactOrdersBuilder.fact_row d 0 0
                 (((Scenario.order "" "" "" None, None), None), None))).
  assert (Hw : In w (FactOrdersBuilder.df_fact Frame.in_order Frame.in_order Scenario.shop d 5)).
  { apply nth_In. unfold FactOrdersBuilder.df_fact.
    rewrite length_map, enumerate_from_length. vm_compute. lia. }
  destruct (foreign_keys_resolved Frame.in_order Frame.in_order Scenario.shop d 5 w Hw)
    as [Hc _].
  destruct (FactOrdersBuilder.customer_key (FactOrdersBuilder.selected w)) as [k|] eqn:Ek.
  - destruct Hc as [c [Hc [Ec Ekc]]]. exists d, w, c. subst k. auto.
  - exfalso. vm_compute in Ed. inversion Ed; subst d. vm_compute in Ek. discriminate.
Defined.

(** ** The date dimension and the date keys of the fact table *)

Section DateRows.

Import DateDimensionBuilder.

(** For well-formed configured dates the builder succeeds, and its rows are
    those of [row_of_day]. *)
Lemma date_build_rows : forall cfg now,
  Calendar.valid_date (start_date cfg) = true ->
  Calendar.valid_date (end_date cfg) = true ->
  build cfg now =
  Some {| rows := map (row_of_day now)
                    (date_range (Calendar.days_from_civil (start_date cfg))
                                (Calendar.days_from_civil (end_date cfg)));
          date_str := None |}.
Proof.
  intros cfg now Hs He. unfold build.
  rewrite (traverse_total (build_row now) (row_of_day now)); [reflexivity|].
  intros z Hz. apply build_row_of_day. apply date_range_In in Hz.
  pose proof (year_between _ _ z Hs He Hz) as Hb.
  apply valid_date_spec in Hs, He. lia.
Qed.

(** Later days have larger [YYYYMMDD] numbers. *)
Lemma date_key_lt : forall now z1 z2, z1 < z2 ->
  date_key (row_of_day now z1) < date_key (row_of_day now z2).
Proof.
  intros now z1 z2 Hlt. cbn [date_key row_of_day].
  assert (Hle : z1 <= z2) by lia.
  pose proof (month_ordinal_mono z1 z2 Hle) as Hm.
  pose proof (civil_from_days_range z1) as [Hm1 Hd1].
  pose proof (civil_from_days_range z2) as [Hm2 Hd2].
  pose proof (days_from_civil_from_days z1) as E1.
  pose proof (days_from_civil_from_days z2) as E2.
  destruct (Calendar.civil_from_days z1) as [y1 m1 d1].
  destruct (Calendar.civil_from_days z2) as [y2 m2 d2].
  unfold Calendar.month_ordinal in Hm. cbn [Calendar.year Calendar.month Calendar.day] in *.
  destruct (Z.eq_dec y1 y2) as [Ey|Ny]; [|lia].
  destruct (Z.eq_dec m1 m2) as [Em|Nm]; [|lia].
  subst y2 m2. unfold Calendar.days_from_civil in E1, E2.
  cbn [Calendar.year Calendar.month Calendar.day] in E1, E2. lia.
Qed.

Lemma StronglySorted_map_seq : forall (g : nat -> Z),
  (forall i j, (i < j)%nat -> g i < g j) ->
  forall n a, StronglySorted Z.lt (map g (seq a n)).
Proof.
  intros g Hg. induction n as [|n IH]; intro a; [constructor|].
  cbn [seq map]. constructor; [apply IH|].
  apply Forall_forall. intros x Hx. apply in_map_iff in Hx.
  destruct Hx as [j [E Hj]]. subst x. apply in_seq in Hj. apply Hg. lia.
Qed.

(** For well-formed configured dates the date dimension is built; it is
    empty when the end date is before the start date; the year, month and
    day of a row are the calendar date of its [full_date], the key is
    [YYYYMMDD] read as a number, the quarter, ISO week and ISO weekday are in
    range, the weekend flag marks Saturdays and Sundays; and the keys
    increase strictly along the frame, so no two rows share one. *)
Theorem date_dimension_rows_consistent :
  forall cfg now,
    Calendar.valid_date (start_date cfg) = true ->
    Calendar.valid_date (end_date cfg) = true ->
    exists f,
      build cfg now = Some f /\
      date_str f = None /\
      (Calendar.days_from_civil (end_date cfg) < Calendar.days_from_civil (start_date cfg) ->
       rows f = []) /\
      (forall r, In r (rows f) ->
         Calendar.days_from_civil
           {| Calendar.year := year r; Calendar.month := month r;
              Calendar.day := day_of_month r |} = full_date r /\
         date_key r = year r * 10000 + month r * 100 + day_of_month r /\
         1 <= year r <= 9999 /\ 1 <= month r <= 12 /\
         1 <= day_of_month r <= 31 /\
         quarter r = (month r + 2) / 3 /\ 1 <= quarter r <= 4 /\
         1 <= week r <= 53 /\
         1 <= day_of_week r <= 7 /\
         (is_weekend r = true <-> day_of_week r = 6 \/ day_of_week r = 7) /\
         created_at r = now) /\
      StronglySorted Z.lt (map date_key (rows f)) /\
      NoDup (map date_key (rows f)).
Proof.
  intros cfg now Hs He.
  set (s := Calendar.days_from_civil (start_date cfg)).
  set (e := Calendar.days_from_civil (end_date cfg)).
  exists {| rows := map (row_of_day now) (date_range s e); date_str := None |}.
  split; [apply date_build_rows; assumption|].
  split; [reflexivity|]. cbn [rows].
  assert (Hsorted : StronglySorted Z.lt (map date_key (map (row_of_day now) (date_range s e)))).
  { unfold date_range. rewrite !map_map. apply StronglySorted_map_seq.
    intros i j Hij. apply date_key_lt. lia. }
  split; [|split; [|split; [exact Hsorted|]]].
  - intro Hlt. unfold date_range.
    replace (Z.to_nat (e - s + 1)) with 0%nat by lia. reflexivity.
  - intros r Hr. apply in_map_iff in Hr. destruct Hr as [z [Er Hz]]. subst r.
    apply date_range_In in Hz.
    pose proof (year_between _ _ z Hs He Hz) as Hy.
    pose proof (civil_from_days_range z) as [Hm Hd].
    pose proof (days_from_civil_from_days z) as Hrt.
    apply valid_date_spec in Hs, He.
    cbn [row_of_day year month day_of_month full_date date_key quarter week day_of_week
         is_weekend created_at].
    destruct (Calendar.civil_from_days z) as [y m dd] eqn:Ec.
    cbn [Calendar.year Calendar.month Calendar.day] in *.
    split; [exact Hrt|]. split; [reflexivity|]. split; [lia|]. split; [exact Hm|].
    split; [exact Hd|].
    unfold Calendar.quarter, Calendar.weekday. cbn [Calendar.month].
    split; [Z.div_mod_to_equations; lia|].
    split; [Z.div_mod_to_equations; lia|].
    split.
    { assert (Hw : forall y', 52 <= weeks_in_year y' <= 53).
      { intro y'. unfold weeks_in_year. destruct (_ || _); lia. }
      unfold iso_week. rewrite Ec. cbn [Calendar.year].
      pose proof (Hw (y - 1)). pose proof (Hw y).
      repeat match goal with
             | |- context [if ?a <? ?b then _ else _] => destruct (Z.ltb_spec a b)
             end; lia. }
    split; [Z.div_mod_to_equations; lia|].
    split; [|reflexivity].
    rewrite Z.leb_le. Z.div_mod_to_equations; lia.
  - clear -Hsorted. induction Hsorted as [|a l Hl IH Hall]; constructor; [|exact IH].
    intro Hin. rewrite Forall_forall in Hall. specialize (Hall a Hin). lia.
Qed.

Lemma date_dimension_rows_consistent_witness :
  exists f,
    build Scenario.rules 7 = Some f /\
    map date_key (rows f) = [20160104; 20160105; 20160106] /\
    map day_of_week (rows f) = [1; 2; 3] /\
    NoDup (map date_key (rows f)).
Proof.
  destruct (date_dimension_rows_consistent Scenario.rules 7) as [f [Hb [_ [_ [_ [_ Hn]]]]]].
  - reflexivity.
  - reflexivity.
  - exists f. vm_compute in Hb. inversion Hb; subst f.
    split; [reflexivity|]. split; [reflexivity|]. split; [reflexivity | exact Hn].
Defined.

End DateRows.

Section FactDateKeys.

Import FactOrdersBuilder.

Lemma Zeqb_spec : forall a b : Z, Z.eqb a b = true <-> a = b.
Proof. intros; apply Z.eqb_eq. Qed.

(** When the fact build returns, given the date dimension built from
    well-formed configured dates: the [date_str] column it leaves in the
    caller's date dimension repeats the [date_key] column; and the order
    and delivery date keys of a fact row are the [YYYYMMDD] number of the
    date of the purchase and of the delivery when that date lies in the
    configured range, and null when it lies outside or the timestamp is
    null. *)
Theorem fact_date_keys_resolved :
  forall go_items go_payments ex cfg n0 d now fact d',
    Calendar.valid_date (start_date cfg) = true ->
    Calendar.valid_date (end_date cfg) = true ->
    Some (dim_date d) = DateDimensionBuilder.build cfg n0 ->
    build go_items go_payments ex d now = Some (fact, d') ->
    let key_of := fun ts : option Z =>
      match ts with
      | Some t =>
          let z := Calendar.date_of t in
          let c := Calendar.civil_from_days z in
          if (Calendar.days_from_civil (start_date cfg) <=? z)
             && (z <=? Calendar.days_from_civil (end_date cfg))
          then Some (Calendar.year c * 10000 + Calendar.month c * 100 + Calendar.day c)
          else None
      | None => None
      end in
    DateDimensionBuilder.rows (dim_date d') = DateDimensionBuilder.rows (dim_date d) /\
    DateDimensionBuilder.date_str (dim_date d')
      = Some (map DateDimensionBuilder.date_key (DateDimensionBuilder.rows (dim_date d))) /\
    forall r, In r fact ->
      order_date_key r = key_of (order_purchase_timestamp r) /\
      delivery_date_key r = key_of (order_delivered_customer_date r).
Proof.
  intros go_items go_payments ex cfg n0 d now fact d' Hs He Hd Hbuild key_of.
  rewrite (date_build_rows cfg n0 Hs He) in Hd.
  set (s := Calendar.days_from_civil (start_date cfg)) in *.
  set (e := Calendar.days_from_civil (end_date cfg)) in *.
  injection Hd as Hd.
  assert (Hstr : add_date_str (dim_date d)
                 = Some {| DateDimensionBuilder.rows := DateDimensionBuilder.rows (dim_date d);
                           DateDimensionBuilder.date_str :=
                             Some (map DateDimensionBuilder.date_key
                                     (DateDimensionBuilder.rows (dim_date d))) |}).
  { unfold add_date_str.
    rewrite (traverse_total _ DateDimensionBuilder.date_key); [reflexivity|].
    intros r Hr. rewrite Hd in Hr. cbn [DateDimensionBuilder.rows] in Hr.
    apply in_map_iff in Hr. destruct Hr as [z [Er Hz]]. subst r.
    cbn [DateDimensionBuilder.row_of_day DateDimensionBuilder.full_date
         DateDimensionBuilder.date_key].
    apply cast_int_strftime_Ymd. apply date_range_In in Hz.
    pose proof (year_between _ _ z Hs He Hz) as Hb.
    apply valid_date_spec in Hs, He. lia. }
  unfold build in Hbuild. rewrite Hstr in Hbuild. cbn [bind] in Hbuild.
  inversion Hbuild; subst fact d'; clear Hbuild.
  cbn [dim_date DateDimensionBuilder.rows DateDimensionBuilder.date_str].
  split; [reflexivity|]. split; [reflexivity|].
  intros r Hr. apply in_map_iff in Hr. destruct Hr as [w [Er Hw]]. subst r.
  apply df_fact_In_inv in Hw. destruct Hw as [k [[[[o ia] pa] rv] [_ Ew]]]. subst w.
  cbn [fact_row selected order_date_key delivery_date_key order_purchase_timestamp
       order_delivered_customer_date dim_date DateDimensionBuilder.rows].
  rewrite Hd. cbn [DateDimensionBuilder.rows]. rewrite map_map.
  cbn [DateDimensionBuilder.row_of_day DateDimensionBuilder.full_date
       DateDimensionBuilder.date_key].
  assert (Hlook : forall z,
            Frame.dict_get Z.eqb
              (map (fun x : Z =>
                      (x, Calendar.year (Calendar.civil_from_days x) * 10000
                          + Calendar.month (Calendar.civil_from_days x) * 100
                          + Calendar.day (Calendar.civil_from_days x)))
                   (DateDimensionBuilder.date_range s e)) z
            = if (s <=? z) && (z <=? e)
              then Some (Calendar.year (Calendar.civil_from_days z) * 10000
                         + Calendar.month (Calendar.civil_from_days z) * 100
                         + Calendar.day (Calendar.civil_from_days z))
              else None).
  { intro z.
    rewrite (dict_get_graph Z.eqb Zeqb_spec
               (fun x => Calendar.year (Calendar.civil_from_days x) * 10000
                         + Calendar.month (Calendar.civil_from_days x) * 100
                         + Calendar.day (Calendar.civil_from_days x))).
    replace (existsb (Z.eqb z) (DateDimensionBuilder.date_range s e))
      with ((s <=? z) && (z <=? e)); [reflexivity|].
    apply eq_true_iff_eq. rewrite existsb_exists, andb_true_iff, !Z.leb_le. split.
    - intro H. exists z. split; [apply date_range_In; exact H | apply Z.eqb_refl].
    - intros [x [Hx Ex]]. apply Z.eqb_eq in Ex. subst x. apply date_range_In in Hx. exact Hx. }
  unfold key_of.
  split.
  - destruct (Orders.order_purchase_timestamp o) as [t|]; [|reflexivity].
    cbn [option_map bind]. apply Hlook.
  - destruct (Orders.order_delivered_customer_date o) as [t|]; [|reflexivity].
    cbn [option_map bind]. apply Hlook.
Qed.

Lemma fact_date_keys_resolved_witness :
  exists d fact d',
    Scenario.dims_of Scenario.shop = Some d /\
    FactOrdersBuilder.build Frame.in_order Frame.in_order Scenario.shop d 5 = Some (fact, d') /\
    DateDimensionBuilder.date_str (dim_date d') = Some [20160104; 20160105; 20160106] /\
    map order_date_key fact = [Some 20160105; Some 20160105; None; None; None].
Proof.
  destruct (Scenario.dims_of Scenario.shop) as [d|] eqn:Ed; [|vm_compute in Ed; discriminate].
  assert (Hd : Some (dim_date d) = DateDimensionBuilder.build Scenario.rules (Scenario.clock 0)).
  { vm_compute in Ed. inversion Ed. reflexivity. }
  destruct (FactOrdersBuilder.build Frame.in_order Frame.in_order Scenario.shop d 5)
    as [[fact d']|] eqn:Eb.
  - destruct (fact_date_keys_resolved Frame.in_order Frame.in_order Scenario.shop
                Scenario.rules (Scenario.clock 0) d 5 fact d' eq_refl eq_refl Hd Eb)
      as [_ [Hstr _]].
    exists d, fact, d'. split; [reflexivity|]. split; [exact Eb|].
    vm_compute in Ed. inversion Ed; subst d. split.
    + rewrite Hstr. reflexivity.
    + vm_compute in Eb. inversion Eb. reflexivity.
  - exfalso. clear Hd. vm_compute in Ed. inversion Ed; subst d. vm_compute in Eb.
    discriminate Eb.
Defined.

End FactDateKeys.

(** ** The measures of a fact row *)

Section Groups.

Context {K : Type} (eqb : K -> K -> bool).
Hypothesis eqb_spec : forall a b, eqb a b = true <-> a = b.

(** Looking a key up among the groups of a [group_by] gives the rows of that
    key, in frame order, whatever the arrangement of the groups. *)
Lemma find_group : forall {R} go (key : R -> K) rows k,
  find (fun g => eqb k (fst g)) (Frame.group_by go eqb key rows) =
  match filter (fun r => eqb (key r) k) rows with
  | [] => None
  | rs => Some (k, rs)
  end.
Proof.
  intros R go key rows k.
  destruct (find _ (Frame.group_by go eqb key rows)) as [[k' rs]|] eqn:E.
  - apply find_some in E. destruct E as [Hin Hk]. cbn [fst] in Hk.
    apply eqb_spec in Hk. subst k'.
    pose proof (group_by_nonempty eqb eqb_spec go key rows _ Hin) as Hne.
    apply (group_by_In eqb eqb_spec) in Hin. destruct Hin as [_ Hs]. cbn [fst snd] in *.
    subst rs. destruct (filter _ rows); [contradiction | reflexivity].
  - destruct (filter (fun r => eqb (key r) k) rows) as [|r t] eqn:Ef; [reflexivity|].
    exfalso.
    assert (Hr : In r (filter (fun r => eqb (key r) k) rows)) by (rewrite Ef; left; reflexivity).
    apply filter_In in Hr. destruct Hr as [Hr Hk]. apply eqb_spec in Hk.
    assert (Hg : In (k, filter (fun r => eqb (key r) k) rows)
                    (Frame.group_by go eqb key rows)).
    { apply (group_by_In eqb eqb_spec). cbn [fst snd]. split; [|reflexivity].
      apply in_map_iff. exists r. auto. }
    pose proof (find_none _ _ E _ Hg) as Hf. cbn [fst] in Hf.
    assert (Ht : eqb k k = true) by (apply eqb_spec; reflexivity). congruence.
Qed.

End Groups.

Lemma find_map : forall {A B} (f : A -> B) (p : B -> bool) (l : list A),
  find p (map f l) = option_map f (find (fun a => p (f a)) l).
Proof.
  intros A B f p l. induction l as [|a t IH]; [reflexivity|].
  cbn [map find]. destruct (p (f a)); [reflexivity | exact IH].
Qed.

Section FactMeasures.

Import FactOrdersBuilder.

Variables (go_items go_payments : Frame.group_order) (ex : extracts).

Local Abbreviation items_of :=
  (fun o => filter (fun i => String.eqb (OrderItems.order_id i) (Orders.order_id o))
                   (order_items ex)).
Local Abbreviation payments_of :=
  (fun o => filter (fun p => String.eqb (Payments.order_id p) (Orders.order_id o))
                   (payments ex)).

Lemma find_items_agg : forall o,
  find (fun a => String.eqb (Orders.order_id o) (ia_order_id a)) (order_items_agg go_items ex)
  = match items_of o with
    | [] => None
    | its =>
        Some {| ia_order_id := Orders.order_id o;
                ia_order_item_count := Cell.count (map OrderItems.order_item_id its);
                ia_order_subtotal := Cell.sum (map OrderItems.price its);
                ia_order_freight_total := Cell.sum (map OrderItems.freight_value its);
                ia_order_total_value := Cell.sum (map OrderItems.item_total its);
                ia_primary_product_id := hd_error (map OrderItems.product_id its);
                ia_seller_id := bind (hd_error its) OrderItems.seller_id |}
    end.
Proof.
  intro o. unfold order_items_agg. rewrite find_map. cbn [ia_order_id].
  rewrite (find_group String.eqb string_eqb_spec).
  destruct (filter _ (order_items ex)); reflexivity.
Qed.

Lemma find_payments_agg : forall o,
  find (fun a => String.eqb (Orders.order_id o) (pa_order_id a))
       (order_payments_agg go_payments ex)
  = match payments_of o with
    | [] => None
    | ps =>
        Some {| pa_order_id := Orders.order_id o;
                pa_payment_value := Cell.sum (map Payments.payment_value ps);
                pa_payment_type := bind (hd_error ps) Payments.payment_type;
                pa_payment_installments :=
                  Cell.Zmax_list (map Payments.payment_installments ps) |}
    end.
Proof.
  intro o. unfold order_payments_agg. rewrite find_map. cbn [pa_order_id].
  rewrite (find_group String.eqb string_eqb_spec).
  destruct (filter _ (payments ex)); reflexivity.
Qed.

(** A row of the fact table belongs to an order of the extract; together
    with what the joins found for it. *)
Lemma fact_row_origin : forall d now fact d' r,
  build go_items go_payments ex d now = Some (fact, d') ->
  In r fact ->
  exists k o rv,
    In o (orders ex) /\
    match rv with
    | Some v => In v (reviews ex) /\ Reviews.order_id v = Orders.order_id o
    | None => forall v, In v (reviews ex) -> Reviews.order_id v <> Orders.order_id o
    end /\
    r = selected
          (fact_row d' now k
             (((o, find (fun a => String.eqb (Orders.order_id o) (ia_order_id a))
                        (order_items_agg go_items ex)),
               find (fun a => String.eqb (Orders.order_id o) (pa_order_id a))
                    (order_payments_agg go_payments ex)), rv)).
Proof.
  intros d now fact d' r Hb Hr.
  destruct (build_frames go_items go_payments ex d now fact d' Hb) as [Hf _]. subst fact.
  apply in_map_iff in Hr. destruct Hr as [w [Er Hw]]. subst r.
  apply df_fact_In_inv in Hw. destruct Hw as [k [[[[o ia] pa] rv] [Hj Ew]]]. subst w.
  destruct (joined_row go_items go_payments ex o ia pa rv Hj) as [Ho [Eia [Epa Hrv]]].
  subst ia pa. exists k, o, rv. split; [exact Ho|]. split; [exact Hrv | reflexivity].
Qed.

(** The item and payment measures of a fact row are the aggregates over the
    item and payment records of its own order, taken in extract order and
    independent of the arrangement of the groups: counts and sums skip
    nulls and are 0 over no record, the seller is that of the order's first
    item, the instalments are the largest non-null count, or 1. *)
Theorem fact_measures_per_order :
  forall d now fact d' r,
    build go_items go_payments ex d now = Some (fact, d') ->
    In r fact ->
    exists o,
      In o (orders ex) /\ order_id r = Orders.order_id o /\
      order_item_count r = Some (Cell.count (map OrderItems.order_item_id (items_of o))) /\
      order_subtotal r = Some (Cell.sum (map OrderItems.price (items_of o))) /\
      order_freight_total r = Some (Cell.sum (map OrderItems.freight_value (items_of o))) /\
      order_total_value r = Some (Cell.sum (map OrderItems.item_total (items_of o))) /\
      seller_id r = bind (hd_error (items_of o)) OrderItems.seller_id /\
      payment_value r = Some (Cell.sum (map Payments.payment_value (payments_of o))) /\
      payment_installments r =
        Cell.fillna 1 (Cell.Zmax_list (map Payments.payment_installments (payments_of o))).
Proof.
  intros d now fact d' r Hb Hr.
  destruct (fact_row_origin d now fact d' r Hb Hr) as [k [o [rv [Ho [_ Er]]]]].
  exists o. split; [exact Ho|]. subst r.
  rewrite find_items_agg, find_payments_agg.
  cbn [fact_row selected order_id order_item_count order_subtotal order_freight_total
       order_total_value seller_id payment_value payment_installments].
  split; [reflexivity|].
  destruct (items_of o) as [|i its]; destruct (payments_of o) as [|p ps];
    cbn [option_map bind Cell.fillna ia_order_item_count ia_order_subtotal
         ia_order_freight_total ia_order_total_value ia_seller_id pa_payment_value
         pa_payment_installments];
    repeat split; reflexivity.
Qed.

(** The flags of a fact row: a delivery counts as late exactly when it came
    at least one whole day (86400 s) after the estimated date, and then the
    delay in days is positive; the delay and the delivery days are never
    null, and 0 when a timestamp they need is null; the order counts as
    completed exactly when its status is 'delivered'; a review score is that
    of a review of this order, and [has_review] tells whether there is one. *)
Theorem fact_delivery_and_review_flags :
  forall d now fact d' r,
    build go_items go_payments ex d now = Some (fact, d') ->
    In r fact ->
    exists o delay days,
      In o (orders ex) /\ order_id r = Orders.order_id o /\
      delivery_delay_days r = Some delay /\
      delivery_days r = Some days /\
      (is_late_delivery r = true <-> 0 < delay) /\
      (is_late_delivery r = true <->
       exists dl est, Orders.order_delivered_customer_date o = Some dl /\
                      Orders.order_estimated_delivery_date o = Some est /\
                      est + 86400 <= dl) /\
      (Orders.order_delivered_customer_date o = None -> delay = 0 /\ days = 0) /\
      (forall dl p, Orders.order_delivered_customer_date o = Some dl ->
                    Orders.order_purchase_timestamp o = Some p ->
                    p + 86400 * days <= dl < p + 86400 * (days + 1)) /\
      (is_completed_order r = true <-> Orders.order_status o = Some "delivered"%string) /\
      (has_review r = true <-> review_score r <> None) /\
      (forall s, review_score r = Some s ->
         exists v, In v (reviews ex) /\ Reviews.order_id v = Orders.order_id o /\
                   Reviews.review_score v = Some s).
Proof.
  intros d now fact d' r Hb Hr.
  destruct (fact_row_origin d now fact d' r Hb Hr) as [k [o [rv [Ho [Hrv Er]]]]].
  subst r.
  cbn [fact_row selected order_id delivery_delay_days delivery_days is_late_delivery
       is_completed_order has_review review_score].
  destruct o as [oid cid st pu dl est]. cbn [Orders.order_id Orders.customer_id
    Orders.order_status Orders.order_purchase_timestamp Orders.order_delivered_customer_date
    Orders.order_estimated_delivery_date] in *.
  eexists. exists (match Cell.fillna 0 (Cell.lift2 Calendar.delta_days dl est) with
                   | Some n => n | None => 0 end).
  exists (match Cell.fillna 0 (Cell.lift2 Calendar.delta_days dl pu) with
          | Some n => n | None => 0 end).
  split; [exact Ho|]. cbn [Orders.order_id Orders.order_status
    Orders.order_purchase_timestamp Orders.order_delivered_customer_date
    Orders.order_estimated_delivery_date].
  split; [reflexivity|].
  split; [destruct dl, est; reflexivity|].
  split; [destruct dl, pu; reflexivity|].
  unfold Calendar.delta_days, Calendar.seconds_per_day, cell_gtb.
  split; [|split; [|split; [|split; [|split; [|split]]]]].
  - destruct dl, est; cbn [Cell.lift2 Cell.fillna]; rewrite ?Z.ltb_lt;
      split; intro; try lia; discriminate.
  - destruct dl as [a|], est as [b|]; cbn [Cell.lift2 Cell.fillna]; split.
    + intro H. apply Z.ltb_lt in H. exists a, b. repeat split.
      Z.div_mod_to_equations; lia.
    + intros [a' [b' [Ea [Eb H]]]]. inversion Ea; inversion Eb; subst.
      apply Z.ltb_lt. Z.div_mod_to_equations; lia.
    + discriminate.
    + intros [a' [b' [_ [Eb _]]]]. discriminate.
    + discriminate.
    + intros [a' [b' [Ea _]]]. discriminate.
    + discriminate.
    + intros [a' [b' [Ea _]]]. discriminate.
  - intro E. subst dl. cbn [Cell.lift2 Cell.fillna]. split; reflexivity.
  - intros a p Ea Ep. subst dl pu. cbn [Cell.lift2 Cell.fillna].
    Z.div_mod_to_equations; lia.
  - unfold CustomerDimensionBuilder.is_delivered.
    destruct st as [s|]; cbn.
    + rewrite String.eqb_eq. split; [intro; subst; reflexivity | congruence].
    + split; discriminate.
  - unfold Cell.notna, Cell.isna. destruct (bind rv Reviews.review_score); cbn;
      split; congruence.
  - intros s Hs. destruct rv as [v|]; cbn [bind] in Hs; [|discriminate].
    exists v. destruct Hrv as [Hv Ev]. auto.
Qed.

End FactMeasures.

Lemma fact_measures_per_order_witness :
  exists fact d' r o,
    Scenario.fact_of Scenario.shop = Some (fact, d') /\ In r fact /\
    In o (orders Scenario.shop) /\
    FactOrdersBuilder.order_id r = Orders.order_id o /\
    FactOrdersBuilder.order_item_count r =
      Some (Cell.count
              (map OrderItems.order_item_id
                 (filter (fun i => String.eqb (OrderItems.order_id i) (Orders.order_id o))
                         (order_items Scenario.shop)))) /\
    FactOrdersBuilder.payment_value r =
      Some (Cell.sum
              (map Payments.payment_value
                 (filter (fun p => String.eqb (Payments.order_id p) (Orders.order_id o))
                         (payments Scenario.shop)))).
Proof.
  unfold Scenario.fact_of.
  destruct (Scenario.dims_of Scenario.shop) as [d|] eqn:Ed; [|vm_compute in Ed; discriminate].
  cbn [bind].
  destruct (FactOrdersBuilder.build Frame.in_order Frame.in_order Scenario.shop d
              (Scenario.clock 5)) as [[fact d']|] eqn:Eb.
  - assert (Hne : exists r, In r fact).
    { vm_compute in Ed. inversion Ed; subst d. vm_compute in Eb. inversion Eb.
      eexists. left. reflexivity. }
    destruct Hne as [r Hr].
    destruct (fact_measures_per_order Frame.in_order Frame.in_order Scenario.shop
                d (Scenario.clock 5) fact d' r Eb Hr)
      as [o [Ho [Eo [Hc [_ [_ [_ [_ [Hp _]]]]]]]]].
    exists fact, d', r, o. auto 10.
  - exfalso. vm_compute in Ed. inversion Ed; subst d. vm_compute in Eb. discriminate.
Defined.

Lemma fact_delivery_and_review_flags_witness :
  exists fact d' r delay,
    Scenario.fact_of Scenario.shop = Some (fact, d') /\ In r fact /\
    FactOrdersBuilder.delivery_delay_days r = Some delay /\
    (FactOrdersBuilder.is_late_delivery r = true <-> 0 < delay) /\
    (FactOrdersBuilder.has_review r = true <-> FactOrdersBuilder.review_score r <> None).
Proof.
  unfold Scenario.fact_of.
  destruct (Scenario.dims_of Scenario.shop) as [d|] eqn:Ed; [|vm_compute in Ed; discriminate].
  cbn [bind].
  destruct (FactOrdersBuilder.build Frame.in_order Frame.in_order Scenario.shop d
              (Scenario.clock 5)) as [[fact d']|] eqn:Eb.
  - assert (Hne : exists r, In r fact).
    { vm_compute in Ed. inversion Ed; subst d. vm_compute in Eb. inversion Eb.
      eexists. left. reflexivity. }
    destruct Hne as [r Hr].
    destruct (fact_delivery_and_review_flags Frame.in_order Frame.in_order Scenario.shop
                d (Scenario.clock 5) fact d' r Eb Hr)
      as [o [delay [days [_ [_ [Hd [_ [Hl [_ [_ [_ [_ [Hh _]]]]]]]]]]]]].
    exists fact, d', r, delay. auto 10.
  - exfalso. vm_compute in Ed. inversion Ed; subst d. vm_compute in Eb. discriminate.
Defined.

(** ** The cohort-retention table *)

Section CohortTable.

Import CohortRetentionBuilder.

Variables (go : Frame.group_order) (ex : extracts).

(** The count of a grouped row is the number of distinct customers among
    the analysis rows of its (cohort month, months since) pair. *)
Lemma cohort_data_count : forall rows d,
  In d (cohort_data go rows) ->
  snd d = Z.of_nat (List.length
            (Frame.distinct String.eqb
               (map snd (filter (fun r => pair_eqb (fst r) (fst d)) rows)))).
Proof.
  intros rows d Hd. unfold cohort_data in Hd.
  eapply Permutation_in in Hd; [|apply sort_perm].
  apply in_map_iff in Hd. destruct Hd as [g [Ed Hg]]. subst d. cbn [fst snd].
  apply (group_by_In pair_eqb pair_eqb_spec) in Hg. destruct Hg as [_ Hs].
  rewrite Hs. reflexivity.
Qed.

Lemma cohort_data_strictly_sorted : forall rows,
  StronglySorted (fun a b : Z * Z => fst a < fst b \/ (fst a = fst b /\ snd a < snd b))
    (map fst (cohort_data go rows)).
Proof.
  intro rows.
  destruct (cohort_data_keys go rows) as [Hnd _].
  assert (Hs : StronglySorted (fun a b : (Z * Z) * Z => pair_leb (fst a) (fst b) = true)
                 (cohort_data go rows)).
  { unfold cohort_data. apply sort_sorted.
    - intros a b. apply pair_leb_total.
    - intros a b c. apply pair_leb_trans. }
  induction Hs as [|a l Hl IH Hall]; [constructor|].
  cbn [map] in *. inversion Hnd as [|x l' Hn Hd]; subst.
  constructor; [apply IH; exact Hd|].
  apply Forall_forall. intros k Hk. apply in_map_iff in Hk. destruct Hk as [b [Ek Hb]].
  subst k. rewrite Forall_forall in Hall. specialize (Hall b Hb).
  assert (Hne : fst a <> fst b).
  { intro E. apply Hn. rewrite E. apply in_map. exact Hb. }
  destruct a as [[a1 a2] a3], b as [[b1 b2] b3]. unfold pair_leb in Hall. cbn [fst snd] in *.
  apply orb_true_iff in Hall. destruct Hall as [H|H].
  - apply Z.ltb_lt in H. left. exact H.
  - apply andb_true_iff in H. destruct H as [H1 H2].
    apply Z.eqb_eq in H1. apply Z.leb_le in H2. right. split; [exact H1|].
    assert (a2 <> b2) by congruence. lia.
Qed.

(** A built cohort table is sorted strictly by (cohort month, months since
    first purchase), so no pair occurs twice, and its rows are numbered 1,
    2, ..., N; it does not depend on the arrangement in which the groups
    came; every row counts at least one customer; a cohort size is the
    count of the month-0 row of the same cohort and is null exactly when the
    table has no such row, and the retention rate is null exactly when the
    cohort size is. *)
Theorem cohort_table_sorted_and_numbered :
  forall dimc now t,
    build go ex dimc now = Some t ->
    map cohort_retention_key t = map (fun i => 1 + Z.of_nat i) (seq 0 (List.length t)) /\
    StronglySorted (fun a b : Z * Z => fst a < fst b \/ (fst a = fst b /\ snd a < snd b))
      (map (fun r => (cohort_month r, months_since_first_purchase r)) t) /\
    NoDup (map (fun r => (cohort_month r, months_since_first_purchase r)) t) /\
    (forall go', build go' ex dimc now = Some t) /\
    (forall r, In r t ->
       1 <= retained_customers r /\
       created_at r = now /\
       (forall s, cohort_size r = Some s ->
          retention_rate r <> None /\
          exists r0, In r0 t /\ cohort_month r0 = cohort_month r /\
                     months_since_first_purchase r0 = 0 /\ retained_customers r0 = s) /\
       (cohort_size r = None ->
          retention_rate r = None /\
          forall r0, In r0 t -> cohort_month r0 = cohort_month r ->
                     months_since_first_purchase r0 <> 0)).
Proof.
  intros dimc now t Hb.
  destruct (build_inv go ex dimc now t Hb) as [rows [Ht Et]].
  destruct (cohort_data_keys go rows) as [Hnd [_ Hpos]].
  set (data := cohort_data go rows) in *.
  set (mk := fun kd : Z * ((Z * Z) * Z) =>
               let d := snd kd in
               let s := find (fun s : Z * Z => fst (fst d) =? fst s) (cohort_sizes data) in
               {| cohort_retention_key := fst kd;
                  cohort_month := fst (fst d);
                  months_since_first_purchase := snd (fst d);
                  cohort_size := option_map snd s;
                  retained_customers := snd d;
                  retention_rate := rate (snd d) (option_map snd s);
                  created_at := now |}) in *.
  assert (Hkeys : map (fun r => (cohort_month r, months_since_first_purchase r)) t
                  = map fst data).
  { rewrite Et, map_map. cbn [mk cohort_month months_since_first_purchase].
    rewrite <- (enumerate_from_snd data 1) at 2. rewrite map_map.
    apply map_ext. intros [k [[a b] c]]. reflexivity. }
  assert (Hrow : forall r, In r t <-> exists k d, In d data /\
                   In (k, d) (Frame.enumerate_from 1 data) /\ r = mk (k, d)).
  { intro r. rewrite Et. rewrite in_map_iff. split.
    - intros [[k d] [E Hin]]. exists k, d. split; [|split; [exact Hin | symmetry; exact E]].
      apply enumerate_from_In in Hin. exact Hin.
    - intros [k [d [_ [Hin E]]]]. exists (k, d). split; [symmetry; exact E | exact Hin]. }
  split; [|split; [|split; [|split]]].
  - rewrite Et, length_map, enumerate_from_length, map_map. cbn [mk cohort_retention_key].
    apply enumerate_from_fst.
  - rewrite Hkeys. apply cohort_data_strictly_sorted.
  - rewrite Hkeys. exact Hnd.
  - intro go'. rewrite <- Hb. unfold build.
    destruct (traverse months_since (analysis ex dimc)) as [rs|]; [|reflexivity].
    cbn [bind]. rewrite (cohort_data_arrangement go' go). reflexivity.
  - intros r Hr. apply Hrow in Hr. destruct Hr as [k [d [Hd [_ Er]]]]. subst r.
    cbn [mk fst snd retained_customers created_at cohort_size retention_rate cohort_month
         months_since_first_purchase].
    split; [apply Hpos; exact Hd|]. split; [reflexivity|].
    destruct (find (fun s : Z * Z => fst (fst d) =? fst s) (cohort_sizes data))
      as [s0|] eqn:Ef; cbn [option_map]; split.
    + intros s Es. inversion Es; subst s; clear Es. split; [discriminate|].
      apply find_some in Ef. destruct Ef as [Hin Heq]. apply Z.eqb_eq in Heq.
      unfold cohort_sizes in Hin. apply in_map_iff in Hin. destruct Hin as [d0 [E0 Hd0]].
      apply filter_In in Hd0. destruct Hd0 as [Hd0 Hz]. apply Z.eqb_eq in Hz.
      destruct (In_enumerate_from data 1 d0 Hd0) as [k0 Hk0].
      exists (mk (k0, d0)). split; [apply Hrow; exists k0, d0; auto|].
      cbn [mk fst snd cohort_month months_since_first_purchase retained_customers].
      subst s0. cbn [fst snd] in *. auto.
    + discriminate.
    + discriminate.
    + intros _. split; [reflexivity|].
      intros r0 Hr0 Ec Em. apply Hrow in Hr0. destruct Hr0 as [k0 [d0 [Hd0 [_ Er0]]]].
      subst r0. cbn [mk fst snd cohort_month months_since_first_purchase] in Ec, Em.
      assert (Hin : In (fst (fst d0), snd d0) (cohort_sizes data)).
      { unfold cohort_sizes. apply in_map_iff. exists d0. split; [reflexivity|].
        apply filter_In. split; [exact Hd0 | apply Z.eqb_eq; exact Em]. }
      pose proof (find_none _ _ Ef _ Hin) as Hf. cbn [fst] in Hf.
      rewrite Ec, Z.eqb_refl in Hf. discriminate.
Qed.

End CohortTable.

Lemma cohort_table_sorted_and_numbered_witness :
  exists t,
    CohortRetentionBuilder.build Frame.reversed Scenario.shop
      (CustomerDimensionBuilder.build Frame.in_order Frame.in_order Scenario.rules
         Scenario.shop 3 4) 9 = Some t /\
    map CohortRetentionBuilder.cohort_retention_key t
      = map (fun i => 1 + Z.of_nat i) (seq 0 (List.length t)) /\
    CohortRetentionBuilder.build Frame.in_order Scenario.shop
      (CustomerDimensionBuilder.build Frame.in_order Frame.in_order Scenario.rules
         Scenario.shop 3 4) 9 = Some t.
Proof.
  destruct (CohortRetentionBuilder.build Frame.reversed Scenario.shop
              (CustomerDimensionBuilder.build Frame.in_order Frame.in_order Scenario.rules
                 Scenario.shop 3 4) 9) as [t|] eqn:Eb; [|vm_compute in Eb; discriminate].
  destruct (cohort_table_sorted_and_numbered Frame.reversed Scenario.shop _ 9 t Eb)
    as [Hk [_ [_ [Hgo _]]]].
  exists t. split; [reflexivity|]. split; [exact Hk | apply Hgo].
Defined.

Section CohortBounds.

Import CohortRetentionBuilder.

Variables (go_items go_orders go : Frame.group_order) (cfg : business_rules) (ex : extracts).
Variables (now1 now2 : Z).

Local Abbreviation dim :=
  (CustomerDimensionBuilder.build go_items go_orders cfg ex now1 now2).

(** In the cohort table built from the customer dimension of the same
    extracts every row has a cohort size; the customers counted in a row
    are customers of its cohort, so their number is between 1 and the cohort
    size, and the retention rate lies between 0 and 100. *)
Theorem cohort_retention_bounded :
  forall now t,
    build go ex dim now = Some t ->
    forall r, In r t ->
      exists s q,
        cohort_size r = Some s /\ 1 <= retained_customers r <= s /\
        retention_rate r = Some q /\ (0 <= q)%Q /\ (q <= 100)%Q.
Proof.
  intros now t Hb r Hr.
  destruct (build_inv go ex dim now t Hb) as [rows [Ht Et]].
  destruct (cohort_data_keys go rows) as [Hnd [Hk Hpos]].
  set (data := cohort_data go rows) in *.
  rewrite Et in Hr. apply in_map_iff in Hr. destruct Hr as [[k d] [Er Hin]].
  apply enumerate_from_In in Hin. cbn [fst snd] in Er.
  assert (Hkd : In (fst d) (map fst rows)) by (apply Hk; apply in_map; exact Hin).
  apply in_map_iff in Hkd. destruct Hkd as [[[cm off] cid] [Ekd Hrow]]. cbn [fst] in Ekd.
  destruct (analysis_rows go_items go_orders cfg ex now1 now2 rows Ht cm off cid Hrow)
    as [_ Hz].
  assert (Hk0 : In (cm, 0) (map fst data)).
  { apply Hk. apply in_map_iff. exists (cm, 0, cid). split; [reflexivity | exact Hz]. }
  apply in_map_iff in Hk0. destruct Hk0 as [d0 [Ek0 Hd0]].
  assert (Ecm : fst (fst d) = cm) by (rewrite <- Ekd; reflexivity).
  pose proof (cohort_size_found data d0 cm Hnd Hd0 Ek0) as Hfind.
  assert (Hle : snd d <= snd d0).
  { rewrite (cohort_data_count go rows d Hin), (cohort_data_count go rows d0 Hd0).
    apply inj_le. apply NoDup_incl_length.
    - apply (distinct_NoDup String.eqb string_eqb_spec).
    - intros x Hx. rewrite (distinct_In String.eqb string_eqb_spec) in Hx.
      rewrite (distinct_In String.eqb string_eqb_spec).
      apply in_map_iff in Hx. destruct Hx as [[[cm' off'] x'] [Ex Hf]]. cbn [snd] in Ex.
      subst x'. apply filter_In in Hf. destruct Hf as [Hf Hp]. cbn [fst] in Hp.
      apply pair_eqb_spec in Hp. rewrite <- Ekd in Hp. inversion Hp; subst cm' off'.
      destruct (analysis_rows go_items go_orders cfg ex now1 now2 rows Ht cm off x Hf)
        as [_ Hz'].
      apply in_map_iff. exists (cm, 0, x). split; [reflexivity|].
      apply filter_In. split; [exact Hz'|]. cbn [fst]. rewrite Ek0.
      apply pair_eqb_spec. reflexivity. }
  pose proof (Hpos d Hin) as Hd1.
  exists (snd d0),
    (Cell.round2 (Float64.mul (Float64.div (inject_Z (snd d)) (inject_Z (snd d0))) 100)).
  subst r. cbn [cohort_size retained_customers retention_rate].
  rewrite Ecm, Hfind. cbn [option_map snd rate].
  split; [reflexivity|]. split; [lia|]. split; [reflexivity|].
  assert (Hs0 : (0 < inject_Z (snd d0))%Q) by (rewrite <- (Zlt_Qlt 0); lia).
  destruct (fl_bounds (inject_Z (snd d) / inject_Z (snd d0)) 1) as [Hq0 Hq1]; [lia | | |].
  - apply Qle_shift_div_l; [exact Hs0|].
    rewrite Qmult_0_l, <- (Zle_Qle 0). lia.
  - apply Qle_shift_div_r; [exact Hs0|].
    rewrite Qmult_1_l, <- Zle_Qle. exact Hle.
  - fold (Float64.div (inject_Z (snd d)) (inject_Z (snd d0))) in Hq0, Hq1.
    set (x := Float64.div (inject_Z (snd d)) (inject_Z (snd d0))) in *.
    destruct (fl_bounds (x * 100) 100) as [Hp0 Hp1]; [lia | | |].
    + apply Qmult_le_0_compat; [exact Hq0 | discriminate].
    + change (inject_Z 100) with (1 * 100)%Q.
      apply Qmult_le_compat_r; [exact Hq1 | discriminate].
    + apply round2_bounds; [exact Hp0 | exact Hp1].
Qed.

End CohortBounds.

Lemma cohort_retention_bounded_witness :
  exists t r s,
    CohortRetentionBuilder.build Frame.reversed Scenario.shop
      (CustomerDimensionBuilder.build Frame.in_order Frame.in_order Scenario.rules
         Scenario.shop 3 4) 9 = Some t /\
    In r t /\
    CohortRetentionBuilder.cohort_size r = Some s /\
    1 <= CohortRetentionBuilder.retained_customers r <= s.
Proof.
  destruct (CohortRetentionBuilder.build Frame.reversed Scenario.shop
              (CustomerDimensionBuilder.build Frame.in_order Frame.in_order Scenario.rules
                 Scenario.shop 3 4) 9) as [t|] eqn:Eb; [|vm_compute in Eb; discriminate].
  assert (Hne : exists r, In r t).
  { vm_compute in Eb. inversion Eb. eexists. left. reflexivity. }
  destruct Hne as [r Hr].
  destruct (cohort_retention_bounded Frame.in_order Frame.in_order Frame.reversed
              Scenario.rules Scenario.shop 3 4 9 t Eb r Hr) as [s [q [Hs [Hb _]]]].
  exists t, r, s. auto.
Defined.

(** ** The whole pipeline *)

Section Pipeline.

Import TransformOrchestrator.

(** What [run_all] returns when it returns, whatever the orchestrator held
    before: the product, payment-type and customer dimensions as their
    builders return them, the fact table and the cohort table built from
    those dimensions of the same run, and the date dimension as the fact
    builder left it, with the rows the date builder gave and one more
    column, [date_str]. *)
Theorem run_all_result :
  forall self env cfg ex s,
    run_all self env cfg ex = Some s ->
    let customers_dim :=
      CustomerDimensionBuilder.build (group_order env 0%nat) (group_order env 1%nat)
        cfg ex (now env 3%nat) (now env 4%nat) in
    exists f fact cohort d',
      DateDimensionBuilder.build cfg (now env 0%nat) = Some f /\
      FactOrdersBuilder.build (group_order env 2%nat) (group_order env 3%nat) ex
        {| FactOrdersBuilder.dim_customers := customers_dim;
           FactOrdersBuilder.dim_products :=
             ProductDimensionBuilder.build ex (now env 1%nat);
           FactOrdersBuilder.dim_payment_type :=
             PaymentTypeDimensionBuilder.build ex (now env 2%nat);
           FactOrdersBuilder.dim_date := f |} (now env 5%nat) = Some (fact, d') /\
      CohortRetentionBuilder.build (group_order env 4%nat) ex customers_dim
        (now env 6%nat) = Some cohort /\
      s = {| self_dimensions :=
               {| dim_date := Some (FactOrdersBuilder.dim_date d');
                  dim_products := Some (ProductDimensionBuilder.build ex (now env 1%nat));
                  dim_payment_type :=
                    Some (PaymentTypeDimensionBuilder.build ex (now env 2%nat));
                  dim_customers := Some customers_dim |};
             self_facts :=
               {| fact_orders := Some fact; fact_cohort_retention := Some cohort |} |} /\
      DateDimensionBuilder.rows (FactOrdersBuilder.dim_date d') = DateDimensionBuilder.rows f /\
      DateDimensionBuilder.date_str f = None /\
      DateDimensionBuilder.date_str (FactOrdersBuilder.dim_date d') <> None.
Proof.
  intros self env cfg ex s Hrun customers_dim.
  unfold run_all, _build_dim_date in Hrun.
  destruct (DateDimensionBuilder.build cfg (now env 0%nat)) as [f|] eqn:Ef;
    [|discriminate]. cbn [bind] in Hrun.
  unfold _build_fact_orders, _build_dim_customers, _build_dim_payment_type,
    _build_dim_products, set_dimensions in Hrun.
  cbn [self_dimensions self_facts dim_date dim_products dim_payment_type dim_customers bind]
    in Hrun.
  fold customers_dim in Hrun.
  destruct (FactOrdersBuilder.build (group_order env 2%nat) (group_order env 3%nat) ex
              {| FactOrdersBuilder.dim_customers := customers_dim;
                 FactOrdersBuilder.dim_products :=
                   ProductDimensionBuilder.build ex (now env 1%nat);
                 FactOrdersBuilder.dim_payment_type :=
                   PaymentTypeDimensionBuilder.build ex (now env 2%nat);
                 FactOrdersBuilder.dim_date := f |} (now env 5%nat))
    as [[fact d']|] eqn:Eb; [|discriminate].
  cbn [bind fst snd] in Hrun.
  destruct (build_frames _ _ _ _ _ _ _ Eb) as [_ [Hc [Hp [Ht [Hr Hn]]]]].
  cbn [FactOrdersBuilder.dim_customers FactOrdersBuilder.dim_products
       FactOrdersBuilder.dim_payment_type FactOrdersBuilder.dim_date] in Hc, Hp, Ht, Hr.
  rewrite Hc, Hp, Ht in Hrun.
  unfold _build_fact_cohort_retention in Hrun.
  cbn [self_dimensions self_facts dim_customers bind] in Hrun.
  destruct (CohortRetentionBuilder.build (group_order env 4%nat) ex customers_dim
              (now env 6%nat)) as [cohort|] eqn:Ec; [|discriminate].
  cbn [bind] in Hrun. unfold set_facts in Hrun.
  cbn [self_dimensions self_facts fact_orders] in Hrun.
  exists f, fact, cohort, d'.
  split; [reflexivity|]. split; [exact Eb|]. split; [reflexivity|].
  split; [congruence|]. split; [exact Hr|]. split; [|exact Hn].
  unfold DateDimensionBuilder.build in Ef.
  destruct (traverse _ _); [|discriminate]. cbn [bind] in Ef.
  inversion Ef. reflexivity.
Qed.

Lemma run_all_result_witness :
  exists s f,
    run_all init Scenario.env Scenario.rules Scenario.shop = Some s /\
    dim_date (self_dimensions s) = Some f /\
    DateDimensionBuilder.date_str f <> None /\
    dim_customers (self_dimensions s)
      = Some (CustomerDimensionBuilder.build Frame.reversed Frame.reversed Scenario.rules
                Scenario.shop (Scenario.clock 3) (Scenario.clock 4)).
Proof.
  destruct (run_all init Scenario.env Scenario.rules Scenario.shop) as [s|] eqn:Er;
    [|vm_compute in Er; discriminate].
  destruct (run_all_result init Scenario.env Scenario.rules Scenario.shop s Er)
    as [f [fact [cohort [d' [_ [_ [_ [Es [_ [_ Hn]]]]]]]]]].
  exists s, (FactOrdersBuilder.dim_date d'). subst s.
  split; [reflexivity|]. split; [reflexivity|]. split; [exact Hn | reflexivity].
Defined.

End Pipeline.

(** ** Categories, regions and segments *)

Lemma existsb_eqb_In : forall (s : string) (l : list string),
  existsb (String.eqb s) l = true <-> In s l.
Proof.
  intros s l. rewrite existsb_exists. split.
  - intros [x [Hx E]]. apply String.eqb_eq in E. subst x. exact Hx.
  - intro H. exists s. split; [exact H | apply String.eqb_refl].
Qed.

Lemma first_segment_spec : forall segs c,
  match ProductDimensionBuilder.first_segment segs c with
  | Some s => exists cats, In (s, cats) segs /\ In c cats
  | None => forall s cats, In (s, cats) segs -> ~ In c cats
  end.
Proof.
  induction segs as [|[seg cats] t IH]; intro c; cbn [ProductDimensionBuilder.first_segment].
  - intros s cats [].
  - destruct (existsb (String.eqb c) cats) eqn:E.
    + exists cats. split; [left; reflexivity | apply existsb_eqb_In; exact E].
    + specialize (IH c). destruct (ProductDimensionBuilder.first_segment t c) as [s|].
      * destruct IH as [cats' [H1 H2]]. exists cats'. split; [right; exact H1 | exact H2].
      * intros s cats' [Eq|Hin].
        -- inversion Eq; subst. intro Hc. apply existsb_eqb_In in Hc. congruence.
        -- apply (IH s cats' Hin).
Qed.

Section ProductRows.

Import ProductDimensionBuilder.

(** Every row of the product dimension is a product of the extract with a
    product id; its English category is the translation of the category
    name, the name itself when the table has no translation, and
    'uncategorized' when the name is null; its segment is one of the
    segments of the table, namely one that lists the English category, and
    'Other' when none does; [has_photos] holds exactly for a positive photo
    count, and the volume is null exactly when a dimension is. *)
Theorem product_rows_categorised :
  forall ex now r,
    In r (build ex now) ->
    (exists p, In p (products ex) /\ Products.product_id p = Some (product_id r) /\
               product_category_name r = Products.product_category_name p) /\
    In (product_category_segment r) (map fst category_segments) /\
    (product_category_name r = None ->
     product_category_english r = "uncategorized"%string /\
     product_category_segment r = "Other"%string) /\
    (forall n, product_category_name r = Some n ->
       In (n, product_category_english r) category_translation \/
       (~ In n (map fst category_translation) /\ product_category_english r = n)) /\
    (product_category_segment r <> "Other"%string ->
     exists cats, In (product_category_segment r, cats) category_segments /\
                  In (product_category_english r) cats) /\
    ((forall s cats, In (s, cats) category_segments ->
        ~ In (product_category_english r) cats) ->
     product_category_segment r = "Other"%string) /\
    (has_photos r = true <-> exists q, product_photos_qty r = Some q /\ (0 < q)%Q) /\
    (product_volume_cm3 r = None <->
     product_length_cm r = None \/ product_height_cm r = None \/
     product_width_cm r = None).
Proof.
  intros ex now r Hr. unfold build in Hr. apply in_map_iff in Hr.
  destruct Hr as [[k [id p]] [Er Hin]]. apply enumerate_from_In in Hin.
  apply in_flat_map in Hin. destruct Hin as [p' [Hp' Hin]].
  destruct (Products.product_id p') as [id'|] eqn:Eid; [|contradiction].
  destruct Hin as [E|[]]. inversion E; subst id' p'; clear E. subst r.
  cbn [product_id product_category_name product_category_english product_category_segment
       has_photos product_photos_qty product_volume_cm3 product_length_cm product_height_cm
       product_width_cm].
  split; [exists p; auto|].
  assert (Hseg : forall c,
            In (_get_category_segment c) (map fst category_segments) /\
            (_get_category_segment c <> "Other"%string ->
             exists cats, In (_get_category_segment c, cats) category_segments /\ In c cats) /\
            ((forall s cats, In (s, cats) category_segments -> ~ In c cats) ->
             _get_category_segment c = "Other"%string)).
  { intro c. unfold _get_category_segment.
    pose proof (first_segment_spec category_segments c) as Hs.
    destruct (first_segment category_segments c) as [s|].
    - destruct Hs as [cats [H1 H2]]. split; [|split].
      + apply in_map_iff. exists (s, cats). auto.
      + intros _. exists cats. auto.
      + intro Hn. exfalso. apply (Hn s cats H1 H2).
    - split; [|split].
      + cbn. repeat (first [left; reflexivity | right]).
      + intro H. contradiction.
      + reflexivity. }
  destruct (Hseg (translate (Products.product_category_name p))) as [Hs1 [Hs2 Hs3]].
  split; [exact Hs1|].
  split.
  { intro En. rewrite En. split; reflexivity. }
  split.
  { intros n En. rewrite En. unfold translate.
    destruct (Frame.dict_get String.eqb category_translation n) as [e|] eqn:Ed.
    - left. apply (dict_get_In String.eqb string_eqb_spec). exact Ed.
    - right. split; [|reflexivity].
      apply (dict_get_None String.eqb string_eqb_spec). exact Ed. }
  split; [exact Hs2|]. split; [exact Hs3|].
  split.
  { unfold Products.has_photos. destruct (Products.product_photos_qty p) as [q|].
    - destruct (Qcompare q 0) eqn:Ec; split; try discriminate.
      + intros [q' [Eq Hq]]. inversion Eq; subst q'.
        apply Qeq_alt in Ec. rewrite Ec in Hq. exfalso. apply (Qlt_irrefl _ Hq).
      + intros [q' [Eq Hq]]. inversion Eq; subst q'.
        apply Qlt_alt in Ec. exfalso. apply (Qlt_irrefl q).
        eapply Qlt_trans; [exact Ec | exact Hq].
      + intros _. exists q. split; [reflexivity|]. apply Qgt_alt in Ec. exact Ec.
      + reflexivity.
    - split; [discriminate|]. intros [q [Eq _]]. discriminate. }
  unfold Products.product_volume_cm3.
  destruct (Products.product_length_cm p), (Products.product_height_cm p),
    (Products.product_width_cm p); cbn; split; try discriminate; try tauto;
    intros [H|[H|H]]; discriminate.
Qed.

End ProductRows.

Lemma product_rows_categorised_witness :
  exists r,
    In r (ProductDimensionBuilder.build Scenario.shop 1) /\
    ProductDimensionBuilder.product_id r = "p1"%string /\
    ProductDimensionBuilder.product_category_english r = "computers"%string /\
    ProductDimensionBuilder.product_category_segment r = "Electronics"%string /\
    In (ProductDimensionBuilder.product_category_segment r)
       (map fst ProductDimensionBuilder.category_segments).
Proof.
  set (r := nth 0 (ProductDimensionBuilder.build Scenario.shop 1)
              {| ProductDimensionBuilder.product_key := 0;
                 ProductDimensionBuilder.product_id := "";
                 ProductDimensionBuilder.product_category_name := None;
                 ProductDimensionBuilder.product_category_english := "";
                 ProductDimensionBuilder.product_category_segment := "";
                 ProductDimensionBuilder.product_weight_g := None;
                 ProductDimensionBuilder.product_length_cm := None;
                 ProductDimensionBuilder.product_height_cm := None;
                 ProductDimensionBuilder.product_width_cm := None;
                 ProductDimensionBuilder.product_volume_cm3 := None;
                 ProductDimensionBuilder.product_photos_qty := None;
                 ProductDimensionBuilder.has_photos := false;
                 ProductDimensionBuilder.created_at := 0 |}).
  assert (Hr : In r (ProductDimensionBuilder.build Scenario.shop 1))
    by (left; reflexivity).
  destruct (product_rows_categorised Scenario.shop 1 r Hr) as [_ [Hs _]].
  exists r. split; [exact Hr|]. split; [reflexivity|]. split; [reflexivity|].
  split; [reflexivity | exact Hs].
Defined.

Section CustomerRows.

Import CustomerDimensionBuilder.

(** Regions and segments of the customer dimension: a null state gives the
    region 'Unknown', a state listed by a configured region gives such a
    region, any other state gives 'Other'; the segment is one of the five
    names, and it is 'Inactive' exactly for the customers without any order
    in the extract, which are those with [total_orders = 0]. *)
Theorem customer_region_and_segment :
  forall gi go cfg ex n1 n2 r,
    In r (build gi go cfg ex n1 n2) ->
    match customer_state r with
    | None => customer_region r = "Unknown"%string
    | Some s =>
        (exists reg, In reg (regions cfg) /\ In s (snd reg) /\ customer_region r = fst reg) \/
        ((forall reg, In reg (regions cfg) -> ~ In s (snd reg)) /\
         customer_region r = "Other"%string)
    end /\
    In (customer_segment r) ["Inactive"; "VIP"; "New"; "Returning"; "Loyal"]%string /\
    (customer_segment r = "Inactive"%string <->
     forall o, In o (orders ex) -> Orders.customer_id o <> customer_id r) /\
    (customer_segment r = "Inactive"%string <-> total_orders r = Some 0).
Proof.
  intros gi go cfg ex n1 n2 r Hr.
  destruct (build_row_cases gi go cfg ex n1 n2 r Hr) as [k [c [Hc Hcase]]].
  assert (Hreg : forall m, 
            match customer_state (dimension_row cfg n1 n2 k c m) with
            | None => customer_region (dimension_row cfg n1 n2 k c m) = "Unknown"%string
            | Some s =>
                (exists reg, In reg (regions cfg) /\ In s (snd reg) /\
                   customer_region (dimension_row cfg n1 n2 k c m) = fst reg) \/
                ((forall reg, In reg (regions cfg) -> ~ In s (snd reg)) /\
                 customer_region (dimension_row cfg n1 n2 k c m) = "Other"%string)
            end).
  { intro m. cbn [dimension_row customer_state customer_region]. unfold _get_region.
    destruct (Customers.customer_state c) as [s|]; [|reflexivity].
    destruct (find (fun r0 => existsb (String.eqb s) (snd r0)) (regions cfg))
      as [reg|] eqn:Ef.
    - left. apply find_some in Ef. destruct Ef as [H1 H2].
      exists reg. split; [exact H1|]. split; [apply existsb_eqb_In; exact H2 | reflexivity].
    - right. split; [|reflexivity]. intros reg Hin Hs.
      pose proof (find_none _ _ Ef reg Hin) as Hf. cbn in Hf.
      apply existsb_eqb_In in Hs. congruence. }
  destruct Hcase as [[Hno Er] | [[o [Ho Eo]] Er]].
  - rewrite Er. split; [apply Hreg|].
    cbn [dimension_row customer_segment total_orders customer_id option_map Cell.isna].
    unfold _segment_customer. cbn [cell_eqb Z.eqb].
    split; [left; reflexivity|]. split; split; try reflexivity.
    intros _. exact Hno.
  - rewrite Er. split; [apply Hreg|].
    cbn [dimension_row customer_segment total_orders customer_id option_map Cell.isna
         metrics_of_group m_total_orders snd].
    assert (Hlen : 1 <= Z.of_nat (List.length (orders_of gi ex (Customers.customer_id c)))).
    { assert (Hin : In o (map fst (orders_of gi ex (Customers.customer_id c)))).
      { rewrite orders_of_fst. apply filter_In. split; [exact Ho|].
        apply String.eqb_eq. exact Eo. }
      rewrite <- (length_map fst).
      destruct (map fst (orders_of gi ex (Customers.customer_id c))); [contradiction|].
      cbn [List.length]. lia. }
    set (n := Z.of_nat (List.length (orders_of gi ex (Customers.customer_id c)))) in *.
    unfold _segment_customer. cbn [cell_eqb].
    destruct (Z.eqb_spec n 0) as [E0|N0]; [lia|].
    split.
    { destruct (_ || _); [right; left; reflexivity|].
      destruct (cell_leb (Some n) 1); [right; right; left; reflexivity|].
      destruct (cell_leb (Some n) _); cbn; auto 6. }
    split; split.
    + destruct (_ || _); [discriminate|].
      destruct (cell_leb (Some n) 1); [discriminate|].
      destruct (cell_leb (Some n) _); discriminate.
    + intro Hno. exfalso. apply (Hno o Ho Eo).
    + destruct (_ || _); [discriminate|].
      destruct (cell_leb (Some n) 1); [discriminate|].
      destruct (cell_leb (Some n) _); discriminate.
    + intro H. inversion H. lia.
Qed.

End CustomerRows.

Lemma customer_region_and_segment_witness :
  exists r,
    In r (CustomerDimensionBuilder.build Frame.in_order Frame.in_order Scenario.rules
            Scenario.shop 3 4) /\
    CustomerDimensionBuilder.customer_id r = "C2"%string /\
    CustomerDimensionBuilder.customer_segment r = "Inactive"%string /\
    CustomerDimensionBuilder.customer_region r = "Other"%string.
Proof.
  set (r := nth 1 (CustomerDimensionBuilder.build Frame.in_order Frame.in_order
                     Scenario.rules Scenario.shop 3 4)
              (CustomerDimensionBuilder.dimension_row Scenario.rules 0 0 0
                 (Scenario.customer "" "" "") None)).
  assert (Hr : In r (CustomerDimensionBuilder.build Frame.in_order Frame.in_order
                       Scenario.rules Scenario.shop 3 4)).
  { vm_compute. right. left. reflexivity. }
  destruct (customer_region_and_segment Frame.in_order Frame.in_order Scenario.rules
              Scenario.shop 3 4 r Hr) as [_ [_ [Hi _]]].
  exists r. split; [exact Hr|]. split; [reflexivity|]. split; [|reflexivity].
  apply Hi. intros o Ho. simpl in Ho.
  destruct Ho as [<-|[<-|[<-|[<-|[]]]]]; discriminate.
Defined.

(** ** The number of fact rows *)

Lemma merge_left_length_sum : forall {L R} (on : L -> R -> bool) left right,
  List.length (Frame.merge_left on left right) =
  list_sum (map (fun l => Nat.max 1 (List.length (filter (on l) right))) left).
Proof.
  intros L R on left right. unfold Frame.merge_left.
  induction left as [|l t IH]; [reflexivity|].
  change (flat_map ?f (l :: t)) with (f l ++ flat_map f t).
  rewrite length_app, IH. cbn [map].
  change (list_sum (?x :: ?l)) with (x + list_sum l)%nat. f_equal.
  destruct (filter (on l) right) as [|r rs]; [reflexivity|].
  cbn [map List.length]. rewrite ?length_map. lia.
Qed.

Lemma list_sum_at_least_one : forall {A} (f : A -> nat) (l : list A),
  (List.length l <= list_sum (map (fun a => Nat.max 1 (f a)) l))%nat /\
  (list_sum (map (fun a => Nat.max 1 (f a)) l) = List.length l <->
   forall a, In a l -> (f a <= 1)%nat).
Proof.
  intros A f l. induction l as [|a t [IH1 IH2]]; cbn [map List.length];
    [|change (list_sum (?x :: ?l)) with (x + list_sum l)%nat];
    [change (list_sum []) with 0%nat|].
  - split; [lia|]. split; [intros _ a [] | reflexivity].
  - split; [lia|]. split.
    + intros H a' [<-|Hin]; [lia|]. apply IH2; [lia | exact Hin].
    + intro H. assert (Ha : (f a <= 1)%nat) by (apply H; left; reflexivity).
      assert (Ht : list_sum (map (fun a => Nat.max 1 (f a)) t) = List.length t).
      { apply IH2. intros a' Hin. apply H. right. exact Hin. }
      lia.
Qed.

Section FactRowCount.

Import FactOrdersBuilder.

Variables (go_items go_payments : Frame.group_order) (ex : extracts).

(** The fact table has, for each order of the extract, as many rows as the
    reviews extract has reviews of that order, and one row when it has
    none; so it has exactly as many rows as the orders extract if and only
    if no order has two or more reviews. *)
Theorem fact_row_count :
  forall d now fact d',
    build go_items go_payments ex d now = Some (fact, d') ->
    let reviews_of := fun o =>
      filter (fun v => String.eqb (Orders.order_id o) (Reviews.order_id v)) (reviews ex) in
    List.length fact =
      list_sum (map (fun o => Nat.max 1 (List.length (reviews_of o))) (orders ex)) /\
    (List.length fact = List.length (orders ex) <->
     forall o, In o (orders ex) -> (List.length (reviews_of o) <= 1)%nat).
Proof.
  intros d now fact d' Hb reviews_of.
  destruct (build_frames go_items go_payments ex d now fact d' Hb) as [Hf _].
  assert (Hlen : List.length fact =
            list_sum (map (fun o => Nat.max 1 (List.length (reviews_of o))) (orders ex))).
  { subst fact. unfold df_fact. rewrite !length_map, enumerate_from_length, joined_eq.
    rewrite merge_left_length_sum, map_map. reflexivity. }
  split; [exact Hlen|]. rewrite Hlen.
  apply (list_sum_at_least_one (fun o => List.length (reviews_of o))).
Qed.

End FactRowCount.

Lemma fact_row_count_witness :
  exists fact d',
    Scenario.fact_of Scenario.shop = Some (fact, d') /\
    List.length fact = 5%nat /\ List.length (orders Scenario.shop) = 4%nat.
Proof.
  unfold Scenario.fact_of.
  destruct (Scenario.dims_of Scenario.shop) as [d|] eqn:Ed; [|vm_compute in Ed; discriminate].
  cbn [bind].
  destruct (FactOrdersBuilder.build Frame.in_order Frame.in_order Scenario.shop d
              (Scenario.clock 5)) as [[fact d']|] eqn:Eb.
  - destruct (fact_row_count Frame.in_order Frame.in_order Scenario.shop d
                (Scenario.clock 5) fact d' Eb) as [Hn _].
    exists fact, d'. split; [reflexivity|]. split; [rewrite Hn|]; reflexivity.
  - exfalso. vm_compute in Ed. inversion Ed; subst d. vm_compute in Eb. discriminate.
Defined.
